(** * mn-cal: weekend availability of venues from all-day calendar events

    A shallow embedding of [app/calendar.py] and [app/main.py].

    Definitions
    - [Py]       : the handful of Python notions the code relies on
                   (exceptions, truthiness, [str.replace]).
    - [Date]     : [datetime.date], [datetime.datetime] and [timedelta] as
                   CPython's [datetime.py] computes them.
    - [Graph]    : the JSON shapes exchanged with the token endpoint and
                   with the Graph event listing.
    - [Process]  : the module globals, the environment, and the effects
                   (state, exceptions, awaited HTTP calls).
    - [Calendar] : [calendar.py] (token cache, paginated fetch).
    - [Main]     : [main.py] (venue cache, refresh, weekend projection).
    - [Notions]  : what the properties are stated with.
    - [Sample], [Sample2] : concrete events, answers and worlds.
    - [Api]      : [main.py], the availability endpoint.
    - [Requests] : the shape of the request log.

    Properties
    - [DateFacts], [MainFacts] : the calendar and the weekend projection.
    - [CalendarFacts], [TokenFacts], [FetchFacts] : events, token cache,
                   pagination.
    - [RefreshFacts] : the refresh of the venue cache.
    - [SampleFacts], [Witnesses], [Examples] : the sample data.
    - [ProjectionFacts], [ApiFacts] : more on the projection and on the
                   endpoint that serves it.
    - [CredentialFacts], [PaginationFacts], [CycleFacts] : more on the
                   token cache, on the fetch and on the refresh.
    - [HandleFacts] : a venue without a calendar handle.
    - [ServiceFacts] : the endpoint before and after a refresh.
    - [MoreSampleFacts], [MoreWitnesses] : these on the sample data. *)

From stdpp Require Import gmap strings list pretty.
From Stdlib Require Import ZArith Lia Ascii String Sorted.

Local Open Scope Z_scope.

(** ** Python notions *)
Module Py.

(** The exception classes that occur; every one derives from [Exception]. *)
Inductive exn : Set :=
| ValueError | OverflowError | KeyError | AttributeError | TransportError.

(** A call that returns (normally) or raises. *)
Inductive result (A : Type) : Type :=
| Ok (a : A)
| Raise (e : exn).
Arguments Ok {A} a.
Arguments Raise {A} e.

Definition rbind {A B} (r : result A) (k : A → result B) : result B :=
  match r with
  | Ok a => k a
  | Raise e => Raise e
  end.

(** [bool(s)] for a [str]. *)
Definition truthy (s : string) : bool := negb (String.eqb s "").

(** [bool(o)] for [o : str | None]. *)
Definition truthy_opt (o : option string) : bool :=
  match o with
  | Some s => truthy s
  | None => false
  end.

(** [s.replace("Z", "")]. *)
Fixpoint replace_Z (s : string) : string :=
  match s with
  | EmptyString => EmptyString
  | String c r => if Ascii.eqb c "Z"%char then replace_Z r else String c (replace_Z r)
  end.

End Py.
Import Py.

(** ** Dates and times

    A [date] is represented by its proleptic Gregorian ordinal
    ([date.toordinal()], 1 for 0001-01-01); construction, field access,
    weekday, ISO rendering and day arithmetic follow [datetime.py].
    Comparison of dates is comparison of ordinals. *)
Module Date.

Definition MINYEAR : Z := 1.
Definition MAXYEAR : Z := 9999.
Definition _MAXORDINAL : Z := 3652059.

Definition _DAYS_IN_MONTH : list Z :=
  [-1; 31; 28; 31; 30; 31; 30; 31; 31; 30; 31; 30; 31].
Definition _DAYS_BEFORE_MONTH : list Z :=
  [-1; 0; 31; 59; 90; 120; 151; 181; 212; 243; 273; 304; 334].

Definition tbl (t : list Z) (i : Z) : Z := nth (Z.to_nat i) t 0.

Definition _is_leap (year : Z) : bool :=
  (year mod 4 =? 0) && (negb (year mod 100 =? 0) || (year mod 400 =? 0)).

Definition _days_before_year (year : Z) : Z :=
  let y := year - 1 in y * 365 + y / 4 - y / 100 + y / 400.

Definition _days_in_month (year month : Z) : Z :=
  if (month =? 2) && _is_leap year then 29 else tbl _DAYS_IN_MONTH month.

Definition _days_before_month (year month : Z) : Z :=
  tbl _DAYS_BEFORE_MONTH month + (if (2 <? month) && _is_leap year then 1 else 0).

Definition _ymd2ord (year month day : Z) : Z :=
  _days_before_year year + _days_before_month year month + day.

Definition _DI400Y : Z := 146097.
Definition _DI100Y : Z := 36524.
Definition _DI4Y : Z := 1461.

Definition _ord2ymd (n : Z) : Z * Z * Z :=
  let n := n - 1 in
  let n400 := n / _DI400Y in
  let n := n mod _DI400Y in
  let year := n400 * 400 + 1 in
  let n100 := n / _DI100Y in
  let n := n mod _DI100Y in
  let n4 := n / _DI4Y in
  let n := n mod _DI4Y in
  let n1 := n / 365 in
  let n := n mod 365 in
  let year := year + n100 * 100 + n4 * 4 + n1 in
  if (n1 =? 4) || (n100 =? 4) then (year - 1, 12, 31)
  else
    let leapyear := (n1 =? 3) && (negb (n4 =? 24) || (n100 =? 3)) in
    let month := Z.shiftr (n + 50) 5 in
    let preceding :=
      tbl _DAYS_BEFORE_MONTH month + (if (2 <? month) && leapyear then 1 else 0) in
    if n <? preceding then
      let month := month - 1 in
      let preceding :=
        preceding - (tbl _DAYS_IN_MONTH month
                     + (if (month =? 2) && leapyear then 1 else 0)) in
      (year, month, n - preceding + 1)
    else (year, month, n - preceding + 1).

(** A value of type [date]: an ordinal between [date.min] and [date.max]. *)
Definition valid (d : Z) : Prop := 1 ≤ d ≤ _MAXORDINAL.

(** The arguments of [date(...)] are converted to C [int]s first. *)
Definition fits_C_int (n : Z) : bool := (-2147483648 <=? n) && (n <=? 2147483647).

(** [date(year, month, day)]: [OverflowError] for an argument that does
    not fit a C [int], [ValueError] for one out of range. *)
Definition date (year month day : Z) : result Z :=
  if negb (fits_C_int year && fits_C_int month && fits_C_int day)
  then Raise OverflowError
  else if negb ((MINYEAR <=? year) && (year <=? MAXYEAR)) then Raise ValueError
  else if negb ((1 <=? month) && (month <=? 12)) then Raise ValueError
  else if negb ((1 <=? day) && (day <=? _days_in_month year month)) then Raise ValueError
  else Ok (_ymd2ord year month day).

Definition year (d : Z) : Z := (_ord2ymd d).1.1.

(** [d.weekday()]: Monday is 0, Sunday is 6. *)
Definition weekday (d : Z) : Z := (d + 6) mod 7.

(** [d + timedelta(days=n)]. *)
Definition add_days (d n : Z) : result Z :=
  let o := d + n in
  if (0 <? o) && (o <=? _MAXORDINAL) then Ok o else Raise OverflowError.

(** [timedelta(days=n)] itself is limited to 999999999 days. *)
Definition timedelta_days (n : Z) : result Z :=
  if (Z.abs n <=? 999999999) then Ok n else Raise OverflowError.

Definition digit (n : Z) : ascii :=
  Ascii.ascii_of_nat (48 + Z.to_nat (n mod 10)).

(** ["%04d" % n] and ["%02d" % n], for the ranges of a year, a month, a day. *)
Definition fmt04 (n : Z) : string :=
  String (digit (n / 1000)) (String (digit (n / 100))
    (String (digit (n / 10)) (String (digit n) EmptyString))).
Definition fmt02 (n : Z) : string :=
  String (digit (n / 10)) (String (digit n) EmptyString).

(** [d.isoformat()]. *)
Definition isoformat (d : Z) : string :=
  let '(y, m, dd) := _ord2ymd d in
  fmt04 y +:+ "-" +:+ fmt02 m +:+ "-" +:+ fmt02 dd.

(** A [datetime] in UTC is counted in microseconds from
    0001-01-01T00:00:00; [datetime.max] is the last microsecond of 9999. *)
Definition US_PER_SECOND : Z := 1000000.
Definition US_PER_DAY : Z := 86400 * US_PER_SECOND.
Definition DATETIME_MAX : Z := _MAXORDINAL * US_PER_DAY - 1.
(** 1970-01-01T00:00:00, ordinal 719163. *)
Definition UNIX_EPOCH : Z := 719162 * US_PER_DAY.

(** [timedelta(seconds=n)], [timedelta(minutes=n)] in microseconds. *)
Definition timedelta_seconds (n : Z) : result Z :=
  if (Z.abs (n / 86400) <=? 999999999)
  then Ok (n * US_PER_SECOND) else Raise OverflowError.
Definition timedelta_minutes (n : Z) : Z := n * 60 * US_PER_SECOND.

(** [t + delta] and [t - delta] on a [datetime]. *)
Definition datetime_add (t delta : Z) : result Z :=
  let r := t + delta in
  if (0 <=? r) && (r <=? DATETIME_MAX) then Ok r else Raise OverflowError.
Definition datetime_sub (t delta : Z) : result Z := datetime_add t (- delta).

End Date.

(** ** Provider payloads

    The JSON that the token endpoint and the Graph event listing answer
    with, after [response.json()].  A key that the code reads with
    [dict.get] may be absent ([None] here). *)
Module Graph.

(** Graph's [dateTimeTimeZone]; only ["dateTime"] is read, and only for
    its truth value before it is parsed: [None] stands for a key that is
    absent or holds [null]. *)
Record dateTimeTimeZone : Type := { dateTime : option string }.

(** A key whose value the code goes on to call [.get] on: it is absent,
    or it holds [null], or it holds an object. *)
Inductive member (A : Type) : Type :=
| Absent
| Null
| Object (a : A).
Arguments Absent {A}.
Arguments Null {A}.
Arguments Object {A} a.

(** One element of ["value"]: the selected fields of an [event].
    ["isAllDay"] is read for its truth value only: [None] stands for a
    key that is absent or holds [null]. *)
Record event : Type := {
  isAllDay : option bool;
  start : member dateTimeTimeZone;
  end_ : member dateTimeTimeZone;
}.

(** A JSON object, with the keys the code looks at.  ["access_token"] is a
    string and ["expires_in"] the lifetime of the token in seconds, an
    integer: RFC 6749 has it positive, the code takes it as it comes. *)
Record json : Type := {
  access_token : option string;
  expires_in : option Z;
  value : option (list event);
  odata_nextLink : option string;
}.

(** What an [httpx] call comes back with: a transport failure (an
    exception), or a response with its status code and its body, [None]
    when [response.json()] raises. *)
Inductive http_outcome : Type :=
| TransportFailure
| Response (status_code : Z) (body : option json).

(** One completed call: the wall clock when the [await] resumes, and what
    came back. *)
Record exchange : Type := { arrival : Z; answer : http_outcome }.

(** The requests the code sends. *)
Inductive request : Type :=
| POST (url : string) (data : list (string * string))
| GET (url : string) (params : option (list (string * string))) (authorization : string).

End Graph.
Import Graph.

(** ** Process state and effects *)
Module Process.

(** One value of [main._cache]. *)
Record cache_entry : Type := {
  booked_dates : gset Z;
  last_updated : option Z;
}.

(** The module globals of both files, and the environment the code reads
    and acts on.  [network] is the sequence of answers the next [await]ed
    HTTP calls will receive; [sent] logs the requests, oldest first.

    The coroutines run on one asyncio event loop.  The request handlers
    that read [_cache] are [async def] functions without an [await]: they
    run whole, and only while the refresh is suspended at an [await].
    [seen_by_readers] logs, at every awaited HTTP call, the content of
    [_cache] that a handler scheduled at that point reads.  The other
    awaits of the fetch (entering and leaving the [httpx] client) surround
    such a call, with [_cache] untouched in between. *)
Record world : Type := {
  environ : gmap string string;
  _cached_token : option string;
  _token_expires_at : option Z;
  _cache : gmap string cache_entry;
  clock : Z;
  today : Z;
  network : list exchange;
  sent : list request;
  seen_by_readers : list (gmap string cache_entry);
}.

Definition set_cached_token (v : option string) (w : world) : world :=
  {| environ := environ w; _cached_token := v;
     _token_expires_at := _token_expires_at w; _cache := _cache w;
     clock := clock w; today := today w; network := network w;
     sent := sent w; seen_by_readers := seen_by_readers w |}.

Definition set_token_expires_at (v : option Z) (w : world) : world :=
  {| environ := environ w; _cached_token := _cached_token w;
     _token_expires_at := v; _cache := _cache w;
     clock := clock w; today := today w; network := network w;
     sent := sent w; seen_by_readers := seen_by_readers w |}.

Definition set_cache (c : gmap string cache_entry) (w : world) : world :=
  {| environ := environ w; _cached_token := _cached_token w;
     _token_expires_at := _token_expires_at w; _cache := c;
     clock := clock w; today := today w; network := network w;
     sent := sent w; seen_by_readers := seen_by_readers w |}.

(** The coroutine is suspended: readers may run and see [_cache]. *)
Definition suspended (w : world) : world :=
  {| environ := environ w; _cached_token := _cached_token w;
     _token_expires_at := _token_expires_at w; _cache := _cache w;
     clock := clock w; today := today w; network := network w;
     sent := sent w; seen_by_readers := seen_by_readers w ++ [_cache w] |}.

(** The request goes out. *)
Definition sending (r : request) (w : world) : world :=
  {| environ := environ w; _cached_token := _cached_token w;
     _token_expires_at := _token_expires_at w; _cache := _cache w;
     clock := clock w; today := today w; network := network w;
     sent := sent w ++ [r]; seen_by_readers := seen_by_readers w |}.

(** The answer [x] has arrived; [rest] is still to come. *)
Definition received (x : exchange) (rest : list exchange) (w : world) : world :=
  {| environ := environ w; _cached_token := _cached_token w;
     _token_expires_at := _token_expires_at w; _cache := _cache w;
     clock := arrival x; today := today w; network := rest;
     sent := sent w; seen_by_readers := seen_by_readers w |}.

(** How a call ends: it returns, it raises, or it is still awaiting an
    answer that [network] does not hold. *)
Inductive outcome (A : Type) : Type :=
| Returned (a : A)
| Raised (e : exn)
| Pending.
Arguments Returned {A} a.
Arguments Raised {A} e.
Arguments Pending {A}.

Definition M (A : Type) : Type := world → outcome A * world.

Definition ret {A} (a : A) : M A := λ w, (Returned a, w).
Definition bind {A B} (m : M A) (k : A → M B) : M B := λ w,
  match m w with
  | (Returned a, w') => k a w'
  | (Raised e, w') => (Raised e, w')
  | (Pending, w') => (Pending, w')
  end.

Notation "'do' x <- m ; k" := (bind m (λ x, k))
  (at level 10, x name, m at level 100, k at level 200).

Definition gets {A} (f : world → A) : M A := λ w, (Returned (f w), w).
Definition modify (f : world → world) : M unit := λ w, (Returned tt, f w).
Definition raise {A} (e : exn) : M A := λ w, (Raised e, w).
Definition lift {A} (r : result A) : M A :=
  match r with
  | Ok a => ret a
  | Raise e => raise e
  end.

(** [try: m  except Exception: h]. *)
Definition try_except {A} (m : M A) (h : exn → M A) : M A := λ w,
  match m w with
  | (Raised e, w') => h e w'
  | r => r
  end.

(** [await client.post(...)] / [await client.get(...)]. *)
Definition http (r : request) : M (Z * option json) := λ w,
  let w := suspended (sending r w) in
  match network w with
  | [] => (Pending, w)
  | x :: rest =>
      match answer x with
      | TransportFailure => (Raised TransportError, received x rest w)
      | Response status body => (Returned (status, body), received x rest w)
      end
  end.

(** [response.json()]. *)
Definition response_json (body : option json) : M json :=
  match body with
  | Some data => ret data
  | None => raise ValueError
  end.

(** [datetime.now(timezone.utc)] and [date.today()]. *)
Definition now : M Z := gets clock.
Definition date_today : M Z := gets today.

End Process.
Import Process.

(** ** [app/calendar.py] *)
Module Calendar.

(** Venue names, in the order of the dict literal. *)
Definition CALENDARS : list (string * string) :=
  [("garden", "garden"); ("ballroom", "ballroom")].

Definition TOKEN_URL : string :=
  "https://login.microsoftonline.com/consumers/oauth2/v2.0/token".
Definition GRAPH_API_BASE : string := "https://graph.microsoft.com/v1.0".

Record config : Type := {
  client_id : string;
  client_secret : string;
  refresh_token : string;
  calendar_ids : gmap string string;
}.

(** [os.environ.get(k, "")]. *)
Definition getenv (k : string) (w : world) : string := default "" (environ w !! k).

(** [_get_config()] reads the environment when it is called. *)
Definition _get_config (w : world) : config :=
  {| client_id := getenv "MS_CLIENT_ID" w;
     client_secret := getenv "MS_CLIENT_SECRET" w;
     refresh_token := getenv "MS_REFRESH_TOKEN" w;
     calendar_ids :=
       <["ballroom" := getenv "CALENDAR_ID_BALLROOM" w]>
         (<["garden" := getenv "CALENDAR_ID_GARDEN" w]> ∅) |}.

(** Lines 45-48: the cached token when it is still good for five minutes. *)
Definition cached_token_if_fresh : M (option string) :=
  do tok <- gets _cached_token;
  do exp <- gets _token_expires_at;
  match tok, exp with
  | Some tok, Some exp =>
      if truthy tok then
        do t <- now;
        do limit <- lift (Date.datetime_sub exp (Date.timedelta_minutes 5));
        ret (if t <? limit then Some tok else None)
      else ret None
  | _, _ => ret None
  end.

Definition token_request (c : config) : request :=
  POST TOKEN_URL
    [("client_id", client_id c); ("client_secret", client_secret c);
     ("refresh_token", refresh_token c); ("grant_type", "refresh_token");
     ("scope", "offline_access Calendars.Read")].

(** Lines 51-71, the body of the [try]. *)
Definition refresh_the_token (c : config) : M (option string) :=
  do response <- http (token_request c);
  if negb (response.1 =? 200) then ret None
  else
    do data <- response_json response.2;
    do tok <- lift (match access_token data with
                | Some t => Ok t
                | None => Raise KeyError
                end);
    do _ <- modify (set_cached_token (Some tok));
    do t <- now;
    do delta <- lift (Date.timedelta_seconds (default 3600 (expires_in data)));
    do exp <- lift (Date.datetime_add t delta);
    do _ <- modify (set_token_expires_at (Some exp));
    gets _cached_token.

Definition get_access_token : M (option string) :=
  do c <- gets _get_config;
  if negb (truthy (refresh_token c)) then ret None
  else
    do cached <- cached_token_if_fresh;
    match cached with
    | Some tok => ret (Some tok)
    | None => try_except (refresh_the_token c) (λ _, ret None)
    end.

Definition events_params : list (string * string) :=
  [("$select", "subject,start,end,isAllDay,showAs"); ("$top", "500");
   ("$orderby", "start/dateTime")].

Definition events_url (calendar_id : string) : string :=
  if truthy calendar_id
  then GRAPH_API_BASE +:+ "/me/calendars/" +:+ calendar_id +:+ "/events"
  else GRAPH_API_BASE +:+ "/me/calendar/events".

(** [x.get("dateTime", "")] for [x = event.get("start", {})].  The default
    [{}] stands in for an absent key only: when the key holds [null], [x]
    is [None] and the second [get] raises [AttributeError]. *)
Definition get_dateTime (x : member dateTimeTimeZone) : result string :=
  match x with
  | Object o => Ok (default "" (dateTime o))
  | Absent => Ok ""
  | Null => Raise AttributeError
  end.

Section Fetch.

(** [datetime.fromisoformat(s).date()], a function of the standard
    library: it returns a date or raises [ValueError]. *)
Variable fromisoformat_date : string → result Z.

(** Lines 131-135.  The set is a mutable object: what was added before an
    exception stays added.  [fuel] bounds the iterations. *)
Fixpoint add_event_days (fuel : nat) (current event_end start_date end_date : Z)
    (booked_dates : gset Z) : gset Z * result unit :=
  if current <? event_end then
    match fuel with
    | O => (booked_dates, Ok tt)
    | S fuel =>
        let booked_dates :=
          if (start_date <=? current) && (current <=? end_date)
          then {[current]} ∪ booked_dates else booked_dates in
        match Date.add_days current 1 with
        | Ok current =>
            add_event_days fuel current event_end start_date end_date booked_dates
        | Raise e => (booked_dates, Raise e)
        end
    end
  else (booked_dates, Ok tt).

(** Lines 115-135, the body of [for event in events]. *)
Definition process_event (ev : event) (start_date end_date : Z)
    (booked_dates : gset Z) : gset Z * result unit :=
  if negb (default false (isAllDay ev)) then (booked_dates, Ok tt)
  else
    match get_dateTime (start ev) with
    | Raise e => (booked_dates, Raise e)
    | Ok start_str =>
        match get_dateTime (end_ ev) with
        | Raise e => (booked_dates, Raise e)
        | Ok end_str =>
            if negb (truthy start_str) || negb (truthy end_str)
            then (booked_dates, Ok tt)
            else
              match fromisoformat_date (replace_Z start_str) with
              | Raise e => (booked_dates, Raise e)
              | Ok event_start =>
                  match fromisoformat_date (replace_Z end_str) with
                  | Raise e => (booked_dates, Raise e)
                  | Ok event_end =>
                      add_event_days (Z.to_nat (event_end - event_start))
                        event_start event_end start_date end_date booked_dates
                  end
              end
        end
    end.

Fixpoint process_events (events : list event) (start_date end_date : Z)
    (booked_dates : gset Z) : gset Z * result unit :=
  match events with
  | [] => (booked_dates, Ok tt)
  | ev :: events =>
      match process_event ev start_date end_date booked_dates with
      | (booked_dates, Ok _) => process_events events start_date end_date booked_dates
      | r => r
      end
  end.

(** A step inside the [try] of [fetch_calendar_events_graph]: an exception
    goes to the [except] clause, which logs it; the function then returns
    the set as accumulated so far. *)
Definition in_try {A} (booked_dates : gset Z) (m : M A) (k : A → M (gset Z))
    : M (gset Z) := λ w,
  match m w with
  | (Returned a, w') => k a w'
  | (Raised _, w') => (Returned booked_dates, w')
  | (Pending, w') => (Pending, w')
  end.

(** Lines 99-138, [while url:].  Every iteration awaits one answer, so
    one more unit of [fuel] than there are answers is always enough. *)
Fixpoint fetch_pages (fuel : nat) (url : option string)
    (params : option (list (string * string))) (access_token : string)
    (start_date end_date : Z) (booked_dates : gset Z) : M (gset Z) :=
  match fuel with
  | O => λ w, (Pending, w)
  | S fuel =>
      match url with
      | Some u =>
          if truthy u then
            in_try booked_dates
              (http (GET u params ("Bearer " +:+ access_token)))
              (λ response,
                if negb (response.1 =? 200) then ret booked_dates
                else
                  in_try booked_dates (response_json response.2) (λ data,
                    let events := default [] (value data) in
                    match process_events events start_date end_date booked_dates with
                    | (booked_dates, Raise _) => ret booked_dates
                    | (booked_dates, Ok _) =>
                        fetch_pages fuel (odata_nextLink data) None access_token
                          start_date end_date booked_dates
                    end))
          else ret booked_dates
      | None => ret booked_dates
      end
  end.

Definition fetch_calendar_events_graph (calendar_id : string)
    (start_date end_date : Z) : M (gset Z) :=
  do access_token <- get_access_token;
  if negb (truthy_opt access_token) then ret ∅
  else
    do answers <- gets network;
    fetch_pages (S (List.length answers)) (Some (events_url calendar_id))
      (Some events_params) (default "" access_token) start_date end_date ∅.

Definition get_booked_dates (venue : string) (months_ahead : Z) : M (gset Z) :=
  if negb (bool_decide (venue ∈ CALENDARS.*1)) then ret ∅
  else
    do today <- date_today;
    do delta <- lift (Date.timedelta_days (months_ahead * 30));
    do end_date <- lift (Date.add_days today delta);
    do c <- gets _get_config;
    if negb (truthy (refresh_token c)) then ret ∅
    else
      let calendar_id := default "" (calendar_ids c !! venue) in
      fetch_calendar_events_graph calendar_id today end_date.

End Fetch.

End Calendar.

(** ** [app/main.py] *)
Module Main.
Import Calendar.

Definition VENUES : list string := CALENDARS.*1.

(** Venue lease end dates: [{"ballroom": date(2030, 3, 31)}]. *)
Definition VENUE_LEASE_END : gmap string Z :=
  {[ "ballroom" := Date._ymd2ord 2030 3 31 ]}.

(** [_cache] as the module is loaded. *)
Definition initial_cache : gmap string cache_entry :=
  list_to_map ((λ venue, (venue, {| booked_dates := ∅; last_updated := None |})) <$> VENUES).

(** [_cache[venue][field] = v]: the entry is looked up ([KeyError] when
    there is none) and updated in place. *)
Definition cache_setitem (venue : string) (f : cache_entry → cache_entry) : M unit :=
  do c <- gets _cache;
  match c !! venue with
  | Some e => modify (set_cache (<[venue := f e]> c))
  | None => raise KeyError
  end.

Definition set_booked_dates (b : gset Z) (e : cache_entry) : cache_entry :=
  {| booked_dates := b; last_updated := last_updated e |}.
Definition set_last_updated (t : Z) (e : cache_entry) : cache_entry :=
  {| booked_dates := booked_dates e; last_updated := Some t |}.

Section Refresh.

Variable fromisoformat_date : string → result Z.

(** Lines 34-36, [for venue in venues]. *)
Fixpoint refresh_venues (venues : list string) : M unit :=
  match venues with
  | [] => ret tt
  | venue :: venues =>
      do booked <- get_booked_dates fromisoformat_date venue 48;
      do _ <- cache_setitem venue (set_booked_dates booked);
      do t <- now;
      do _ <- cache_setitem venue (set_last_updated t);
      refresh_venues venues
  end.

Definition refresh_cache : M unit := refresh_venues VENUES.

End Refresh.

(** One dict of the list that [get_weekend_days_for_year] returns. *)
Record weekend_day : Type := {
  date : string;
  day : string;
  available : bool;
}.

Definition day_names : list string :=
  [""; ""; ""; ""; "friday"; "saturday"; "sunday"].

(** Lines 93-99: the dict appended for [current]. *)
Definition day_record (booked_dates : gset Z) (current : Z) : weekend_day :=
  {| date := Date.isoformat current;
     day := nth (Z.to_nat (Date.weekday current)) day_names "";
     available := negb (bool_decide (current ∈ booked_dates)) |}.

Definition is_weekend (current : Z) : bool :=
  bool_decide (Date.weekday current ∈ [4; 5; 6]).

(** Lines 90-100, [while current <= end_date]; [fuel] bounds the
    iterations. *)
Fixpoint weekend_loop (fuel : nat) (current end_date : Z) (booked_dates : gset Z)
    (days : list weekend_day) : result (list weekend_day) :=
  if current <=? end_date then
    match fuel with
    | O => Ok days
    | S fuel =>
        let days :=
          if is_weekend current then days ++ [day_record booked_dates current]
          else days in
        match Date.add_days current 1 with
        | Ok current => weekend_loop fuel current end_date booked_dates days
        | Raise e => Raise e
        end
    end
  else Ok days.

Definition get_weekend_days_for_year (venue : string) (year : Z) (w : world)
    : result (list weekend_day) :=
  let today := today w in
  rbind (Date.date year 1 1) (λ start_date,
  rbind (Date.date year 12 31) (λ end_date,
    let start_date := if year =? Date.year today then today else start_date in
    let lease_end := VENUE_LEASE_END !! venue in
    let end_date :=
      match lease_end with
      | Some l => if l <? end_date then l else end_date
      | None => end_date
      end in
    let days := [] in
    match _cache w !! venue with
    | None => Raise KeyError
    | Some entry =>
        let booked_dates := booked_dates entry in
        match lease_end with
        | Some l =>
            if l <? start_date then Ok days
            else weekend_loop (Z.to_nat (end_date - start_date + 1))
                   start_date end_date booked_dates days
        | None =>
            weekend_loop (Z.to_nat (end_date - start_date + 1))
              start_date end_date booked_dates days
        end
    end)).

End Main.

(** ** Notions used to state the properties *)
Module Notions.
Import Calendar Main.

(** *** Worlds the process can be in

    The environment is well formed when the wall clock, now and at every
    later arrival, is a [datetime] that is not before 1970. *)
Definition clock_ok (t : Z) : Prop := Date.UNIX_EPOCH ≤ t ≤ Date.DATETIME_MAX.

Definition env_ok (w : world) : Prop :=
  clock_ok (clock w) ∧ Forall (λ x, clock_ok (arrival x)) (network w).

(** [w'] differs from [w] only in what the program does not own: time has
    passed, answers were queued or consumed, requests were logged. *)
Definition same_globals (w w' : world) : Prop :=
  environ w' = environ w ∧ _cached_token w' = _cached_token w ∧
  _token_expires_at w' = _token_expires_at w.

(** The worlds in which [get_access_token] can be called: the module is
    loaded with an empty token cache, the environment evolves, and the
    token cache is written by [get_access_token] only. *)
Inductive reachable : world → Prop :=
| reachable_loaded w :
    _cached_token w = None → _token_expires_at w = None → env_ok w →
    reachable w
| reachable_env w w' :
    reachable w → same_globals w w' → env_ok w' → reachable w'
| reachable_call w :
    reachable w → reachable (get_access_token w).2.

(** What holds of the token cache in every such world: a cached token was
    obtained with the configured refresh token, and the stored expiry is a
    [datetime]. *)
Definition token_inv (w : world) : Prop :=
  env_ok w ∧
  (truthy_opt (_cached_token w) = true → truthy (getenv "MS_REFRESH_TOKEN" w) = true) ∧
  (∀ e, _token_expires_at w = Some e → 0 ≤ e ≤ Date.DATETIME_MAX).

(** The answer carries no negative lifetime. *)
Definition lifetime_ok (x : exchange) : Prop :=
  match answer x with
  | Response _ (Some data) => 0 ≤ default 3600 (expires_in data)
  | _ => True
  end.

(** The token cache is settled: the stored expiry, if there is one, is not
    before 1970, and no answer to come carries a negative lifetime. *)
Definition settled (w : world) : Prop :=
  env_ok w ∧ Forall lifetime_ok (network w) ∧
  (∀ e, _token_expires_at w = Some e → clock_ok e).

(** [w'] is [w] after a stretch of execution that leaves [_cache] alone:
    every reader scheduled meanwhile saw the cache of [w]. *)
Definition quiet (w w' : world) : Prop :=
  _cache w' = _cache w ∧ today w' = today w ∧
  ∃ k : nat, seen_by_readers w' = seen_by_readers w ++ replicate k (_cache w).

(** The token exchange failed: no connection, a status other than 200, a
    body that is not JSON, or a JSON body without ["access_token"]. *)
Definition exchange_failed (x : exchange) : Prop :=
  match answer x with
  | TransportFailure => True
  | Response status body =>
      status ≠ 200 ∨
      match body with
      | None => True
      | Some data => access_token data = None
      end
  end.

(** The world once both fields of the entry of [venue] are written
    (lines 35 and 36), starting from [w1]. *)
Definition written (venue : string) (booked : gset Z) (w1 : world) : world :=
  set_cache
    (<[venue := {| booked_dates := booked; last_updated := Some (clock w1) |}]> (_cache w1))
    w1.

(** *** The events of a page *)

(** What lines 116-128 make of an event: it is skipped, it spans
    [event_start, event_end), or it cannot be read: its start or end is
    [null], or a timestamp does not parse. *)
Inductive reading : Type :=
| Skipped
| Spans (event_start event_end : Z)
| Unreadable (e : exn).

Definition read_event (fromisoformat_date : string → result Z) (ev : event) : reading :=
  if negb (default false (isAllDay ev)) then Skipped
  else
    match get_dateTime (start ev), get_dateTime (end_ ev) with
    | Raise e, _ => Unreadable e
    | Ok _, Raise e => Unreadable e
    | Ok start_str, Ok end_str =>
        if negb (truthy start_str) then Skipped
        else if negb (truthy end_str) then Skipped
        else
          match fromisoformat_date (replace_Z start_str) with
          | Raise e => Unreadable e
          | Ok s =>
              match fromisoformat_date (replace_Z end_str) with
              | Raise e => Unreadable e
              | Ok e => Spans s e
              end
          end
    end.

Definition readable (fromisoformat_date : string → result Z) (ev : event) : Prop :=
  ∀ e, read_event fromisoformat_date ev ≠ Unreadable e.

(** The start or the end of an event holds no timestamp: the key is
    absent, or its object has no ["dateTime"] or an empty one. *)
Definition lacks_timestamp (x : member dateTimeTimeZone) : Prop :=
  x = Absent ∨ ∃ o, x = Object o ∧ (dateTime o = None ∨ dateTime o = Some "").

(** [ev] is an all-day event from [s] to [e]: it is flagged all-day, and
    its start and its end hold timestamps that parse to the dates [s] and
    [e]. *)
Definition all_day_from_to (fromisoformat_date : string → result Z) (ev : event)
    (s e : Z) : Prop :=
  isAllDay ev = Some true ∧
  ∃ start_str end_str,
    start ev = Object {| dateTime := Some start_str |} ∧
    end_ ev = Object {| dateTime := Some end_str |} ∧
    start_str ≠ "" ∧ end_str ≠ "" ∧
    fromisoformat_date (replace_Z start_str) = Ok s ∧
    fromisoformat_date (replace_Z end_str) = Ok e.

(** The dates that the events [evs] book inside [start_date, end_date]. *)
Definition booked_by (fromisoformat_date : string → result Z) (evs : list event)
    (start_date end_date d : Z) : Prop :=
  ∃ ev s e, ev ∈ evs ∧ read_event fromisoformat_date ev = Spans s e ∧
    s ≤ d < e ∧ start_date ≤ d ≤ end_date.

(** An answer carrying a page of events. *)
Definition page (t : Z) (data : json) : exchange :=
  {| arrival := t; answer := Response 200 (Some data) |}.

Definition page_events (p : Z * json) : list event := default [] (value p.2).

(** The answers that carry the pages [ps], and the events of these pages
    in the order in which they are processed. *)
Definition answers (ps : list (Z * json)) : list exchange := (λ p, page p.1 p.2) <$> ps.
Definition events_of (ps : list (Z * json)) : list event := List.concat (page_events <$> ps).

(** The pagination goes on after this page. *)
Definition has_next (p : Z * json) : Prop := truthy_opt (odata_nextLink p.2) = true.

(** An answer that ends the pagination with an error: a transport
    failure, a status other than 200, or a body that is not JSON. *)
Definition failed (x : exchange) : Prop :=
  match answer x with
  | TransportFailure => True
  | Response status body => status ≠ 200 ∨ body = None
  end.

(** *** The projection *)

(** The scan window of [get_weekend_days_for_year]. *)
Definition window_start (year today : Z) : Z :=
  if year =? Date.year today then today else Date._ymd2ord year 1 1.

Definition window_end (venue : string) (year : Z) : Z :=
  match VENUE_LEASE_END !! venue with
  | Some l => Z.min l (Date._ymd2ord year 12 31)
  | None => Date._ymd2ord year 12 31
  end.

(** The records of the weekend days from [a] to [b]. *)
Definition weekend_records (booked_dates : gset Z) (a b : Z) : list weekend_day :=
  day_record booked_dates <$> filter (λ c, is_weekend c = true) (seqZ a (b - a + 1)).

#[export] Instance weekend_day_eq_dec : EqDecision weekend_day.
Proof. solve_decision. Defined.

(** [r] is the record that [days] holds for the ISO date [iso]. *)
Definition record_for (days : list weekend_day) (iso : string) (r : weekend_day) : Prop :=
  r ∈ days ∧ date r = iso ∧ ∀ r', r' ∈ days → date r' = iso → r' = r.

(** *** Calendar months

    The date [n] months after [d]: same day of the month, [n] months
    later, or the last day of that month when it is shorter. *)
Definition months_after (n d : Z) : Z :=
  let '(y, m, dd) := Date._ord2ymd d in
  let k := (m - 1) + n in
  let y' := y + k / 12 in
  let m' := k mod 12 + 1 in
  Date._ymd2ord y' m' (Z.min dd (Date._days_in_month y' m')).

End Notions.

(** ** Sample data *)
Module Sample.
Import Calendar Main Notions.

(** [datetime.fromisoformat(s).date()] as CPython 3.11 computes it
    ([Modules/_datetimemodule.c]), on a [str] given by its UTF-8 bytes.
    The C code walks a NUL-terminated buffer: reading at the end of the
    string gives [NUL]. *)
Definition NUL : ascii := Ascii.zero.

Definition hd (s : string) : ascii :=
  match s with
  | String c _ => c
  | EmptyString => NUL
  end.

Definition tl (s : string) : string :=
  match s with
  | String _ r => r
  | EmptyString => EmptyString
  end.

Fixpoint drop (n : nat) (s : string) : string :=
  match n with
  | O => s
  | S n => drop n (tl s)
  end.

Definition digit_value (c : ascii) : option Z :=
  let n := Z.of_nat (nat_of_ascii c) in
  if (48 <=? n) && (n <=? 57) then Some (n - 48) else None.

Definition is_digit (c : ascii) : bool :=
  match digit_value c with
  | Some _ => true
  | None => false
  end.

(** [parse_digits]: exactly [n] decimal digits. *)
Fixpoint parse_digits (n : nat) (acc : Z) (s : string) : option (Z * string) :=
  match n with
  | O => Some (acc, s)
  | S n =>
      match digit_value (hd s) with
      | Some d => parse_digits n (10 * acc + d) (tl s)
      | None => None
      end
  end.

(** [_find_isoformat_datetime_separator]; [None] is its [-1]. *)
Fixpoint digits_until (fuel idx len : nat) (s : string) : nat :=
  match fuel with
  | O => idx
  | S fuel =>
      if (idx <? len)%nat && is_digit (hd s)
      then digits_until fuel (S idx) len (tl s) else idx
  end.

Definition find_separator (s : string) (len : nat) : option nat :=
  if (len =? 7)%nat then Some 7%nat
  else if Ascii.eqb (hd (drop 4 s)) "-" then
    if Ascii.eqb (hd (drop 5 s)) "W" then
      if (len <? 8)%nat then None
      else if (8 <? len)%nat && Ascii.eqb (hd (drop 8 s)) "-" then
        if (len =? 9)%nat then None
        else if (10 <? len)%nat && is_digit (hd (drop 10 s)) then Some 8%nat
        else Some 10%nat
      else Some 8%nat
    else Some 10%nat
  else if Ascii.eqb (hd (drop 4 s)) "W" then
    let idx := digits_until len 7 len (drop 7 s) in
    if (idx <? 9)%nat then Some idx
    else if Nat.even idx then Some 7%nat else Some 8%nat
  else Some 8%nat.

(** [iso_to_ymd].  For the ISO year 0 the C arithmetic ends, whatever the
    week and the day, in a month that is not in 1..12. *)
Definition iso_week1_monday (year : Z) : Z :=
  let first_day := Date._ymd2ord year 1 1 in
  let first_weekday := (first_day + 6) mod 7 in
  let week1_monday := first_day - first_weekday in
  if 3 <? first_weekday then week1_monday + 7 else week1_monday.

Definition iso_to_ymd (iso_year iso_week iso_day : Z) : option (Z * Z * Z) :=
  if iso_year =? 0 then None
  else
    let first_weekday := Date.weekday (Date._ymd2ord iso_year 1 1) in
    let week_53 :=
      (iso_week =? 53) &&
      ((first_weekday =? 3) || ((first_weekday =? 2) && Date._is_leap iso_year)) in
    if ((iso_week <=? 0) || (53 <=? iso_week)) && negb week_53 then None
    else if (iso_day <=? 0) || (8 <=? iso_day) then None
    else
      Some (Date._ord2ymd
              (iso_week1_monday iso_year + ((iso_week - 1) * 7 + iso_day - 1))).

(** [parse_isoformat_date]; [len] is the place of the separator. *)
Definition parse_isoformat_date (s : string) (len : nat) : option (Z * Z * Z) :=
  match parse_digits 4 0 s with
  | None => None
  | Some (year, p) =>
      let uses_separator := Ascii.eqb (hd p) "-" in
      let p := if uses_separator then tl p else p in
      let pos := if uses_separator then 5%nat else 4%nat in
      if Ascii.eqb (hd p) "W" then
        match parse_digits 2 0 (tl p) with
        | None => None
        | Some (iso_week, p) =>
            if (pos + 3 <? len)%nat then
              if uses_separator && negb (Ascii.eqb (hd p) "-") then None
              else
                let p := if uses_separator then tl p else p in
                match parse_digits 1 0 p with
                | None => None
                | Some (iso_day, _) => iso_to_ymd year iso_week iso_day
                end
            else iso_to_ymd year iso_week 1
        end
      else
        match parse_digits 2 0 p with
        | None => None
        | Some (month, p) =>
            if uses_separator && negb (Ascii.eqb (hd p) "-") then None
            else
              let p := if uses_separator then tl p else p in
              match parse_digits 2 0 p with
              | None => None
              | Some (day, _) => Some (year, month, day)
              end
        end
  end.

(** [parse_hh_mm_ss_ff] on the [n] bytes at [s]: the fields read, and
    whether something is left behind them; [None] is a negative code. *)
Inductive fields : Type :=
| Malformed
| Done (more : bool) (vals : list Z)
| Fraction (s : string) (n : nat) (vals : list Z).

Fixpoint parse_fields (todo : nat) (first has_separator : bool) (s : string) (n : nat)
    (vals : list Z) : fields :=
  match todo with
  | O => Fraction s n vals
  | S todo =>
      match parse_digits 2 0 s with
      | None => Malformed
      | Some (v, p) =>
          let vals := vals ++ [v] in
          let c := hd p in
          let has_separator := if first then Ascii.eqb c ":" else has_separator in
          if (n <=? 3)%nat then Done (negb (Ascii.eqb c NUL)) vals
          else if has_separator && Ascii.eqb c ":"
          then parse_fields todo false has_separator (tl p) (n - 3) vals
          else if Ascii.eqb c "." || Ascii.eqb c ","
          then Fraction (tl p) (n - 3) vals
          else if negb has_separator
          then parse_fields todo false has_separator p (n - 2) vals
          else Malformed
      end
  end.

Fixpoint skip_digits (fuel : nat) (s : string) : string :=
  match fuel with
  | O => s
  | S fuel => if is_digit (hd s) then skip_digits fuel (tl s) else s
  end.

Definition parse_hh_mm_ss_ff (s : string) (n : nat) : option (bool * (Z * Z * Z)) :=
  let hms vals := (nth 0 vals 0, nth 1 vals 0, nth 2 vals 0) in
  match parse_fields 3 true true s n [] with
  | Malformed => None
  | Done more vals => Some (more, hms vals)
  | Fraction p n vals =>
      match parse_digits (Nat.min 6 n) 0 p with
      | None => None
      | Some (_, p) =>
          let p := skip_digits (String.length p) p in
          Some (negb (Ascii.eqb (hd p) NUL), hms vals)
      end
  end.

(** [parse_isoformat_time]: the time of day and the offset from UTC in
    seconds, when there is one. *)
Definition is_tz_char (c : ascii) : bool :=
  Ascii.eqb c "Z" || Ascii.eqb c "+" || Ascii.eqb c "-".

Fixpoint tzinfo_pos (fuel : nat) (s : string) (j dtlen : nat) : nat :=
  if is_tz_char (hd s) then j
  else
    match fuel with
    | O => S j
    | S fuel => if (S j <? dtlen)%nat then tzinfo_pos fuel (tl s) (S j) dtlen else S j
    end.

Definition parse_isoformat_time (s : string) (dtlen : nat)
    : option (Z * Z * Z * option Z) :=
  let j := tzinfo_pos dtlen s 0 dtlen in
  match parse_hh_mm_ss_ff s j with
  | None => None
  | Some (more, hms) =>
      if (j =? dtlen)%nat then if more then None else Some (hms, None)
      else if Ascii.eqb (hd (drop j s)) "Z" then
        if Ascii.eqb (hd (drop (S j) s)) NUL then Some (hms, Some 0) else None
      else
        let tzsign := if Ascii.eqb (hd (drop j s)) "-" then -1 else 1 in
        match parse_hh_mm_ss_ff (drop (S j) s) (dtlen - S j) with
        | Some (false, (tzhour, tzminute, tzsecond)) =>
            Some (hms, Some (tzsign * (tzhour * 3600 + tzminute * 60 + tzsecond)))
        | _ => None
        end
  end.

(** The width of the UTF-8 character that starts with the byte [c]. *)
Definition utf8_width (c : ascii) : nat :=
  let n := Z.of_nat (nat_of_ascii c) in
  if Z.land n 128 =? 0 then 1%nat
  else if Z.land n 240 =? 224 then 3%nat
  else if Z.land n 240 =? 240 then 4%nat
  else 2%nat.

(** [datetime.fromisoformat(s).date()]: every failure is a [ValueError]. *)
Definition fromisoformat_date (s : string) : result Z :=
  let len := String.length s in
  if (len <? 7)%nat then Raise ValueError
  else
    match find_separator s len with
    | None => Raise ValueError
    | Some separator_location =>
        match parse_isoformat_date s separator_location with
        | None => Raise ValueError
        | Some (year, month, day) =>
            if (separator_location <? len)%nat then
              let p := (separator_location + utf8_width (hd (drop separator_location s)))%nat in
              if (len <? p)%nat then Raise ValueError
              else
                match parse_isoformat_time (drop p s) (len - p) with
                | None => Raise ValueError
                | Some ((hour, minute, second), tz) =>
                    if negb (Z.abs (default 0 tz) <? 86400) then Raise ValueError
                    else if negb ((hour <=? 23) && (minute <=? 59) && (second <=? 59))
                    then Raise ValueError
                    else Date.date year month day
                end
            else Date.date year month day
        end
    end.

Definition all_day (s e : string) : event :=
  {| isAllDay := Some true;
     start := Object {| dateTime := Some s |};
     end_ := Object {| dateTime := Some e |} |}.

Definition token_json (tok : string) : json :=
  {| access_token := Some tok; expires_in := Some 3600;
     value := None; odata_nextLink := None |}.

Definition events_json (evs : list event) (next : option string) : json :=
  {| access_token := None; expires_in := None;
     value := Some evs; odata_nextLink := next |}.

(** 2026-01-01, its noon in UTC, and the same one and two seconds later. *)
Definition new_year : Z := Date._ymd2ord 2026 1 1.
Definition noon : Z := (new_year - 1) * Date.US_PER_DAY + 43200 * Date.US_PER_SECOND.
Definition noon1 : Z := noon + Date.US_PER_SECOND.
Definition noon2 : Z := noon + 2 * Date.US_PER_SECOND.

(** A freshly started process on 2026-01-01 with the given environment
    variables and the given answers to come. *)
Definition started (env : gmap string string) (answers : list exchange) : world :=
  {| environ := env; _cached_token := None; _token_expires_at := None;
     _cache := initial_cache; clock := noon; today := new_year;
     network := answers; sent := []; seen_by_readers := [] |}.

(** The process on 2026-01-01 with the dates [booked] cached for [venue]. *)
Definition with_booked (venue : string) (booked : gset Z) : world :=
  set_cache
    (<[venue := {| booked_dates := booked; last_updated := Some noon |}]> initial_cache)
    (started ∅ []).

(** An environment with a refresh token and no calendar handle. *)
Definition configured : gmap string string := {[ "MS_REFRESH_TOKEN" := "refresh" ]}.

Definition token_answer : exchange :=
  {| arrival := noon1; answer := Response 200 (Some (token_json "tok")) |}.

(** A first page with a two-day booking and a link to the next page, an
    error answer, and a last page with a one-day booking. *)
Definition first_page : Z * json :=
  (noon2,
   events_json [all_day "2026-06-12T00:00:00.0000000" "2026-06-14T00:00:00.0000000"]
     (Some "https://graph.microsoft.com/v1.0/me/calendar/events?$skip=500")).
Definition server_error : exchange := {| arrival := noon2; answer := Response 500 None |}.
Definition last_page : Z * json :=
  (noon2,
   events_json [all_day "2026-07-03T00:00:00.0000000" "2026-07-04T00:00:00.0000000"] None).

Definition two_pages : world :=
  started configured [token_answer; page first_page.1 first_page.2;
                      page last_page.1 last_page.2].
Definition second_of_three_fails : world :=
  started configured [token_answer; page first_page.1 first_page.2; server_error;
                      page last_page.1 last_page.2].

(** The answers to one refresh of both venues: the token, the garden's
    only page, the ballroom's only page. *)
Definition one_refresh : world :=
  started configured
    [token_answer; page last_page.1 last_page.2;
     page (noon2 + Date.US_PER_SECOND)
       (events_json [all_day "2026-06-12T00:00:00.0000000" "2026-06-14T00:00:00.0000000"]
          None)].

(** A booking on 2029-12-20, less than 48 calendar months and more than
    1440 days after 2026-01-01. *)
Definition late_booking : event :=
  all_day "2029-12-20T00:00:00.0000000" "2029-12-21T00:00:00.0000000".
Definition late_booking_upstream : world :=
  started configured [token_answer; page noon2 (events_json [late_booking] None)].

(** The token endpoint answers with a server error. *)
Definition exchange_refused : world := started configured [server_error].

(** An event that is not all-day. *)
Definition meeting : event :=
  {| isAllDay := Some false;
     start := Object {| dateTime := Some "2026-06-12T09:00:00.0000000" |};
     end_ := Object {| dateTime := Some "2026-06-12T10:00:00.0000000" |} |}.

(** The token cache after a successful exchange at [noon1]. *)
Definition with_token : world :=
  set_token_expires_at (Some (noon1 + 3600 * Date.US_PER_SECOND))
    (set_cached_token (Some "tok") (started configured [])).

(** The booked set of the June 2026 scenario. *)
Definition june_12_13 : gset Z := {[ Date._ymd2ord 2026 6 12; Date._ymd2ord 2026 6 13 ]}.

End Sample.

(** ** [app/main.py], the endpoint *)
Module Api.
Import Calendar Main.

(** ["%06d" % n], for microseconds. *)
Definition fmt06 (n : Z) : string :=
  String (Date.digit (n / 100000)) (String (Date.digit (n / 10000))
    (String (Date.digit (n / 1000)) (String (Date.digit (n / 100))
      (String (Date.digit (n / 10)) (String (Date.digit n) EmptyString))))).

(** [t.isoformat()] for a [datetime] in UTC: the microseconds are left
    out when they are zero. *)
Definition datetime_isoformat (t : Z) : string :=
  let d := t / Date.US_PER_DAY + 1 in
  let r := t mod Date.US_PER_DAY in
  let us := r mod Date.US_PER_SECOND in
  let s := r / Date.US_PER_SECOND in
  Date.isoformat d +:+ "T" +:+ Date.fmt02 (s / 3600) +:+ ":"
    +:+ Date.fmt02 (s / 60 mod 60) +:+ ":" +:+ Date.fmt02 (s mod 60)
    +:+ (if us =? 0 then "" else "." +:+ fmt06 us) +:+ "+00:00".

(** The dict that [get_availability] returns. *)
Record availability : Type := {
  venue : string;
  year : Z;
  minYear : Z;
  maxYear : Z;
  leaseEnd : option string;
  lastUpdated : option string;
  days : list weekend_day;
}.

(** How the endpoint ends: with its dict, with an [HTTPException], or
    with another exception, which FastAPI turns into a 500. *)
Inductive reply : Type :=
| Answer (a : availability)
| HTTPException (status_code : Z) (detail : string)
| Unhandled (e : exn).

(** Lines 128-131. *)
Definition max_year (venue : string) (today : Z) : Z :=
  let max_year := Date.year today + 4 in
  match VENUE_LEASE_END !! venue with
  | Some lease_end => Z.min max_year (Date.year lease_end)
  | None => max_year
  end.

(** [year] is [None] when the query has no [year] parameter. *)
Definition get_availability (venue : string) (year : option Z) (w : world) : reply :=
  if negb (bool_decide (venue ∈ VENUES)) then
    HTTPException 404
      ("Venue not found. Valid venues: " +:+ String.concat ", " VENUES)
  else
    let today := today w in
    let year := match year with
                | None => Date.year today
                | Some y => y
                end in
    let max_year := max_year venue today in
    let lease_end := VENUE_LEASE_END !! venue in
    if (year <? Date.year today) || (max_year <? year) then
      HTTPException 400
        ("Year must be between " +:+ pretty (Date.year today) +:+ " and "
           +:+ pretty max_year)
    else
      match get_weekend_days_for_year venue year w with
      | Raise e => Unhandled e
      | Ok days =>
          match _cache w !! venue with
          | None => Unhandled KeyError
          | Some entry =>
              Answer
                {| venue := venue; year := year;
                   minYear := Date.year today; maxYear := max_year;
                   leaseEnd := Date.isoformat <$> lease_end;
                   lastUpdated := datetime_isoformat <$> last_updated entry;
                   days := days |}
          end
      end.

End Api.

(** ** The shape of the request log *)
Module Requests.
Import Calendar Main Notions.

(** A request for a page of events with the token [tok]. *)
Definition is_page_request (tok : string) (params : option (list (string * string)))
    (r : request) : Prop :=
  ∃ u, r = GET u params ("Bearer " +:+ tok).

(** The requests of one pagination: the first carries [params], the
    later ones carry none, all carry the same token. *)
Definition pagination (tok : string) (params : option (list (string * string)))
    (rs : list request) : Prop :=
  match rs with
  | [] => True
  | r :: rs => is_page_request tok params r ∧ Forall (is_page_request tok None) rs
  end.

(** The request that follows a page: the link of the page, no parameters. *)
Definition next_request (tok : string) (p : Z * json) : request :=
  GET (default "" (odata_nextLink p.2)) None ("Bearer " +:+ tok).

(** The world after the token request went out and [x] came back. *)
Definition exchanged (x : exchange) (rest : list exchange) (w : world) : world :=
  received x rest (suspended (sending (token_request (_get_config w)) w)).

(** Every venue has its entry in the cache. *)
Definition venues_cached (w : world) : Prop :=
  ∀ v, v ∈ VENUES → is_Some (_cache w !! v).

(** The window of [get_booked_dates] exists: [today] is a date and so is
    the day [30 * months_ahead] later. *)
Definition window_exists (months_ahead : Z) (w : world) : Prop :=
  Date.valid (today w) ∧ Date.valid (today w + months_ahead * 30).

End Requests.

(** ** More sample data *)
Module Sample2.
Import Calendar Main Notions Sample.

(** A booking whose end is its start, and one that cannot be read. *)
Definition empty_booking : event :=
  all_day "2026-06-12T00:00:00.0000000" "2026-06-12T00:00:00.0000000".
Definition garbled : event := all_day "12 June 2026" "2026-06-14T00:00:00.0000000".

(** A page whose second event cannot be read, with a link to a next page. *)
Definition garbled_page : Z * json :=
  (noon2,
   events_json
     [all_day "2026-06-12T00:00:00.0000000" "2026-06-14T00:00:00.0000000"; garbled;
      all_day "2026-07-03T00:00:00.0000000" "2026-07-04T00:00:00.0000000"]
     (Some "https://graph.microsoft.com/v1.0/me/calendar/events?$skip=500")).
Definition garbled_second_event : world :=
  started configured [token_answer; page garbled_page.1 garbled_page.2;
                      page last_page.1 last_page.2].

(** The token endpoint answers with an empty token. *)
Definition empty_token : world :=
  started configured
    [{| arrival := noon1; answer := Response 200 (Some (token_json "")) |}].

(** The token endpoint answers with a lifetime beyond the year 9999. *)
Definition endless_token : world :=
  started configured
    [{| arrival := noon1;
        answer := Response 200
          (Some {| access_token := Some "tok"; expires_in := Some 400000000000;
                   value := None; odata_nextLink := None |}) |}].

(** The token endpoint answers with a lifetime of -63902865361 seconds:
    counted from [noon1], the expiry is 0001-01-01T00:04:00. *)
Definition backdated_token : world :=
  started configured
    [{| arrival := noon1;
        answer := Response 200
          (Some {| access_token := Some "tok"; expires_in := Some (-63902865361);
                   value := None; odata_nextLink := None |}) |}].

(** An all-day event whose start is [null], one whose end has an empty
    timestamp, and a page that holds the first before a one-day booking. *)
Definition null_start : event :=
  {| isAllDay := Some true;
     start := Null;
     end_ := Object {| dateTime := Some "2026-06-14T00:00:00.0000000" |} |}.
Definition no_end : event :=
  {| isAllDay := Some true;
     start := Object {| dateTime := Some "2026-06-12T00:00:00.0000000" |};
     end_ := Object {| dateTime := Some "" |} |}.
Definition null_start_first : world :=
  started configured
    [token_answer;
     page noon2
       (events_json
          [null_start;
           all_day "2026-07-03T00:00:00.0000000" "2026-07-04T00:00:00.0000000"]
          None)].

(** The answers to a refresh whose token has that lifetime: the token,
    then the garden's only page. *)
Definition backdated_refresh : world :=
  started configured
    [{| arrival := noon1;
        answer := Response 200
          (Some {| access_token := Some "tok"; expires_in := Some (-63902865361);
                   value := None; odata_nextLink := None |}) |};
     page last_page.1 last_page.2].

(** A process without configuration. *)
Definition unconfigured : world := started ∅ [].

(** The same pages as [two_pages], in the other order: the one-day
    booking first. *)
Definition other_order : world :=
  started configured
    [token_answer;
     page noon2
       (events_json [all_day "2026-07-03T00:00:00.0000000" "2026-07-04T00:00:00.0000000"]
          (Some "https://graph.microsoft.com/v1.0/me/calendar/events?$skip=500"));
     page noon2
       (events_json [all_day "2026-06-12T00:00:00.0000000" "2026-06-14T00:00:00.0000000"]
          None)].

(** The process on 2031-06-01, after the lease of the ballroom. *)
Definition after_lease : world :=
  {| environ := ∅; _cached_token := None; _token_expires_at := None;
     _cache := initial_cache; clock := noon; today := Date._ymd2ord 2031 6 1;
     network := []; sent := []; seen_by_readers := [] |}.

(** The process on 2030-06-01, in the year of the lease end and after it. *)
Definition lease_over : world :=
  {| environ := ∅; _cached_token := None; _token_expires_at := None;
     _cache := initial_cache; clock := noon; today := Date._ymd2ord 2030 6 1;
     network := []; sent := []; seen_by_readers := [] |}.

(** The answers to one refresh when the garden is booked on 2029-12-20. *)
Definition late_refresh : world :=
  started configured
    [token_answer; page noon2 (events_json [late_booking] None);
     page last_page.1 last_page.2].

(** The cache before the first refresh, with an entry that is no venue. *)
Definition with_cellar : world :=
  set_cache
    (<["cellar" := {| booked_dates := june_12_13; last_updated := None |}]> initial_cache)
    one_refresh.

End Sample2.

(** * Properties *)

(** ** Facts about dates *)
Module DateFacts.
Import Date.

(** The year that [_ord2ymd] finds is the one whose days contain [n]. *)
Lemma year_spec (n : Z) :
  1 ≤ n →
  _days_before_year (year n) < n ≤ _days_before_year (year n + 1).
Proof.
  intros Hn. unfold year, _ord2ymd, _DI400Y, _DI100Y, _DI4Y.
  cbv zeta.
  destruct (_ || _) eqn:Hlast.
  - cbn [fst snd]. unfold _days_before_year.
    apply orb_true_iff in Hlast as [H|H]; apply Z.eqb_eq in H;
      Z.div_mod_to_equations; lia.
  - apply orb_false_iff in Hlast as [H1 H2].
    apply Z.eqb_neq in H1, H2.
    match goal with
    | |- context [(if ?c then (?y, ?a, ?b) else (?y, ?a', ?b')).1.1] =>
        replace ((if c then (y, a, b) else (y, a', b')).1.1) with y
          by (by destruct c)
    end.
    unfold _days_before_year.
    Z.div_mod_to_equations. lia.
Qed.

Lemma ymd_jan1 (y : Z) : _ymd2ord y 1 1 = _days_before_year y + 1.
Proof.
  unfold _ymd2ord. replace (_days_before_month y 1) with 0 by reflexivity. lia.
Qed.

Lemma ymd_dec31 (y : Z) : _ymd2ord y 12 31 = _days_before_year (y + 1).
Proof.
  unfold _ymd2ord, _days_before_month, _days_before_year, _is_leap, tbl.
  simpl.
  destruct (y mod 4 =? 0) eqn:H4; destruct (y mod 100 =? 0) eqn:H100;
    destruct (y mod 400 =? 0) eqn:H400; simpl;
    rewrite ?Z.eqb_eq, ?Z.eqb_neq in *; Z.div_mod_to_equations; lia.
Qed.

Lemma fits_C_int_year (y : Z) : MINYEAR ≤ y ≤ MAXYEAR → fits_C_int y = true.
Proof.
  unfold MINYEAR, MAXYEAR, fits_C_int. intros H.
  apply andb_true_iff. split; apply Z.leb_le; lia.
Qed.

Lemma date_jan1 (y : Z) : MINYEAR ≤ y ≤ MAXYEAR → date y 1 1 = Ok (_ymd2ord y 1 1).
Proof.
  intros H. unfold date. rewrite (fits_C_int_year y H).
  unfold MINYEAR, MAXYEAR in H.
  replace (MINYEAR <=? y) with true by (symmetry; apply Z.leb_le; unfold MINYEAR; lia).
  replace (y <=? MAXYEAR) with true by (symmetry; apply Z.leb_le; unfold MAXYEAR; lia).
  reflexivity.
Qed.

Lemma date_dec31 (y : Z) : MINYEAR ≤ y ≤ MAXYEAR → date y 12 31 = Ok (_ymd2ord y 12 31).
Proof.
  intros H. unfold date. rewrite (fits_C_int_year y H).
  unfold MINYEAR, MAXYEAR in H.
  replace (MINYEAR <=? y) with true by (symmetry; apply Z.leb_le; unfold MINYEAR; lia).
  replace (y <=? MAXYEAR) with true by (symmetry; apply Z.leb_le; unfold MAXYEAR; lia).
  reflexivity.
Qed.

Lemma days_before_year_bounds (y : Z) :
  MINYEAR ≤ y ≤ MAXYEAR + 1 → 0 ≤ _days_before_year y ≤ _MAXORDINAL.
Proof.
  unfold MINYEAR, MAXYEAR, _MAXORDINAL, _days_before_year. intros H.
  Z.div_mod_to_equations. lia.
Qed.

(** [date(y, m, d)], when it does not raise, is a date. *)
Lemma date_valid (y m d o : Z) : date y m d = Ok o → valid o.
Proof.
  unfold date.
  destruct (negb (fits_C_int y && _ && _)); [discriminate|].
  destruct (negb _) eqn:Hy; [discriminate|].
  destruct (negb ((1 <=? m) && _)) eqn:Hm; [discriminate|].
  destruct (negb ((1 <=? d) && _)) eqn:Hd; [discriminate|].
  intros [= <-].
  apply negb_false_iff, andb_true_iff in Hy as [Hy1 Hy2].
  apply negb_false_iff, andb_true_iff in Hm as [Hm1 Hm2].
  apply negb_false_iff, andb_true_iff in Hd as [Hd1 Hd2].
  apply Z.leb_le in Hy1, Hy2, Hm1, Hm2, Hd1, Hd2.
  pose proof (days_before_year_bounds y ltac:(unfold MINYEAR, MAXYEAR in *; lia)) as Hb.
  pose proof (days_before_year_bounds (y + 1) ltac:(unfold MINYEAR, MAXYEAR in *; lia)) as Hb'.
  pose proof (ymd_dec31 y) as H31.
  unfold valid, _ymd2ord in *.
  assert (Hdm : 0 ≤ _days_before_month y m ∧
                _days_before_month y m + _days_in_month y m ≤ _days_before_month y 12 + 31).
  { unfold _days_before_month, _days_in_month, tbl.
    assert (Hc : m = 1 ∨ m = 2 ∨ m = 3 ∨ m = 4 ∨ m = 5 ∨ m = 6 ∨ m = 7 ∨ m = 8
                 ∨ m = 9 ∨ m = 10 ∨ m = 11 ∨ m = 12) by lia.
    destruct (_is_leap y);
      repeat (destruct Hc as [->|Hc]; [simpl; lia|]); subst; simpl; lia. }
  lia.
Qed.

End DateFacts.

(** ** The weekend projection *)
Module MainFacts.
Import Date DateFacts Calendar Main Notions.

Lemma weekend_records_nil (booked : gset Z) (a b : Z) :
  b < a → weekend_records booked a b = [].
Proof. intros H. unfold weekend_records. by rewrite seqZ_nil by lia. Qed.

Lemma weekend_records_cons (booked : gset Z) (a b : Z) :
  a ≤ b →
  weekend_records booked a b =
    (if is_weekend a then [day_record booked a] else []) ++
    weekend_records booked (a + 1) b.
Proof.
  intros H. unfold weekend_records.
  rewrite (seqZ_cons a) by lia. rewrite filter_cons.
  replace (Z.succ a) with (a + 1) by lia.
  replace (Z.pred (b - a + 1)) with (b - (a + 1) + 1) by lia.
  destruct (is_weekend a); simpl; reflexivity.
Qed.

(** The loop emits the records of the weekend days of [current..end_date],
    in ascending order, as long as the day after [end_date] exists. *)
Lemma weekend_loop_spec (booked : gset Z) (end_date : Z) (fuel : nat) :
  ∀ (current : Z) (days : list weekend_day),
    0 ≤ current → end_date < _MAXORDINAL →
    (Z.to_nat (end_date - current + 1) ≤ fuel)%nat →
    weekend_loop fuel current end_date booked days =
      Ok (days ++ weekend_records booked current end_date).
Proof.
  induction fuel as [|fuel IH]; intros current days Hc He Hf.
  - simpl. destruct (current <=? end_date) eqn:Hle.
    + apply Z.leb_le in Hle. lia.
    + apply Z.leb_gt in Hle. rewrite weekend_records_nil by lia.
      by rewrite app_nil_r.
  - simpl. destruct (current <=? end_date) eqn:Hle.
    + apply Z.leb_le in Hle.
      unfold add_days.
      replace (0 <? current + 1) with true by (symmetry; apply Z.ltb_lt; lia).
      replace (current + 1 <=? _MAXORDINAL) with true by (symmetry; apply Z.leb_le; lia).
      simpl. rewrite IH by lia.
      rewrite (weekend_records_cons booked current end_date) by lia.
      destruct (is_weekend current); simpl; by rewrite <- ?app_assoc.
    + apply Z.leb_gt in Hle. rewrite weekend_records_nil by lia.
      by rewrite app_nil_r.
Qed.

(** At [date.max] the loop cannot step to the next day. *)
Lemma weekend_loop_overflow (booked : gset Z) (fuel : nat) :
  ∀ (current : Z) (days : list weekend_day),
    0 ≤ current ≤ _MAXORDINAL →
    (Z.to_nat (_MAXORDINAL - current + 1) ≤ fuel)%nat →
    weekend_loop fuel current _MAXORDINAL booked days = Raise OverflowError.
Proof.
  induction fuel as [|fuel IH]; intros current days Hc Hf; [lia|].
  simpl. replace (current <=? _MAXORDINAL) with true by (symmetry; apply Z.leb_le; lia).
  unfold add_days.
  destruct (Z.eq_dec current _MAXORDINAL) as [->|Hne].
  - reflexivity.
  - replace (0 <? current + 1) with true by (symmetry; apply Z.ltb_lt; lia).
    replace (current + 1 <=? _MAXORDINAL) with true by (symmetry; apply Z.leb_le; lia).
    simpl. apply IH; lia.
Qed.

Lemma weekend_records_elem (booked : gset Z) (a b : Z) (r : weekend_day) :
  r ∈ weekend_records booked a b ↔
  ∃ c, a ≤ c ≤ b ∧ is_weekend c = true ∧ r = day_record booked c.
Proof.
  unfold weekend_records. rewrite list_elem_of_fmap. split.
  - intros (c & -> & Hc). apply list_elem_of_filter in Hc as [Hw Hc].
    apply elem_of_seqZ in Hc. exists c. split; [lia|]. done.
  - intros (c & Hc & Hw & ->). exists c. split; [done|].
    apply list_elem_of_filter. split; [done|]. apply elem_of_seqZ. lia.
Qed.

Lemma window_start_ge (year today : Z) :
  valid today → MINYEAR ≤ year → _ymd2ord year 1 1 ≤ window_start year today.
Proof.
  intros Hv Hy. unfold window_start.
  destruct (year =? Date.year today) eqn:E; [|lia].
  apply Z.eqb_eq in E. subst year.
  pose proof (year_spec today ltac:(unfold valid in Hv; lia)).
  rewrite ymd_jan1. lia.
Qed.

Lemma window_start_cases (year today : Z) :
  window_start year today = today ∨ window_start year today = _ymd2ord year 1 1.
Proof. unfold window_start. destruct (_ =? _); auto. Qed.

(** What [get_weekend_days_for_year] returns: the records of the weekend
    days of the scan window, none when the window is empty. *)
Lemma get_weekend_days_spec (venue : string) (year : Z) (w : world) (entry : cache_entry) :
  MINYEAR ≤ year ≤ MAXYEAR → valid (today w) →
  _cache w !! venue = Some entry →
  window_end venue year < _MAXORDINAL →
  get_weekend_days_for_year venue year w =
    Ok (weekend_records (booked_dates entry)
          (window_start year (today w)) (window_end venue year)).
Proof.
  intros Hy Hv Hc He.
  pose proof (window_start_ge year (today w) Hv ltac:(lia)) as Hs.
  pose proof (days_before_year_bounds year ltac:(unfold MINYEAR, MAXYEAR in *; lia)) as Hb.
  rewrite ymd_jan1 in Hs.
  unfold get_weekend_days_for_year.
  rewrite date_jan1, date_dec31 by done. cbn [rbind].
  rewrite Hc. fold (window_start year (today w)).
  unfold window_end in *.
  destruct (VENUE_LEASE_END !! venue) as [l|] eqn:Hl.
  - destruct (l <? window_start year (today w)) eqn:Hlt.
    + apply Z.ltb_lt in Hlt. rewrite weekend_records_nil by lia. done.
    + apply Z.ltb_ge in Hlt.
      replace (if l <? _ymd2ord year 12 31 then l else _ymd2ord year 12 31)
        with (Z.min l (_ymd2ord year 12 31))
        by (destruct (l <? _ymd2ord year 12 31) eqn:E;
            [apply Z.ltb_lt in E | apply Z.ltb_ge in E]; lia).
      rewrite weekend_loop_spec by lia. done.
  - rewrite weekend_loop_spec by lia. done.
Qed.

Lemma window_end_below_max (venue : string) (year : Z) :
  MINYEAR ≤ year < MAXYEAR → window_end venue year < _MAXORDINAL.
Proof.
  intros Hy. unfold window_end. rewrite ymd_dec31.
  assert (_days_before_year (year + 1) < _MAXORDINAL).
  { unfold MINYEAR, MAXYEAR, _MAXORDINAL, _days_before_year in *.
    Z.div_mod_to_equations. lia. }
  destruct (VENUE_LEASE_END !! venue); lia.
Qed.

(** A check that runs: every record of [days] dated [iso] is [r]. *)
Lemma only_record_check (days : list weekend_day) (iso : string) (r : weekend_day) :
  forallb (λ r', implb (bool_decide (date r' = iso)) (bool_decide (r' = r))) days = true →
  ∀ r', r' ∈ days → date r' = iso → r' = r.
Proof.
  intros H r' Hin Hd. rewrite forallb_forall in H.
  specialize (H r' (proj1 (list_elem_of_In _ _) Hin)).
  rewrite (bool_decide_eq_true_2 _ Hd) in H. simpl in H.
  by apply bool_decide_eq_true_1 in H.
Qed.

(** C2. For a venue whose lease ends on 2030-03-31, the projection of 2031
    is empty and the projection of 2030 holds only records of days up to
    2030-03-31.  In general the scan window ends on Dec 31 of the year, or
    on the lease boundary when there is one and it is earlier, and an
    empty window (start after end) gives the empty list. *)
Theorem lease_boundary_clamps_projection (venue : string) (w : world) (entry : cache_entry) :
  VENUE_LEASE_END !! venue = Some (_ymd2ord 2030 3 31) →
  valid (today w) →
  _cache w !! venue = Some entry →
  get_weekend_days_for_year venue 2031 w = Ok [] ∧
  (∃ days, get_weekend_days_for_year venue 2030 w = Ok days ∧
     ∀ r, r ∈ days →
       ∃ c, c ≤ _ymd2ord 2030 3 31 ∧ r = day_record (booked_dates entry) c) ∧
  (∀ (venue' : string) (year : Z) (entry' : cache_entry),
     MINYEAR ≤ year < MAXYEAR → _cache w !! venue' = Some entry' →
     let a := window_start year (today w) in
     let b := window_end venue' year in
     get_weekend_days_for_year venue' year w = Ok (weekend_records (booked_dates entry') a b) ∧
     (∀ r, r ∈ weekend_records (booked_dates entry') a b →
        ∃ c, a ≤ c ≤ b ∧ r = day_record (booked_dates entry') c) ∧
     (b < a → get_weekend_days_for_year venue' year w = Ok [])).
Proof.
  intros Hl Hv Hc. split; [|split].
  - assert (He : window_end venue 2031 = _ymd2ord 2030 3 31).
    { unfold window_end. rewrite Hl. reflexivity. }
    rewrite (get_weekend_days_spec venue 2031 w entry); try done.
    + rewrite weekend_records_nil; [done|]. rewrite He.
      pose proof (window_start_ge 2031 (today w) Hv ltac:(done)) as Hs.
      change (_ymd2ord 2031 1 1) with 741443 in Hs.
      change (_ymd2ord 2030 3 31) with 741167. lia.
    + rewrite He. done.
  - assert (He : window_end venue 2030 = _ymd2ord 2030 3 31).
    { unfold window_end. rewrite Hl. reflexivity. }
    eexists. split.
    + apply (get_weekend_days_spec venue 2030 w entry); try done.
      rewrite He. done.
    + intros r Hr. apply weekend_records_elem in Hr as (c & Hcb & _ & ->).
      exists c. split; [|done]. rewrite He in Hcb. lia.
  - intros venue' year entry' Hy Hc' a b.
    pose proof (window_end_below_max venue' year Hy) as Hb.
    assert (Hget : get_weekend_days_for_year venue' year w
                   = Ok (weekend_records (booked_dates entry') a b)).
    { apply get_weekend_days_spec; try done. lia. }
    split; [done|]. split.
    + intros r Hr. apply weekend_records_elem in Hr as (c & Hcb & _ & ->). eauto.
    + intros Hba. rewrite Hget. by rewrite weekend_records_nil.
Qed.

Lemma lease_boundary_clamps_projection_witness :
  VENUE_LEASE_END !! "ballroom" = Some (_ymd2ord 2030 3 31) ∧
  valid (today (Sample.with_booked "ballroom" ∅)) ∧
  get_weekend_days_for_year "ballroom" 2031 (Sample.with_booked "ballroom" ∅) = Ok [].
Proof.
  assert (H1 : VENUE_LEASE_END !! "ballroom" = Some (_ymd2ord 2030 3 31))
    by (vm_compute; reflexivity).
  assert (H2 : valid (today (Sample.with_booked "ballroom" ∅)))
    by (vm_compute; split; discriminate).
  split; [exact H1|]. split; [exact H2|].
  refine (proj1 (lease_boundary_clamps_projection "ballroom"
                   (Sample.with_booked "ballroom" ∅)
                   {| booked_dates := ∅; last_updated := Some Sample.noon |} H1 H2 _)).
  vm_compute; reflexivity.
Defined.


(** A check that runs: every record of [days] dated [iso] is available or
    not as [b] says. *)
Lemma availability_check (days : list weekend_day) (iso : string) (b : bool) :
  forallb (λ r', implb (bool_decide (date r' = iso)) (bool_decide (available r' = b))) days = true →
  ∀ r', r' ∈ days → date r' = iso → available r' = b.
Proof.
  intros H r' Hin Hd. rewrite forallb_forall in H.
  specialize (H r' (proj1 (list_elem_of_In _ _) Hin)).
  rewrite (bool_decide_eq_true_2 _ Hd) in H. simpl in H.
  by apply bool_decide_eq_true_1 in H.
Qed.

Lemma weekend_records_suffix (booked : gset Z) (a a' b : Z) (r : weekend_day) :
  a' ≤ a → r ∈ weekend_records booked a b → r ∈ weekend_records booked a' b.
Proof.
  intros Ha. rewrite !weekend_records_elem.
  intros (c & Hc & Hw & ->). exists c. split; [lia|done].
Qed.

Lemma window_end_2026 (venue : string) : window_end venue 2026 = _ymd2ord 2026 12 31.
Proof.
  unfold window_end, VENUE_LEASE_END.
  destruct (decide (venue = "ballroom")) as [->|Hne].
  - rewrite lookup_singleton_eq. reflexivity.
  - rewrite lookup_singleton_ne by done. reflexivity.
Qed.

(** The record of a day of 2026 that lies in the scan window, with booked
    set {2026-06-12, 2026-06-13}. *)
Lemma june_2026_record (a c : Z) (r : weekend_day) :
  _ymd2ord 2026 1 1 ≤ a → a ≤ c → c ≤ _ymd2ord 2026 12 31 →
  is_weekend c = true →
  day_record Sample.june_12_13 c = r →
  forallb (λ r', implb (bool_decide (date r' = date r)) (bool_decide (r' = r)))
    (weekend_records Sample.june_12_13 (_ymd2ord 2026 1 1) (_ymd2ord 2026 12 31)) = true →
  record_for (weekend_records Sample.june_12_13 a (_ymd2ord 2026 12 31)) (date r) r.
Proof.
  intros Ha Hc Hc' Hw Hr Hchk. split; [|split; [done|]].
  - apply weekend_records_elem. exists c. split; [lia|]. split; [done|]. done.
  - intros r' Hin. apply (only_record_check _ _ _ Hchk).
    by apply (weekend_records_suffix _ a).
Qed.

(** C3, amended.  With {2026-06-12, 2026-06-13} booked and today
    no later than 2026-06-13, the projection of 2026 holds exactly one
    record for each of 2026-06-13, 2026-06-14 and 2026-06-19: Saturday the
    13th is not available, Sunday the 14th is available (it is not in the
    booked set), Friday the 19th is available. *)
Theorem june_2026_scenario (venue : string) (w : world) (entry : cache_entry) :
  valid (today w) →
  today w ≤ _ymd2ord 2026 6 13 →
  _cache w !! venue = Some entry →
  booked_dates entry = {[ _ymd2ord 2026 6 12; _ymd2ord 2026 6 13 ]} →
  ∃ days, get_weekend_days_for_year venue 2026 w = Ok days ∧
    record_for days "2026-06-13"
      {| date := "2026-06-13"; day := "saturday"; available := false |} ∧
    record_for days "2026-06-14"
      {| date := "2026-06-14"; day := "sunday"; available := true |} ∧
    record_for days "2026-06-19"
      {| date := "2026-06-19"; day := "friday"; available := true |}.
Proof.
  intros Hv Ht Hc Hb. fold Sample.june_12_13 in Hb.
  eexists. split.
  { apply (get_weekend_days_spec venue 2026 w entry); try done.
    rewrite window_end_2026. done. }
  rewrite Hb, window_end_2026.
  pose proof (window_start_ge 2026 (today w) Hv ltac:(done)) as Hge.
  assert (Hle : window_start 2026 (today w) ≤ _ymd2ord 2026 6 13).
  { destruct (window_start_cases 2026 (today w)) as [-> | ->]; [done|].
    vm_compute. discriminate. }
  change (_ymd2ord 2026 6 13) with 739780 in *.
  split; [|split].
  - apply (june_2026_record _ 739780
             {| date := "2026-06-13"; day := "saturday"; available := false |});
      try done; try lia; vm_compute; reflexivity.
  - apply (june_2026_record _ 739781
             {| date := "2026-06-14"; day := "sunday"; available := true |});
      try done; try lia; vm_compute; reflexivity.
  - apply (june_2026_record _ 739786
             {| date := "2026-06-19"; day := "friday"; available := true |});
      try done; try lia; vm_compute; reflexivity.
Qed.

Lemma june_2026_scenario_witness :
  valid (today (Sample.with_booked "garden" Sample.june_12_13)) ∧
  today (Sample.with_booked "garden" Sample.june_12_13) ≤ _ymd2ord 2026 6 13 ∧
  ∃ days,
    get_weekend_days_for_year "garden" 2026 (Sample.with_booked "garden" Sample.june_12_13)
      = Ok days ∧
    record_for days "2026-06-14"
      {| date := "2026-06-14"; day := "sunday"; available := true |}.
Proof.
  assert (H1 : valid (today (Sample.with_booked "garden" Sample.june_12_13)))
    by (vm_compute; split; discriminate).
  assert (H2 : today (Sample.with_booked "garden" Sample.june_12_13) ≤ _ymd2ord 2026 6 13)
    by (vm_compute; discriminate).
  split; [exact H1|]. split; [exact H2|].
  destruct (june_2026_scenario "garden" (Sample.with_booked "garden" Sample.june_12_13)
              {| booked_dates := Sample.june_12_13; last_updated := Some Sample.noon |}
              H1 H2 ltac:(vm_compute; reflexivity) eq_refl)
    as (days & Hd & _ & H14 & _).
  exists days. split; [exact Hd | exact H14].
Defined.

(** C3 as stated fails: on 2026-01-01, with {2026-06-12, 2026-06-13} booked
    for the garden, no record of the projection of 2026 dated 2026-06-14
    has [available = false]. *)
Lemma june_14_is_available :
  ¬ ∃ days r,
      get_weekend_days_for_year "garden" 2026 (Sample.with_booked "garden" Sample.june_12_13)
        = Ok days ∧
      r ∈ days ∧ date r = "2026-06-14" ∧ available r = false.
Proof.
  intros (days & r & Hd & Hin & Hiso & Hav).
  assert (Hchk : ∃ l, get_weekend_days_for_year "garden" 2026
                        (Sample.with_booked "garden" Sample.june_12_13) = Ok l ∧
                      forallb (λ r', implb (bool_decide (date r' = "2026-06-14"))
                                           (bool_decide (available r' = true))) l = true).
  { eexists. split; [vm_compute; reflexivity|]. vm_compute. reflexivity. }
  destruct Hchk as (l & Hl & Hchk). rewrite Hl in Hd. injection Hd as ->.
  pose proof (availability_check _ _ _ Hchk r Hin Hiso) as Ht.
  congruence.
Qed.

End MainFacts.

(** ** The fetch: events and pages *)
Module CalendarFacts.
Import Date DateFacts Calendar Main Notions.

Section Events.

Variable fromisoformat_date : string → result Z.

(** [datetime.fromisoformat(s).date()] returns dates. *)
Hypothesis fromisoformat_valid :
  ∀ s d, fromisoformat_date s = Ok d → valid d.

Local Abbreviation process_event := (process_event fromisoformat_date).
Local Abbreviation process_events := (process_events fromisoformat_date).
Local Abbreviation read_event := (read_event fromisoformat_date).
Local Abbreviation readable := (readable fromisoformat_date).
Local Abbreviation booked_by := (booked_by fromisoformat_date).

(** The inner loop adds the days of [current, event_end) that lie in the
    window, and nothing else. *)
Lemma add_event_days_spec (event_end start_date end_date : Z) (fuel : nat) :
  ∀ (current : Z) (booked : gset Z),
    0 ≤ current → event_end ≤ _MAXORDINAL →
    (Z.to_nat (event_end - current) ≤ fuel)%nat →
    ∃ B, add_event_days fuel current event_end start_date end_date booked = (B, Ok tt) ∧
         ∀ d, d ∈ B ↔ d ∈ booked ∨ (current ≤ d < event_end ∧ start_date ≤ d ≤ end_date).
Proof.
  induction fuel as [|fuel IH]; intros current booked Hc He Hf.
  - simpl. destruct (current <? event_end) eqn:Hlt.
    + apply Z.ltb_lt in Hlt. lia.
    + apply Z.ltb_ge in Hlt. exists booked. split; [done|].
      intros d. split; [tauto|]. intros [?|[? ?]]; [done|lia].
  - simpl. destruct (current <? event_end) eqn:Hlt.
    + apply Z.ltb_lt in Hlt. unfold add_days.
      replace (0 <? current + 1) with true by (symmetry; apply Z.ltb_lt; lia).
      replace (current + 1 <=? _MAXORDINAL) with true by (symmetry; apply Z.leb_le; lia).
      simpl.
      destruct (IH (current + 1)
                  (if (start_date <=? current) && (current <=? end_date)
                   then {[current]} ∪ booked else booked)
                  ltac:(lia) He ltac:(lia)) as (B & HB & Hmem).
      exists B. split; [exact HB|].
      intros d. rewrite Hmem.
      destruct ((start_date <=? current) && (current <=? end_date)) eqn:Hin.
      * apply andb_true_iff in Hin as [H1 H2]. apply Z.leb_le in H1, H2.
        rewrite elem_of_union, elem_of_singleton.
        split.
        -- intros [[->|?]|[? ?]]; [right; lia | by left | right; lia].
        -- intros [?|[? ?]]; [by left; right|].
           destruct (decide (d = current)) as [->|?]; [by left; left | right; lia].
      * split.
        -- intros [?|[? ?]]; [by left | right; lia].
        -- intros [?|[? ?]]; [by left|].
           destruct (decide (d = current)) as [->|?]; [|right; lia].
           apply andb_false_iff in Hin as [Hx|Hx]; apply Z.leb_gt in Hx; lia.
    + apply Z.ltb_ge in Hlt. exists booked. split; [done|].
      intros d. split; [tauto|]. intros [?|[? ?]]; [done|lia].
Qed.

(** Whatever the fuel and the event, the loop only adds days of the window. *)
Lemma add_event_days_within (event_end start_date end_date : Z) (fuel : nat) :
  ∀ (current : Z) (booked : gset Z) (d : Z),
    d ∈ (add_event_days fuel current event_end start_date end_date booked).1 →
    d ∈ booked ∨ start_date ≤ d ≤ end_date.
Proof.
  induction fuel as [|fuel IH]; intros current booked d; simpl.
  - destruct (current <? event_end); simpl; auto.
  - destruct (current <? event_end); simpl; auto.
    destruct (add_days current 1) as [c'|x]; simpl.
    + intros Hd. apply IH in Hd.
      destruct ((start_date <=? current) && (current <=? end_date)) eqn:Hin; [|done].
      apply andb_true_iff in Hin as [H1 H2]. apply Z.leb_le in H1, H2.
      destruct Hd as [Hd|Hd]; [|by right].
      apply elem_of_union in Hd as [Hd|Hd]; [|by left].
      apply elem_of_singleton in Hd as ->. right. lia.
    + destruct ((start_date <=? current) && (current <=? end_date)) eqn:Hin; [|auto].
      apply andb_true_iff in Hin as [H1 H2]. apply Z.leb_le in H1, H2.
      intros Hd. apply elem_of_union in Hd as [Hd|Hd]; [|by left].
      apply elem_of_singleton in Hd as ->. right. lia.
Qed.

(** [process_event] by cases of [read_event]. *)
Lemma process_event_skipped (ev : event) (start_date end_date : Z) (booked : gset Z) :
  read_event ev = Skipped →
  process_event ev start_date end_date booked = (booked, Ok tt).
Proof.
  unfold Notions.read_event, Calendar.process_event.
  destruct (negb (default false (isAllDay ev))); [done|].
  destruct (get_dateTime (start ev)) as [start_str|]; [|done].
  destruct (get_dateTime (end_ ev)) as [end_str|]; [|done].
  destruct (negb (truthy start_str)); [done|].
  destruct (negb (truthy end_str)); [done|]. simpl.
  destruct (fromisoformat_date _); [|done].
  destruct (fromisoformat_date _); done.
Qed.

Lemma process_event_unreadable (ev : event) (start_date end_date : Z) (booked : gset Z)
    (x : exn) :
  read_event ev = Unreadable x →
  process_event ev start_date end_date booked = (booked, Raise x).
Proof.
  unfold Notions.read_event, Calendar.process_event.
  destruct (negb (default false (isAllDay ev))); [done|].
  destruct (get_dateTime (start ev)) as [start_str|]; [|congruence].
  destruct (get_dateTime (end_ ev)) as [end_str|]; [|congruence].
  destruct (negb (truthy start_str)); [done|].
  destruct (negb (truthy end_str)); [done|]. simpl.
  destruct (fromisoformat_date _); [|congruence].
  destruct (fromisoformat_date _); [done|congruence].
Qed.

Lemma process_event_spans (ev : event) (start_date end_date : Z) (booked : gset Z)
    (s e : Z) :
  read_event ev = Spans s e →
  ∃ B, process_event ev start_date end_date booked = (B, Ok tt) ∧
       ∀ d, d ∈ B ↔ d ∈ booked ∨ (s ≤ d < e ∧ start_date ≤ d ≤ end_date).
Proof.
  unfold Notions.read_event, Calendar.process_event.
  destruct (negb (default false (isAllDay ev))); [done|].
  destruct (get_dateTime (start ev)) as [start_str|]; [|done].
  destruct (get_dateTime (end_ ev)) as [end_str|]; [|done].
  destruct (negb (truthy start_str)); [done|].
  destruct (negb (truthy end_str)); [done|]. simpl.
  destruct (fromisoformat_date (replace_Z start_str)) as [a|] eqn:Ha; [|done].
  destruct (fromisoformat_date (replace_Z end_str)) as [b|] eqn:Hb; [|done].
  intros [= -> ->].
  apply fromisoformat_valid in Ha, Hb. unfold valid in *.
  apply add_event_days_spec; lia.
Qed.

Lemma truthy_neq (s : string) : truthy s = true ↔ s ≠ "".
Proof.
  unfold truthy. rewrite negb_true_iff. split.
  - intros H ->. by rewrite String.eqb_refl in H.
  - intros H. by apply String.eqb_neq.
Qed.

(** An event is read as spanning [s, e) exactly when it is an all-day
    event from [s] to [e]. *)
Lemma read_event_spans_iff (ev : event) (s e : Z) :
  read_event ev = Spans s e ↔ all_day_from_to fromisoformat_date ev s e.
Proof.
  unfold Notions.read_event, all_day_from_to, get_dateTime. split.
  - destruct (isAllDay ev) as [[]|]; [|done|done]. simpl.
    destruct (start ev) as [| |[start_str]]; [| |]; simpl.
    { destruct (end_ ev); by simpl. }
    { done. }
    destruct (end_ ev) as [| |[end_str]]; simpl.
    { destruct start_str as [start_str|]; simpl; [|done]. by destruct (negb _). }
    { done. }
    destruct start_str as [start_str|]; [|done].
    destruct end_str as [end_str|]; [|by simpl; destruct (negb _)]. simpl.
    destruct (truthy start_str) eqn:Hs; [|done].
    destruct (truthy end_str) eqn:He; [|done]. simpl.
    destruct (fromisoformat_date (replace_Z start_str)) as [a|] eqn:Ha; [|done].
    destruct (fromisoformat_date (replace_Z end_str)) as [b|] eqn:Hb; [|done].
    intros [= <- <-]. split; [done|]. exists start_str, end_str.
    apply truthy_neq in Hs, He. done.
  - intros (-> & start_str & end_str & -> & -> & Hs & He & Ha & Hb). simpl.
    apply truthy_neq in Hs, He. rewrite Hs, He. simpl. by rewrite Ha, Hb.
Qed.

Lemma process_event_within (ev : event) (start_date end_date : Z) (booked : gset Z) (d : Z) :
  d ∈ (process_event ev start_date end_date booked).1 →
  d ∈ booked ∨ start_date ≤ d ≤ end_date.
Proof.
  unfold Calendar.process_event.
  destruct (negb (default false (isAllDay ev))); [auto|].
  destruct (get_dateTime (start ev)); [|auto].
  destruct (get_dateTime (end_ ev)); [|auto].
  destruct (_ || _); [auto|].
  destruct (fromisoformat_date _); [|auto].
  destruct (fromisoformat_date _); [|auto].
  apply add_event_days_within.
Qed.

Lemma process_events_within (evs : list event) (start_date end_date : Z) :
  ∀ (booked : gset Z) (d : Z),
    d ∈ (process_events evs start_date end_date booked).1 →
    d ∈ booked ∨ start_date ≤ d ≤ end_date.
Proof.
  induction evs as [|ev evs IH]; intros booked d; simpl; [auto|].
  destruct (process_event ev start_date end_date booked) as [B [[]|x]] eqn:Hev.
  - intros Hd. apply IH in Hd as [Hd|Hd]; [|by right].
    apply (process_event_within ev start_date end_date booked).
    by rewrite Hev.
  - simpl. intros Hd.
    apply (process_event_within ev start_date end_date booked).
    by rewrite Hev.
Qed.

Lemma booked_by_nil (start_date end_date d : Z) : ¬ booked_by [] start_date end_date d.
Proof. intros (ev & s & e & Hin & _). by apply elem_of_nil in Hin. Qed.

Lemma booked_by_cons (ev : event) (evs : list event) (start_date end_date d : Z) :
  booked_by (ev :: evs) start_date end_date d ↔
  (∃ s e, read_event ev = Spans s e ∧ s ≤ d < e ∧ start_date ≤ d ≤ end_date) ∨
  booked_by evs start_date end_date d.
Proof.
  unfold Notions.booked_by. split.
  - intros (ev' & s & e & Hin & Hr & H1 & H2).
    apply elem_of_cons in Hin as [->|Hin]; [left; eauto | right; eauto 10].
  - intros [(s & e & Hr & H1 & H2) | (ev' & s & e & Hin & Hr & H1 & H2)].
    + exists ev, s, e. split; [left|done].
    + exists ev', s, e. split; [by right|done].
Qed.

Lemma booked_by_app (evs1 evs2 : list event) (start_date end_date d : Z) :
  booked_by (evs1 ++ evs2) start_date end_date d ↔
  booked_by evs1 start_date end_date d ∨ booked_by evs2 start_date end_date d.
Proof.
  unfold Notions.booked_by. split.
  - intros (ev & s & e & Hin & H).
    apply elem_of_app in Hin as [Hin|Hin]; [left|right]; eauto 10.
  - intros [(ev & s & e & Hin & H) | (ev & s & e & Hin & H)];
      exists ev, s, e; (split; [apply elem_of_app; auto | done]).
Qed.

(** A page whose events can all be read adds exactly the days they span
    inside the window. *)
Lemma process_events_spec (evs : list event) (start_date end_date : Z) :
  ∀ booked : gset Z,
    Forall readable evs →
    ∃ B, process_events evs start_date end_date booked = (B, Ok tt) ∧
         ∀ d, d ∈ B ↔ d ∈ booked ∨ booked_by evs start_date end_date d.
Proof.
  induction evs as [|ev evs IH]; intros booked Hr.
  - exists booked. split; [done|]. intros d. split; [auto|].
    intros [?|H]; [done|]. by apply booked_by_nil in H.
  - apply Forall_cons in Hr as [Hev Hr]. simpl.
    destruct (read_event ev) as [|s e|x] eqn:Hread.
    + rewrite (process_event_skipped ev _ _ _ Hread).
      destruct (IH booked Hr) as (B & HB & Hmem). exists B. split; [done|].
      intros d. rewrite Hmem, booked_by_cons.
      split; [tauto|]. intros [?|[(s & e & He & _)|?]]; [tauto| congruence |tauto].
    + destruct (process_event_spans ev start_date end_date booked s e Hread)
        as (B1 & HB1 & Hmem1).
      rewrite HB1.
      destruct (IH B1 Hr) as (B & HB & Hmem). exists B. split; [done|].
      intros d. rewrite Hmem, Hmem1, booked_by_cons.
      split.
      * intros [[?|?]|?]; [tauto| |tauto]. right. left. eauto.
      * intros [?|[(s' & e' & He & ?)|?]]; [tauto| |tauto].
        rewrite Hread in He. injection He as <- <-. tauto.
    + exfalso. by apply (Hev x).
Qed.

Lemma lacks_timestamp_get (x : member dateTimeTimeZone) :
  lacks_timestamp x → get_dateTime x = Ok "".
Proof.
  intros [->|(o & -> & [H|H])]; [done| |]; simpl; by rewrite H.
Qed.

Lemma not_null_get (x : member dateTimeTimeZone) :
  x ≠ Null → ∃ s, get_dateTime x = Ok s.
Proof. destruct x; [by eexists|done|by eexists]. Qed.

(** C10, amended.  An event that is not flagged all-day, or whose start
    and end are not [null] and one of them holds no timestamp (the key or
    its ["dateTime"] absent, or the string empty), is skipped: it adds no
    date, raises nothing, and the events around it are processed as if it
    were not there. *)
Theorem skipped_events_contribute_nothing (ev : event) (start_date end_date : Z) :
  default false (isAllDay ev) = false ∨
  (start ev ≠ Null ∧ end_ ev ≠ Null ∧
   (lacks_timestamp (start ev) ∨ lacks_timestamp (end_ ev))) →
  (∀ booked, process_event ev start_date end_date booked = (booked, Ok tt)) ∧
  (∀ evs1 evs2 booked,
     process_events (evs1 ++ ev :: evs2) start_date end_date booked =
     process_events (evs1 ++ evs2) start_date end_date booked) ∧
  (∀ evs1 evs2 d,
     booked_by (evs1 ++ ev :: evs2) start_date end_date d ↔
     booked_by (evs1 ++ evs2) start_date end_date d).
Proof.
  intros Hskip.
  assert (Hread : read_event ev = Skipped).
  { unfold Notions.read_event.
    destruct Hskip as [->|(Hs & He & Hlack)]; [done|].
    destruct (negb _); [done|].
    destruct (not_null_get _ Hs) as (start_str & Hss).
    destruct (not_null_get _ He) as (end_str & Hes).
    rewrite Hss, Hes.
    destruct Hlack as [Hl|Hl]; apply lacks_timestamp_get in Hl.
    - rewrite Hss in Hl. by injection Hl as ->.
    - rewrite Hes in Hl. injection Hl as ->. by destruct (negb (truthy start_str)). }
  assert (Hone : ∀ booked, process_event ev start_date end_date booked = (booked, Ok tt))
    by (intros; by apply process_event_skipped).
  split; [exact Hone|]. split.
  - intros evs1. induction evs1 as [|ev1 evs1 IH]; intros evs2 booked; simpl.
    + by rewrite Hone.
    + destruct (process_event ev1 start_date end_date booked) as [B [[]|x]]; [|done].
      apply IH.
  - intros evs1 evs2 d. rewrite !booked_by_app, booked_by_cons.
    split; [|tauto]. intros [?|[(s & e & Hr & _)|?]]; [tauto|congruence|tauto].
Qed.

End Events.

End CalendarFacts.

(** ** The token cache *)
Module TokenFacts.
Import Date DateFacts Calendar Main Notions.

(** The three parts of [get_access_token], as equations. *)
Lemma cached_token_if_fresh_eq (w : world) :
  cached_token_if_fresh w =
    match _cached_token w, _token_expires_at w with
    | Some tok, Some exp =>
        if truthy tok then
          match datetime_sub exp (timedelta_minutes 5) with
          | Ok limit => (Returned (if clock w <? limit then Some tok else None), w)
          | Raise e => (Raised e, w)
          end
        else (Returned None, w)
    | _, _ => (Returned None, w)
    end.
Proof.
  unfold cached_token_if_fresh, bind, gets, now, ret.
  destruct (_cached_token w) as [tok|]; [|done].
  destruct (_token_expires_at w) as [exp|]; [|done].
  destruct (truthy tok); [|done].
  by destruct (datetime_sub exp (timedelta_minutes 5)).
Qed.

Lemma refresh_the_token_eq (c : config) (w : world) :
  refresh_the_token c w =
    match network w with
    | [] => (Pending, suspended (sending (token_request c) w))
    | x :: rest =>
        let w1 := received x rest (suspended (sending (token_request c) w)) in
        match answer x with
        | TransportFailure => (Raised TransportError, w1)
        | Response status body =>
            if negb (status =? 200) then (Returned None, w1)
            else
              match body with
              | None => (Raised ValueError, w1)
              | Some data =>
                  match access_token data with
                  | None => (Raised KeyError, w1)
                  | Some tok =>
                      let w2 := set_cached_token (Some tok) w1 in
                      match timedelta_seconds (default 3600 (expires_in data)) with
                      | Raise e => (Raised e, w2)
                      | Ok delta =>
                          match datetime_add (arrival x) delta with
                          | Raise e => (Raised e, w2)
                          | Ok exp => (Returned (Some tok), set_token_expires_at (Some exp) w2)
                          end
                      end
                  end
              end
        end
    end.
Proof.
  unfold refresh_the_token, bind, http.
  cbn [network suspended sending].
  destruct (network w) as [|x rest]; [done|].
  destruct (answer x) as [|status body]; [done|].
  cbn [fst snd]. destruct (negb (status =? 200)); [done|].
  destruct body as [data|]; [|done]. cbn [response_json ret].
  destruct (access_token data) as [tok|]; [|done].
  cbn [lift ret modify gets now].
  destruct (timedelta_seconds _) as [delta|]; [|done].
  cbn [lift ret raise clock set_cached_token received].
  destruct (datetime_add (arrival x) delta) as [exp|]; done.
Qed.

Lemma get_access_token_eq (w : world) :
  get_access_token w =
    if negb (truthy (getenv "MS_REFRESH_TOKEN" w)) then (Returned None, w)
    else
      match cached_token_if_fresh w with
      | (Returned (Some tok), w') => (Returned (Some tok), w')
      | (Returned None, w') =>
          match refresh_the_token (_get_config w) w' with
          | (Raised _, w'') => (Returned None, w'')
          | r => r
          end
      | (Raised e, w') => (Raised e, w')
      | (Pending, w') => (Pending, w')
      end.
Proof.
  unfold get_access_token, bind, gets.
  change (refresh_token (_get_config w)) with (getenv "MS_REFRESH_TOKEN" w).
  destruct (negb _); [done|].
  destruct (cached_token_if_fresh w) as [[[tok|]|e|] w']; try done.
Qed.

Lemma get_access_token_unconfigured (w : world) :
  truthy (getenv "MS_REFRESH_TOKEN" w) = false →
  get_access_token w = (Returned None, w).
Proof. intros H. rewrite get_access_token_eq. by rewrite H. Qed.

Lemma datetime_sub_five_minutes (exp : Z) :
  timedelta_minutes 5 ≤ exp ≤ DATETIME_MAX →
  datetime_sub exp (timedelta_minutes 5) = Ok (exp - 300000000).
Proof.
  unfold datetime_sub, datetime_add, timedelta_minutes,
    DATETIME_MAX, US_PER_DAY, US_PER_SECOND, _MAXORDINAL.
  intros H.
  replace (exp + - (5 * 60 * 1000000)) with (exp - 300000000) by lia.
  replace (0 <=? exp - 300000000) with true by (symmetry; apply Z.leb_le; lia).
  replace (exp - 300000000 <=? 3652059 * (86400 * 1000000) - 1) with true
    by (symmetry; apply Z.leb_le; lia).
  done.
Qed.

Lemma clock_ok_five_minutes (t : Z) :
  clock_ok t → timedelta_minutes 5 ≤ t ≤ DATETIME_MAX.
Proof.
  unfold clock_ok, timedelta_minutes, UNIX_EPOCH, US_PER_DAY, US_PER_SECOND. lia.
Qed.

Lemma datetime_add_ok (t delta exp : Z) :
  datetime_add t delta = Ok exp → exp = t + delta ∧ 0 ≤ exp ≤ DATETIME_MAX.
Proof.
  unfold datetime_add.
  destruct ((0 <=? t + delta) && (t + delta <=? DATETIME_MAX)) eqn:H; [|done].
  intros [= <-]. apply andb_true_iff in H as [H1 H2].
  apply Z.leb_le in H1, H2. done.
Qed.

Lemma timedelta_seconds_ok (n delta : Z) :
  timedelta_seconds n = Ok delta → delta = n * US_PER_SECOND.
Proof. unfold timedelta_seconds. destruct (_ <=? _); [|done]. by intros [= <-]. Qed.

(** The freshness test never writes. *)
Lemma cached_token_if_fresh_world (w : world) : (cached_token_if_fresh w).2 = w.
Proof.
  rewrite cached_token_if_fresh_eq.
  destruct (_cached_token w) as [tok|]; [|done].
  destruct (_token_expires_at w) as [exp|]; [|done].
  destruct (truthy tok); [|done].
  by destruct (datetime_sub exp (timedelta_minutes 5)).
Qed.

(** When the stored expiry is at least five minutes after [datetime.min],
    the freshness test does not raise. *)
Lemma cached_token_if_fresh_inv (w : world) :
  (∀ e, _token_expires_at w = Some e → timedelta_minutes 5 ≤ e ≤ DATETIME_MAX) →
  ∃ r, cached_token_if_fresh w = (Returned r, w) ∧
       (∀ tok, r = Some tok →
          _cached_token w = Some tok ∧ truthy tok = true ∧
          ∃ exp, _token_expires_at w = Some exp ∧ clock w < exp - 300000000).
Proof.
  intros Hexp. rewrite cached_token_if_fresh_eq.
  destruct (_cached_token w) as [tok|]; [|by eexists].
  destruct (_token_expires_at w) as [exp|] eqn:He; [|by eexists].
  destruct (truthy tok) eqn:Ht; [|by eexists].
  rewrite (datetime_sub_five_minutes exp) by auto.
  eexists. split; [done|].
  intros tok'. destruct (clock w <? exp - 300000000) eqn:Hlt; [|done].
  intros [= <-]. apply Z.ltb_lt in Hlt. eauto.
Qed.

Lemma env_ok_received (x : exchange) (rest : list exchange) (w w1 : world) :
  env_ok w → network w = x :: rest →
  clock w1 = arrival x → network w1 = rest → env_ok w1.
Proof.
  intros [Hc Hn] Hw Hc1 Hn1. rewrite Hw in Hn. apply Forall_cons in Hn as [Hx Hr].
  split; [by rewrite Hc1 | by rewrite Hn1].
Qed.

(** The token exchange keeps the invariant when a refresh token is
    configured. *)
Lemma refresh_the_token_inv (c : config) (w : world) :
  truthy (getenv "MS_REFRESH_TOKEN" w) = true →
  token_inv w → token_inv (refresh_the_token c w).2.
Proof.
  intros Hrt (Henv & Htok & Hexp). rewrite refresh_the_token_eq.
  destruct (network w) as [|x rest] eqn:Hn.
  { split; [|split]; [| done | done].
    destruct Henv as [Hc Hf]. split; [done|]. simpl. by rewrite Hn. }
  assert (Henv1 : ∀ w1, clock w1 = arrival x → network w1 = rest → env_ok w1)
    by (intros; by eapply env_ok_received).
  cbv zeta.
  destruct (answer x) as [|status body]; [by split; [apply Henv1|] |].
  destruct (negb (status =? 200)); [by split; [apply Henv1|] |].
  destruct body as [data|]; [|by split; [apply Henv1|]].
  destruct (access_token data) as [tok|]; [|by split; [apply Henv1|]].
  destruct (timedelta_seconds _) as [delta|] eqn:Hd; [|by split; [apply Henv1|]].
  destruct (datetime_add (arrival x) delta) as [exp|] eqn:Ha; [|by split; [apply Henv1|]].
  split; [by apply Henv1|]. split; [done|].
  cbn. intros e [= <-]. by apply datetime_add_ok in Ha as [_ Hr].
Qed.

(** The invariant holds in every reachable world. *)
Lemma get_access_token_inv (w : world) :
  token_inv w → token_inv (get_access_token w).2.
Proof.
  intros Hinv. rewrite get_access_token_eq.
  destruct (truthy (getenv "MS_REFRESH_TOKEN" w)) eqn:Hrt; [|done]. simpl.
  pose proof (cached_token_if_fresh_world w) as Hw.
  destruct (cached_token_if_fresh w) as [[[tok|]|e|] w']; simpl in Hw; subst w';
    [done| |done|done].
  pose proof (refresh_the_token_inv (_get_config w) w Hrt Hinv) as H.
  by destruct (refresh_the_token (_get_config w) w) as [[?|?|] ?].
Qed.

Lemma reachable_inv (w : world) : reachable w → token_inv w.
Proof.
  induction 1 as [w Ht He Henv | w w' _ IH (Henvn & Ht & He) Henv | w _ IH].
  - split; [done|]. rewrite Ht, He. split; [done|]. intros e. done.
  - destruct IH as (_ & Htok & Hexp). split; [done|].
    unfold getenv in *. rewrite Henvn, Ht, He. done.
  - by apply get_access_token_inv.
Qed.

(** [get_access_token] raises exactly what the subtraction of line 47
    raises: a refresh token is configured, a token is cached, and five
    minutes before its stored expiry is no [datetime]. *)
Lemma get_access_token_raises (w : world) (x : exn) :
  (get_access_token w).1 = Raised x ↔
  truthy (getenv "MS_REFRESH_TOKEN" w) = true ∧
  ∃ tok exp, _cached_token w = Some tok ∧ truthy tok = true ∧
             _token_expires_at w = Some exp ∧
             datetime_sub exp (timedelta_minutes 5) = Raise x.
Proof.
  rewrite get_access_token_eq, cached_token_if_fresh_eq.
  destruct (truthy (getenv "MS_REFRESH_TOKEN" w)); simpl.
  2:{ split; [done|]. by intros [? _]. }
  assert (Hex : ∀ w', (match refresh_the_token (_get_config w) w' with
                       | (Raised _, w'') => (Returned None, w'')
                       | r => r
                       end).1 ≠ Raised x).
  { intros w'. by destruct (refresh_the_token (_get_config w) w') as [[?|?|] ?]. }
  destruct (_cached_token w) as [tok|].
  2:{ split; [intros H; by apply Hex in H|]. by intros (_ & ? & ? & ? & _). }
  destruct (_token_expires_at w) as [exp|].
  2:{ split; [intros H; by apply Hex in H|]. by intros (_ & ? & ? & _ & _ & ? & _). }
  destruct (truthy tok) eqn:Ht.
  2:{ split; [intros H; by apply Hex in H|].
      intros (_ & ? & ? & [= <-] & ? & _). congruence. }
  destruct (datetime_sub exp (timedelta_minutes 5)) as [limit|e] eqn:Hsub.
  - split.
    + destruct (clock w <? limit); [done|]. intros H. by apply Hex in H.
    + intros (_ & ? & ? & _ & _ & [= <-] & H). congruence.
  - simpl. split.
    + intros [= ->]. split; [done|]. by exists tok, exp.
    + intros (_ & ? & ? & _ & _ & [= <-] & H). congruence.
Qed.

(** The exchange keeps the token cache settled. *)
Lemma refresh_the_token_settled (c : config) (w : world) :
  settled w → settled (refresh_the_token c w).2.
Proof.
  intros (Henv & Hlife & Hexp). rewrite refresh_the_token_eq.
  destruct (network w) as [|x rest] eqn:Hn.
  { split; [|split]; [| by cbn; rewrite Hn | done].
    destruct Henv as [Hc Hf]. split; [done|]. simpl. by rewrite Hn. }
  assert (Hx : clock_ok (arrival x)).
  { destruct Henv as [_ Hf]. rewrite Hn in Hf. by apply Forall_cons in Hf as [? _]. }
  apply Forall_cons in Hlife as [Hlx Hlife].
  assert (Henv1 : ∀ w1, clock w1 = arrival x → network w1 = rest → env_ok w1)
    by (intros; by eapply env_ok_received).
  cbv zeta. unfold lifetime_ok in Hlx.
  destruct (answer x) as [|status body]; [by split; [apply Henv1|] |].
  destruct (negb (status =? 200)); [by split; [apply Henv1|] |].
  destruct body as [data|]; [|by split; [apply Henv1|]].
  destruct (access_token data) as [tok|]; [|by split; [apply Henv1|]].
  destruct (timedelta_seconds _) as [delta|] eqn:Hd; [|by split; [apply Henv1|]].
  destruct (datetime_add (arrival x) delta) as [exp|] eqn:Ha; [|by split; [apply Henv1|]].
  split; [by apply Henv1|]. split; [done|].
  cbn. intros e [= <-].
  apply datetime_add_ok in Ha as [-> Hr]. apply timedelta_seconds_ok in Hd as ->.
  unfold clock_ok, US_PER_SECOND in *. lia.
Qed.

Lemma settled_fresh (w : world) :
  settled w → ∃ r, cached_token_if_fresh w = (Returned r, w).
Proof.
  intros (_ & _ & Hexp).
  destruct (cached_token_if_fresh_inv w) as (r & Hr & _); [|by exists r].
  intros e He. by apply clock_ok_five_minutes, Hexp.
Qed.

Lemma get_access_token_settled (w : world) :
  settled w → settled (get_access_token w).2.
Proof.
  intros Hs. rewrite get_access_token_eq.
  destruct (negb _); [done|].
  destruct (settled_fresh w Hs) as (r & ->).
  destruct r as [tok|]; [done|].
  pose proof (refresh_the_token_settled (_get_config w) w Hs) as H.
  by destruct (refresh_the_token (_get_config w) w) as [[?|?|] ?].
Qed.

(** [get_access_token] does not raise when the token cache is settled. *)
Lemma get_access_token_no_raise (w : world) (e : exn) :
  settled w → (get_access_token w).1 ≠ Raised e.
Proof.
  intros Hs. rewrite get_access_token_eq.
  destruct (negb _); [done|].
  destruct (settled_fresh w Hs) as (r & ->).
  destruct r as [tok|]; [done|].
  by destruct (refresh_the_token (_get_config w) w) as [[?|?|] ?].
Qed.

(** A cached token that is good for more than five minutes is returned
    as it is: no request, no write. *)
Lemma get_access_token_hit (w : world) (tok : string) (exp : Z) :
  token_inv w →
  _cached_token w = Some tok → truthy tok = true →
  _token_expires_at w = Some exp →
  clock w + timedelta_minutes 5 < exp →
  get_access_token w = (Returned (Some tok), w).
Proof.
  intros Hinv Ht Htr He Hlt. destruct Hinv as (Henv & Htok & Hexp).
  rewrite get_access_token_eq, cached_token_if_fresh_eq, Ht, He, Htr.
  rewrite Htok by (by rewrite Ht). simpl.
  assert (Hfive : timedelta_minutes 5 ≤ exp ≤ DATETIME_MAX).
  { destruct Henv as [[Hc _] _]. pose proof (Hexp exp He).
    unfold timedelta_minutes, UNIX_EPOCH, US_PER_DAY, US_PER_SECOND in *. lia. }
  rewrite (datetime_sub_five_minutes exp) by done.
  unfold timedelta_minutes, US_PER_SECOND in Hlt.
  replace (clock w <? exp - 300000000) with true by (symmetry; apply Z.ltb_lt; lia).
  done.
Qed.

Ltac clocks_ok :=
  repeat (apply Forall_cons; split; [vm_compute; split; discriminate|]);
  apply Forall_nil_2.

Lemma started_reachable (env : gmap string string) (answers : list exchange) :
  Forall (λ x, clock_ok (arrival x)) answers → reachable (Sample.started env answers).
Proof.
  intros H. apply reachable_loaded; [done|done|].
  split; [|done]. vm_compute. split; discriminate.
Qed.

Lemma Sample_with_token_reachable : reachable Sample.with_token.
Proof.
  assert (Hok : Forall (λ x, clock_ok (arrival x)) [Sample.token_answer]) by clocks_ok.
  pose proof (reachable_call _ (started_reachable Sample.configured _ Hok)) as H.
  eapply reachable_env; [exact H| |].
  - repeat split; vm_compute; reflexivity.
  - split; [|apply Forall_nil_2]. vm_compute. split; discriminate.
Qed.

(** C4. In a reachable world whose cached token is good for more than five
    minutes, [get_access_token] returns that token and changes nothing: no
    request is sent and the token cache is as before.  A second call right
    after, or later while the expiry is still more than five minutes
    ahead, again sends nothing. *)
Theorem fresh_cached_token_is_reused (w : world) (tok : string) (exp : Z) :
  reachable w →
  _cached_token w = Some tok → truthy tok = true →
  _token_expires_at w = Some exp →
  clock w + timedelta_minutes 5 < exp →
  get_access_token w = (Returned (Some tok), w) ∧
  (do _ <- get_access_token; get_access_token) w = (Returned (Some tok), w) ∧
  (∀ w2, same_globals w w2 → env_ok w2 →
     clock w2 + timedelta_minutes 5 < exp →
     get_access_token w2 = (Returned (Some tok), w2)).
Proof.
  intros Hr Ht Htr He Hlt.
  assert (H1 : get_access_token w = (Returned (Some tok), w))
    by (apply (get_access_token_hit w tok exp); auto using reachable_inv).
  split; [exact H1|]. split.
  - unfold bind. by rewrite H1.
  - intros w2 Hsame Henv Hlt2.
    pose proof (reachable_inv w2 (reachable_env w w2 Hr Hsame Henv)) as Hinv.
    destruct Hsame as (_ & Ht2 & He2).
    apply (get_access_token_hit w2 tok exp); [done| | done | |done]; congruence.
Qed.

Lemma fresh_cached_token_is_reused_witness :
  reachable Sample.with_token ∧
  clock Sample.with_token + timedelta_minutes 5 < Sample.noon1 + 3600 * US_PER_SECOND ∧
  get_access_token Sample.with_token = (Returned (Some "tok"), Sample.with_token).
Proof.
  assert (Hlt : clock Sample.with_token + timedelta_minutes 5
                < Sample.noon1 + 3600 * US_PER_SECOND) by (vm_compute; reflexivity).
  split; [apply Sample_with_token_reachable|]. split; [exact Hlt|].
  exact (proj1 (fresh_cached_token_is_reused Sample.with_token "tok"
                  (Sample.noon1 + 3600 * US_PER_SECOND)
                  Sample_with_token_reachable eq_refl eq_refl eq_refl Hlt)).
Defined.

(** C5.  [get_access_token] can raise.  A freshly started process with a
    refresh token receives, at 2026-01-01T12:00:01, a token whose
    ["expires_in"] is -63902865361: the call returns the token and stores
    the expiry 0001-01-01T00:04:00.  The next call raises [OverflowError]
    at the subtraction of line 47, which is outside the [try]; nothing is
    written, so every later call raises as well. *)
Theorem backdated_expiry_makes_next_call_raise :
  let w1 := (get_access_token Sample2.backdated_token).2 in
  reachable Sample2.backdated_token ∧
  (get_access_token Sample2.backdated_token).1 = Returned (Some "tok") ∧
  _token_expires_at w1 = Some (timedelta_minutes 4) ∧
  reachable w1 ∧
  get_access_token w1 = (Raised OverflowError, w1).
Proof.
  cbv zeta.
  assert (Hr : reachable Sample2.backdated_token)
    by (apply started_reachable; clocks_ok).
  split; [exact Hr|]. split; [vm_compute; reflexivity|].
  split; [vm_compute; reflexivity|]. split; [by apply reachable_call|].
  vm_compute. reflexivity.
Qed.

End TokenFacts.

(** ** The fetch: pagination *)
Module FetchFacts.
Import Date DateFacts Calendar Main Notions CalendarFacts TokenFacts.

Lemma quiet_refl (w : world) : quiet w w.
Proof. split; [done|]. split; [done|]. exists 0%nat. simpl. by rewrite app_nil_r. Qed.

Lemma quiet_trans (w1 w2 w3 : world) : quiet w1 w2 → quiet w2 w3 → quiet w1 w3.
Proof.
  intros (Hc1 & Ht1 & k1 & Hs1) (Hc2 & Ht2 & k2 & Hs2).
  split; [congruence|]. split; [congruence|].
  exists (k1 + k2)%nat. rewrite Hs2, Hs1, Hc1, replicate_add. by rewrite app_assoc.
Qed.

Lemma quiet_request (r : request) (w : world) : quiet w (suspended (sending r w)).
Proof. split; [done|]. split; [done|]. by exists 1%nat. Qed.

Lemma quiet_received (x : exchange) (rest : list exchange) (r : request) (w : world) :
  quiet w (received x rest (suspended (sending r w))).
Proof. split; [done|]. split; [done|]. by exists 1%nat. Qed.

(** [get_access_token] leaves [_cache] alone. *)
Lemma get_access_token_quiet (w : world) : quiet w (get_access_token w).2.
Proof.
  rewrite get_access_token_eq.
  destruct (negb _); [apply quiet_refl|].
  rewrite cached_token_if_fresh_eq.
  assert (Hr : quiet w (match refresh_the_token (_get_config w) w with
                        | (Raised _, w'') => (Returned None, w'')
                        | r => r
                        end).2).
  { rewrite refresh_the_token_eq.
    destruct (network w) as [|x rest]; [apply quiet_request|]. cbv zeta.
    pose proof (quiet_received x rest (token_request (_get_config w)) w) as Hq.
    destruct (answer x) as [|status body]; [done|].
    destruct (negb (status =? 200)); [done|].
    destruct body as [data|]; [|done].
    destruct (access_token data) as [tok|]; [|done].
    destruct (timedelta_seconds _) as [delta|]; [|done].
    destruct (datetime_add (arrival x) delta) as [exp|]; done. }
  destruct (_cached_token w) as [tok|]; [|done].
  destruct (_token_expires_at w) as [exp|]; [|done].
  destruct (truthy tok); [|done].
  destruct (datetime_sub exp (timedelta_minutes 5)) as [limit|]; [|apply quiet_refl].
  destruct (clock w <? limit); [apply quiet_refl|done].
Qed.

Section Pages.

Variable fromisoformat_date : string → result Z.
Hypothesis fromisoformat_valid :
  ∀ s d, fromisoformat_date s = Ok d → valid d.

Local Abbreviation process_events := (process_events fromisoformat_date).
Local Abbreviation fetch_pages := (fetch_pages fromisoformat_date).
Local Abbreviation readable := (readable fromisoformat_date).
Local Abbreviation booked_by := (booked_by fromisoformat_date).

Variables (access_token : string) (start_date end_date : Z).

(** One turn of [while url:]. *)
Lemma fetch_pages_step (fuel : nat) (u : string) (params : option (list (string * string)))
    (booked : gset Z) (w : world) :
  truthy u = true →
  fetch_pages (S fuel) (Some u) params access_token start_date end_date booked w =
    let w0 := suspended (sending (GET u params ("Bearer " +:+ access_token)) w) in
    match network w with
    | [] => (Pending, w0)
    | x :: rest =>
        let w1 := received x rest w0 in
        match answer x with
        | TransportFailure => (Returned booked, w1)
        | Response status body =>
            if negb (status =? 200) then (Returned booked, w1)
            else
              match body with
              | None => (Returned booked, w1)
              | Some data =>
                  match process_events (default [] (value data)) start_date end_date booked with
                  | (B, Raise _) => (Returned B, w1)
                  | (B, Ok _) =>
                      fetch_pages fuel (odata_nextLink data) None access_token
                        start_date end_date B w1
                  end
              end
        end
    end.
Proof.
  intros Hu. cbn [Calendar.fetch_pages]. rewrite Hu.
  unfold in_try at 1. unfold http. cbn [network suspended sending].
  destruct (network w) as [|x rest]; [done|].
  destruct (answer x) as [|status body]; [done|].
  cbn [fst snd]. destruct (negb (status =? 200)); [done|].
  destruct body as [data|]; [|done].
  unfold in_try, response_json, ret.
  by destruct (process_events _ _ _ _) as [B [[]|?]].
Qed.

Lemma fetch_pages_stop (fuel : nat) (url : option string)
    (params : option (list (string * string))) (booked : gset Z) (w : world) :
  truthy_opt url = false →
  fetch_pages (S fuel) url params access_token start_date end_date booked w
    = (Returned booked, w).
Proof.
  intros Hu. cbn [Calendar.fetch_pages].
  destruct url as [u|]; [|done]. simpl in Hu. by rewrite Hu.
Qed.

(** The pagination never raises, only adds days of the window, and leaves
    [_cache] alone. *)
Lemma fetch_pages_sound (fuel : nat) :
  ∀ (url : option string) (params : option (list (string * string)))
    (booked : gset Z) (w : world),
    let r := fetch_pages fuel url params access_token start_date end_date booked w in
    (∀ x, r.1 ≠ Raised x) ∧
    (∀ B d, r.1 = Returned B → d ∈ B → d ∈ booked ∨ start_date ≤ d ≤ end_date) ∧
    quiet w r.2.
Proof.
  induction fuel as [|fuel IH]; intros url params booked w; cbv zeta.
  { simpl. split; [done|]. split; [done|]. apply quiet_refl. }
  destruct (truthy_opt url) eqn:Hu.
  2:{ rewrite fetch_pages_stop by done. split; [done|]. split; [|apply quiet_refl].
      intros B d [= <-]. auto. }
  destruct url as [u|]; [|done]. simpl in Hu.
  rewrite fetch_pages_step by done. cbv zeta.
  destruct (network w) as [|x rest].
  { split; [done|]. split; [done|]. apply quiet_request. }
  pose proof (quiet_received x rest (GET u params ("Bearer " +:+ access_token)) w) as Hq.
  assert (Hsame : ∀ B d, Returned booked = Returned B → d ∈ B →
                         d ∈ booked ∨ start_date ≤ d ≤ end_date)
    by (intros B d [= <-]; auto).
  destruct (answer x) as [|status body]; [done|].
  destruct (negb (status =? 200)); [done|].
  destruct body as [data|]; [|done].
  destruct (process_events _ _ _ _) as [B1 [[]|?]] eqn:Hev.
  - pose proof (process_events_within fromisoformat_date (default [] (value data))
                  start_date end_date booked) as Hw.
    rewrite Hev in Hw. simpl in Hw.
    destruct (IH (odata_nextLink data) None B1
                (received x rest (suspended (sending (GET u params ("Bearer " +:+ access_token)) w))))
      as (H1 & H2 & H3).
    split; [done|]. split.
    + intros B d HB Hd. destruct (H2 B d HB Hd) as [Hd1|?]; [|by right]. by apply Hw.
    + by eapply quiet_trans.
  - split; [done|]. split; [|done].
    intros B d [= <-] Hd.
    pose proof (process_events_within fromisoformat_date (default [] (value data))
                  start_date end_date booked d) as Hw.
    rewrite Hev in Hw. by apply Hw.
Qed.

Lemma events_of_cons (p : Z * json) (ps : list (Z * json)) :
  events_of (p :: ps) = page_events p ++ events_of ps.
Proof. done. Qed.

Lemma events_of_app (ps qs : list (Z * json)) :
  events_of (ps ++ qs) = events_of ps ++ events_of qs.
Proof. unfold events_of. by rewrite fmap_app, concat_app. Qed.

(** Pages that can be read and that announce a next page are consumed one
    after the other; the loop then goes on with the link of the last one. *)
Lemma fetch_pages_prefix (ps : list (Z * json)) :
  ∀ (fuel : nat) (u : string) (params : option (list (string * string)))
    (booked : gset Z) (w : world) (rest : list exchange),
    truthy u = true →
    network w = answers ps ++ rest →
    Forall has_next ps →
    Forall readable (events_of ps) →
    ∃ B w' url' params',
      fetch_pages (List.length ps + fuel) (Some u) params access_token
        start_date end_date booked w
      = fetch_pages fuel url' params' access_token start_date end_date B w' ∧
      truthy_opt url' = true ∧ network w' = rest ∧
      (∀ d, d ∈ B ↔ d ∈ booked ∨ booked_by (events_of ps) start_date end_date d).
Proof.
  induction ps as [|p ps IH]; intros fuel u params booked w rest Hu Hn Hnext Hread.
  - exists booked, w, (Some u), params. split; [done|]. split; [done|].
    split; [done|]. intros d. split; [auto|].
    intros [?|H]; [done|]. by apply booked_by_nil in H.
  - apply Forall_cons in Hnext as [Hp Hnext].
    rewrite events_of_cons in Hread. apply Forall_app in Hread as [Hrp Hread].
    cbn [List.length Nat.add]. rewrite fetch_pages_step by done. cbv zeta.
    rewrite Hn. cbn [answers fmap list_fmap app page answer].
    change (negb (200 =? 200)) with false. cbn [negb].
    destruct (process_events_spec fromisoformat_date fromisoformat_valid
                (page_events p) start_date end_date booked Hrp) as (B1 & HB1 & Hmem1).
    unfold page_events in HB1. rewrite HB1.
    unfold has_next in Hp.
    destruct (odata_nextLink p.2) as [u'|] eqn:Hlink; [|done]. simpl in Hp.
    destruct (IH fuel u' None B1
                (received {| arrival := p.1; answer := Response 200 (Some p.2) |}
                   (answers ps ++ rest)
                   (suspended (sending (GET u params ("Bearer " +:+ access_token)) w)))
                rest Hp eq_refl Hnext Hread)
      as (B & w' & url' & params' & Heq & Hurl & Hnet & Hmem).
    exists B, w', url', params'. split; [done|]. split; [done|]. split; [done|].
    intros d. rewrite Hmem, Hmem1, events_of_cons, booked_by_app. tauto.
Qed.

(** With more fuel than there are answers, the loop is only ever pending
    on an answer that has not come. *)
Lemma fetch_pages_fuel (fuel : nat) :
  ∀ (url : option string) (params : option (list (string * string)))
    (booked : gset Z) (w : world),
    (List.length (network w) < fuel)%nat →
    let r := fetch_pages fuel url params access_token start_date end_date booked w in
    r.1 = Pending → network r.2 = [].
Proof.
  induction fuel as [|fuel IH]; intros url params booked w Hlen; cbv zeta; [lia|].
  destruct (truthy_opt url) eqn:Hu.
  2:{ by rewrite fetch_pages_stop by done. }
  destruct url as [u|]; [|done]. simpl in Hu.
  rewrite fetch_pages_step by done. cbv zeta.
  destruct (network w) as [|x rest] eqn:Hn; [intros _; exact Hn|].
  destruct (answer x) as [|status body]; [done|].
  destruct (negb (status =? 200)); [done|].
  destruct body as [data|]; [|done].
  destruct (process_events _ _ _ _) as [B1 [[]|?]]; [|done].
  apply IH. simpl in *. lia.
Qed.

(** Requests are only ever appended to the log, and the first turn of
    the loop sends the request for [u]. *)
Lemma fetch_pages_sent (fuel : nat) :
  ∀ (url : option string) (params : option (list (string * string)))
    (booked : gset Z) (w : world),
    ∃ more,
      sent (fetch_pages fuel url params access_token start_date end_date booked w).2
      = sent w ++ more.
Proof.
  induction fuel as [|fuel IH]; intros url params booked w.
  { exists []. simpl. by rewrite app_nil_r. }
  destruct (truthy_opt url) eqn:Hu.
  2:{ rewrite fetch_pages_stop by done. exists []. simpl. by rewrite app_nil_r. }
  destruct url as [u|]; [|done]. simpl in Hu.
  rewrite fetch_pages_step by done. cbv zeta.
  destruct (network w) as [|x rest]; [by eexists|].
  destruct (answer x) as [|status body]; [by eexists|].
  destruct (negb (status =? 200)); [by eexists|].
  destruct body as [data|]; [|by eexists].
  destruct (process_events _ _ _ _) as [B1 [[]|?]]; [|by eexists].
  destruct (IH (odata_nextLink data) None B1
              (received x rest (suspended (sending (GET u params ("Bearer " +:+ access_token)) w))))
    as (more & ->).
  cbn [sent received suspended sending]. rewrite <- app_assoc. by eexists.
Qed.

Lemma fetch_pages_first_request (fuel : nat) (u : string)
    (params : option (list (string * string))) (booked : gset Z) (w : world) :
  truthy u = true →
  ∃ more,
    sent (fetch_pages (S fuel) (Some u) params access_token start_date end_date booked w).2
    = sent w ++ GET u params ("Bearer " +:+ access_token) :: more.
Proof.
  intros Hu. rewrite fetch_pages_step by done. cbv zeta.
  destruct (network w) as [|x rest]; [by eexists|].
  destruct (answer x) as [|status body]; [by eexists|].
  destruct (negb (status =? 200)); [by eexists|].
  destruct body as [data|]; [|by eexists].
  destruct (process_events _ _ _ _) as [B1 [[]|?]]; [|by eexists].
  destruct (fetch_pages_sent fuel (odata_nextLink data) None B1
              (received x rest (suspended (sending (GET u params ("Bearer " +:+ access_token)) w))))
    as (more & ->).
  cbn [sent received suspended sending]. rewrite <- app_assoc. by eexists.
Qed.

End Pages.

Lemma events_url_truthy (calendar_id : string) : truthy (events_url calendar_id) = true.
Proof. unfold events_url. by destruct (truthy calendar_id). Qed.

Section Fetch.

Variable fromisoformat_date : string → result Z.
Hypothesis fromisoformat_valid :
  ∀ s d, fromisoformat_date s = Ok d → valid d.

Local Abbreviation fetch_pages := (fetch_pages fromisoformat_date).
Local Abbreviation fetch_calendar_events_graph :=
  (fetch_calendar_events_graph fromisoformat_date).
Local Abbreviation get_booked_dates := (get_booked_dates fromisoformat_date).
Local Abbreviation readable := (readable fromisoformat_date).
Local Abbreviation read_event := (read_event fromisoformat_date).
Local Abbreviation booked_by := (booked_by fromisoformat_date).

Lemma fetch_with_token (calendar_id : string) (start_date end_date : Z)
    (w w1 : world) (tok : string) :
  get_access_token w = (Returned (Some tok), w1) → truthy tok = true →
  fetch_calendar_events_graph calendar_id start_date end_date w =
    fetch_pages (S (List.length (network w1))) (Some (events_url calendar_id))
      (Some events_params) tok start_date end_date ∅ w1.
Proof.
  intros Hget Htok. unfold Calendar.fetch_calendar_events_graph, bind.
  rewrite Hget. cbn [truthy_opt]. rewrite Htok. done.
Qed.

Lemma fetch_without_token (calendar_id : string) (start_date end_date : Z)
    (w w1 : world) (r : option string) :
  get_access_token w = (Returned r, w1) → truthy_opt r = false →
  fetch_calendar_events_graph calendar_id start_date end_date w = (Returned ∅, w1).
Proof.
  intros Hget Htok. unfold Calendar.fetch_calendar_events_graph, bind.
  rewrite Hget, Htok. done.
Qed.

(** C6. When the pages [ps] have been read and the next answer is an
    error, the fetch returns -- it does not raise -- the dates booked by
    the events of [ps], neither fewer nor more, and asks for no further
    page. *)
Theorem page_error_keeps_accumulated_dates (calendar_id : string)
    (start_date end_date : Z) (w w1 : world) (tok : string)
    (ps : list (Z * json)) (x : exchange) (rest : list exchange) :
  get_access_token w = (Returned (Some tok), w1) →
  truthy tok = true →
  network w1 = answers ps ++ x :: rest →
  Forall has_next ps →
  Forall readable (events_of ps) →
  failed x →
  ∃ B w',
    fetch_calendar_events_graph calendar_id start_date end_date w = (Returned B, w') ∧
    network w' = rest ∧
    ∀ d, d ∈ B ↔ booked_by (events_of ps) start_date end_date d.
Proof.
  intros Hget Htok Hn Hnext Hread Hfail.
  rewrite (fetch_with_token _ _ _ w w1 tok) by done.
  rewrite Hn, length_app. cbn [List.length].
  replace (S (List.length (answers ps) + S (List.length rest)))
    with (List.length ps + S (S (List.length rest)))%nat
    by (unfold answers; rewrite length_fmap; lia).
  destruct (fetch_pages_prefix fromisoformat_date fromisoformat_valid tok start_date end_date
              ps (S (S (List.length rest))) (events_url calendar_id) (Some events_params)
              ∅ w1 (x :: rest) (events_url_truthy _) Hn Hnext Hread)
    as (B & w' & url' & params' & Heq & Hurl & Hnet & Hmem).
  rewrite Heq. clear Heq.
  destruct url' as [u'|]; [|done]. simpl in Hurl.
  rewrite fetch_pages_step by done. cbv zeta. rewrite Hnet.
  exists B. eexists. split.
  - unfold failed in Hfail. destruct (answer x) as [|status body]; [done|].
    destruct (negb (status =? 200)) eqn:Hs; [done|].
    apply negb_false_iff, Z.eqb_eq in Hs.
    destruct Hfail as [? | ->]; done.
  - split; [done|]. intros d. rewrite Hmem. split; [|auto].
    intros [Hd|?]; [|done]. by apply not_elem_of_empty in Hd.
Qed.

(** C1, amended.  A fetch that gets a token and reads all its pages,
    every event of which can be read, returns the dates [d] for which
    some returned all-day event from [s] to [e] has [s ≤ d < e], with
    [start_date ≤ d ≤ end_date], and no other date.  When a single event
    is returned, these are the days of that event inside the window; its
    end date is not among them. *)
Theorem booked_dates_are_event_days (calendar_id : string)
    (start_date end_date : Z) (w w1 : world) (tok : string)
    (ps : list (Z * json)) (t : Z) (last : json) (rest : list exchange) :
  get_access_token w = (Returned (Some tok), w1) →
  truthy tok = true →
  network w1 = answers ps ++ page t last :: rest →
  Forall has_next ps →
  truthy_opt (odata_nextLink last) = false →
  Forall readable (events_of (ps ++ [(t, last)])) →
  ∃ B w',
    fetch_calendar_events_graph calendar_id start_date end_date w = (Returned B, w') ∧
    (∀ d, d ∈ B ↔
       ∃ ev s e, ev ∈ events_of (ps ++ [(t, last)]) ∧
                 all_day_from_to fromisoformat_date ev s e ∧
                 s ≤ d < e ∧ start_date ≤ d ≤ end_date) ∧
    (∀ ev s e, events_of (ps ++ [(t, last)]) = [ev] →
       all_day_from_to fromisoformat_date ev s e →
       (e ∉ B) ∧ (∀ d, d ∈ B ↔ s ≤ d < e ∧ start_date ≤ d ≤ end_date)).
Proof.
  intros Hget Htok Hn Hnext Hlast Hread.
  rewrite events_of_app in Hread. apply Forall_app in Hread as [Hread Hrl].
  rewrite (fetch_with_token _ _ _ w w1 tok) by done.
  rewrite Hn, length_app. cbn [List.length].
  replace (S (List.length (answers ps) + S (List.length rest)))
    with (List.length ps + S (S (List.length rest)))%nat
    by (unfold answers; rewrite length_fmap; lia).
  destruct (fetch_pages_prefix fromisoformat_date fromisoformat_valid tok start_date end_date
              ps (S (S (List.length rest))) (events_url calendar_id) (Some events_params)
              ∅ w1 (page t last :: rest) (events_url_truthy _) Hn Hnext Hread)
    as (B & w' & url' & params' & Heq & Hurl & Hnet & Hmem).
  rewrite Heq. clear Heq.
  destruct url' as [u'|]; [|done]. simpl in Hurl.
  rewrite fetch_pages_step by done. cbv zeta. rewrite Hnet.
  cbn [page answer]. change (negb (200 =? 200)) with false. cbn [negb].
  unfold events_of in Hrl. simpl in Hrl. rewrite app_nil_r in Hrl.
  destruct (process_events_spec fromisoformat_date fromisoformat_valid
              (page_events (t, last)) start_date end_date B Hrl) as (B' & HB' & Hmem').
  unfold page_events in HB'. simpl in HB'. rewrite HB'.
  rewrite fetch_pages_stop by done.
  assert (Hall : ∀ d, d ∈ B' ↔
                   booked_by (events_of (ps ++ [(t, last)])) start_date end_date d).
  { intros d. rewrite Hmem', Hmem, events_of_app, booked_by_app.
    assert (Hl : events_of [(t, last)] = page_events (t, last))
      by (unfold events_of; simpl; by rewrite app_nil_r).
    rewrite Hl. split; [|tauto].
    intros [[Hd|?]|?]; [|tauto|tauto]. by apply not_elem_of_empty in Hd. }
  exists B'. eexists. split; [done|]. split.
  { intros d. rewrite Hall. unfold Notions.booked_by.
    split; intros (ev & s & e & Hin & Hr & H);
      exists ev, s, e; (split; [done|]); (split; [|done]);
      by apply (read_event_spans_iff fromisoformat_date). }
  intros ev s e Hone Hspan.
  apply (read_event_spans_iff fromisoformat_date) in Hspan.
  assert (Hd : ∀ d, d ∈ B' ↔ s ≤ d < e ∧ start_date ≤ d ≤ end_date).
  { intros d. rewrite Hall, Hone. split.
    - intros (ev' & s' & e' & Hin & Hr' & H1 & H2).
      apply list_elem_of_singleton in Hin as ->.
      rewrite Hspan in Hr'. injection Hr' as <- <-. done.
    - intros [H1 H2]. exists ev, s, e. split; [apply list_elem_of_singleton; done|done]. }
  split; [|exact Hd]. rewrite Hd. lia.
Qed.

Lemma get_booked_dates_unconfigured (venue : string) (months_ahead : Z) (w : world) :
  truthy (getenv "MS_REFRESH_TOKEN" w) = false →
  valid (today w) → 0 ≤ months_ahead → today w + months_ahead * 30 ≤ _MAXORDINAL →
  get_booked_dates venue months_ahead w = (Returned ∅, w).
Proof.
  intros Hrt Hv Hm Hmax. unfold Calendar.get_booked_dates.
  destruct (negb (bool_decide _)); [done|].
  unfold bind, date_today, gets, timedelta_days, add_days.
  unfold valid, _MAXORDINAL in *.
  replace (Z.abs (months_ahead * 30) <=? 999999999) with true
    by (symmetry; apply Z.leb_le; lia).
  cbn [lift ret].
  replace (0 <? today w + months_ahead * 30) with true by (symmetry; apply Z.ltb_lt; lia).
  replace (today w + months_ahead * 30 <=? 3652059) with true
    by (symmetry; apply Z.leb_le; lia).
  cbn [andb lift ret].
  change (refresh_token (_get_config w)) with (getenv "MS_REFRESH_TOKEN" w).
  by rewrite Hrt.
Qed.

(** The fetch leaves [_cache] alone, and only returns days of its window. *)
Lemma fetch_quiet (calendar_id : string) (start_date end_date : Z) (w : world) :
  quiet w (fetch_calendar_events_graph calendar_id start_date end_date w).2.
Proof.
  unfold Calendar.fetch_calendar_events_graph, bind.
  pose proof (get_access_token_quiet w) as Hq.
  destruct (get_access_token w) as [[r| |] w1]; [|done|done].
  destruct (negb (truthy_opt r)); [done|].
  cbn [gets]. eapply quiet_trans; [exact Hq|].
  apply (fetch_pages_sound fromisoformat_date).
Qed.

Lemma fetch_within (calendar_id : string) (start_date end_date : Z) (w : world)
    (B : gset Z) (d : Z) :
  (fetch_calendar_events_graph calendar_id start_date end_date w).1 = Returned B →
  d ∈ B → start_date ≤ d ≤ end_date.
Proof.
  unfold Calendar.fetch_calendar_events_graph, bind.
  destruct (get_access_token w) as [[r| |] w1]; [|done|done].
  destruct (negb (truthy_opt r)).
  - intros [= <-] Hd. by apply not_elem_of_empty in Hd.
  - cbn [gets]. intros HB Hd.
    destruct (fetch_pages_sound fromisoformat_date (default "" r) start_date end_date
                (S (List.length (network w1))) (Some (events_url calendar_id))
                (Some events_params) ∅ w1) as (_ & Hw & _).
    destruct (Hw B d HB Hd) as [Hd'|?]; [|done]. by apply not_elem_of_empty in Hd'.
Qed.

(** The fetch raises what its call of [get_access_token] raises, and
    nothing else: past that call every exception is caught. *)
Lemma fetch_raises (calendar_id : string) (start_date end_date : Z) (w : world) (x : exn) :
  (fetch_calendar_events_graph calendar_id start_date end_date w).1 = Raised x ↔
  (get_access_token w).1 = Raised x.
Proof.
  unfold Calendar.fetch_calendar_events_graph, bind.
  destruct (get_access_token w) as [[r|e|] w1];
    [| simpl; split; intros [= ->]; done | simpl; split; done].
  split; [|done]. destruct (negb (truthy_opt r)); [done|].
  cbn [gets]. intros H. exfalso. revert H.
  apply (fetch_pages_sound fromisoformat_date).
Qed.

Lemma fetch_no_raise (calendar_id : string) (start_date end_date : Z) (w : world) (x : exn) :
  settled w →
  (fetch_calendar_events_graph calendar_id start_date end_date w).1 ≠ Raised x.
Proof.
  intros Hs H. apply fetch_raises in H. by apply get_access_token_no_raise in H.
Qed.

(** [get_booked_dates], once the venue is known, a refresh token is
    configured and the end of the window exists, is the fetch over
    [today, today + 30 * months_ahead]. *)
Lemma get_booked_dates_eq (venue : string) (months_ahead : Z) (w : world) :
  venue ∈ CALENDARS.*1 →
  truthy (getenv "MS_REFRESH_TOKEN" w) = true →
  valid (today w) → 0 ≤ months_ahead → today w + months_ahead * 30 ≤ _MAXORDINAL →
  get_booked_dates venue months_ahead w =
    fetch_calendar_events_graph (default "" (calendar_ids (_get_config w) !! venue))
      (today w) (today w + months_ahead * 30) w.
Proof.
  intros Hin Hrt Hv Hm Hmax. unfold Calendar.get_booked_dates.
  rewrite bool_decide_eq_true_2 by done. cbn [negb].
  unfold bind at 1, date_today, gets. unfold bind at 1, timedelta_days, add_days.
  unfold valid, _MAXORDINAL in *.
  replace (Z.abs (months_ahead * 30) <=? 999999999) with true
    by (symmetry; apply Z.leb_le; lia).
  cbn [lift ret]. unfold bind at 1.
  replace (0 <? today w + months_ahead * 30) with true by (symmetry; apply Z.ltb_lt; lia).
  replace (today w + months_ahead * 30 <=? 3652059) with true
    by (symmetry; apply Z.leb_le; lia).
  cbn [andb lift ret]. unfold bind at 1.
  change (refresh_token (_get_config w)) with (getenv "MS_REFRESH_TOKEN" w).
  by rewrite Hrt.
Qed.

Lemma get_booked_dates_quiet (venue : string) (months_ahead : Z) (w : world) :
  quiet w (get_booked_dates venue months_ahead w).2.
Proof.
  unfold Calendar.get_booked_dates.
  destruct (negb (bool_decide _)); [apply quiet_refl|].
  unfold bind at 1, date_today, gets. unfold bind at 1.
  destruct (timedelta_days _) as [delta|]; [|apply quiet_refl]. cbn [lift ret].
  unfold bind at 1.
  destruct (add_days _ _) as [end_date|]; [|apply quiet_refl]. cbn [lift ret].
  unfold bind at 1.
  destruct (negb _); [apply quiet_refl|]. apply fetch_quiet.
Qed.

Lemma get_booked_dates_within (venue : string) (months_ahead : Z) (w : world)
    (B : gset Z) (d : Z) :
  (get_booked_dates venue months_ahead w).1 = Returned B →
  d ∈ B → today w ≤ d ≤ today w + months_ahead * 30.
Proof.
  unfold Calendar.get_booked_dates.
  destruct (negb (bool_decide _)).
  { intros [= <-] Hd. by apply not_elem_of_empty in Hd. }
  unfold bind at 1, date_today, gets. unfold bind at 1, timedelta_days.
  destruct (Z.abs _ <=? _); [|done]. cbn [lift ret].
  unfold bind at 1, add_days.
  destruct (_ && _); [|done]. cbn [lift ret].
  unfold bind at 1.
  destruct (negb _).
  { intros [= <-] Hd. by apply not_elem_of_empty in Hd. }
  apply fetch_within.
Qed.

End Fetch.

End FetchFacts.

(** ** The refresh of the venue cache *)
Module RefreshFacts.
Import Date DateFacts Calendar Main Notions TokenFacts CalendarFacts FetchFacts.

Section Refresh.

Variable fromisoformat_date : string → result Z.

Local Abbreviation get_booked_dates := (get_booked_dates fromisoformat_date).
Local Abbreviation refresh_venues := (refresh_venues fromisoformat_date).
Local Abbreviation refresh_cache := (refresh_cache fromisoformat_date).

(** One turn of [for venue in VENUES]. *)
Lemma refresh_venues_cons (venue : string) (venues : list string) (w : world) :
  refresh_venues (venue :: venues) w =
    match get_booked_dates venue 48 w with
    | (Returned booked, w1) =>
        match _cache w1 !! venue with
        | Some _ => refresh_venues venues (written venue booked w1)
        | None => (Raised KeyError, w1)
        end
    | (Raised x, w1) => (Raised x, w1)
    | (Pending, w1) => (Pending, w1)
    end.
Proof.
  cbn [Main.refresh_venues]. unfold bind at 1.
  destruct (get_booked_dates venue 48 w) as [[booked|x|] w1]; [|done|done].
  unfold bind at 1, cache_setitem at 1, bind at 1, gets.
  destruct (_cache w1 !! venue) as [e|] eqn:He; [|done].
  cbn [modify]. unfold bind at 1, now, gets.
  unfold bind at 1, cache_setitem, bind at 1, gets.
  cbn [_cache set_cache clock]. rewrite lookup_insert_eq. cbn [modify].
  unfold written, set_cache. cbn. rewrite insert_insert_eq. done.
Qed.

(** While the venues are refreshed one after the other, what a reader sees
    of a venue is its entry as the refresh found it or as the refresh
    leaves it. *)
Lemma refresh_venues_atomic (venues : list string) :
  ∀ w : world,
    NoDup venues →
    let r := refresh_venues venues w in
    today r.2 = today w ∧
    (∀ v, v ∉ venues → _cache r.2 !! v = _cache w !! v) ∧
    (∃ obs, seen_by_readers r.2 = seen_by_readers w ++ obs ∧
       ∀ c, c ∈ obs → ∀ v, c !! v = _cache w !! v ∨ c !! v = _cache r.2 !! v) ∧
    (r.1 = Returned tt →
     ∀ v, v ∈ venues →
       ∃ b t wa wb,
         _cache r.2 !! v = Some {| booked_dates := b; last_updated := Some t |} ∧
         today wa = today w ∧
         get_booked_dates v 48 wa = (Returned b, wb) ∧ t = clock wb).
Proof.
  induction venues as [|venue venues IH]; intros w Hnd; cbv zeta.
  { simpl. split; [done|]. split; [done|]. split.
    - exists []. split; [by rewrite app_nil_r|]. intros c Hc. by apply elem_of_nil in Hc.
    - intros _ v Hv. by apply elem_of_nil in Hv. }
  apply NoDup_cons in Hnd as [Hnotin Hnd].
  rewrite refresh_venues_cons.
  pose proof (get_booked_dates_quiet fromisoformat_date venue 48 w) as Hq.
  assert (Hstop : ∀ (o : outcome unit) w1, quiet w w1 → o ≠ Returned tt →
            today (o, w1).2 = today w ∧
            (∀ v, v ∉ venue :: venues → _cache (o, w1).2 !! v = _cache w !! v) ∧
            (∃ obs, seen_by_readers (o, w1).2 = seen_by_readers w ++ obs ∧
               ∀ c, c ∈ obs → ∀ v, c !! v = _cache w !! v ∨ c !! v = _cache (o, w1).2 !! v) ∧
            ((o, w1).1 = Returned tt →
             ∀ v, v ∈ venue :: venues →
               ∃ b t wa wb,
                 _cache (o, w1).2 !! v = Some {| booked_dates := b; last_updated := Some t |} ∧
                 today wa = today w ∧
                 get_booked_dates v 48 wa = (Returned b, wb) ∧ t = clock wb)).
  { intros o w1 (Hc & Ht & k & Hs) Ho. simpl.
    split; [done|]. split; [by rewrite Hc|]. split; [|done].
    exists (replicate k (_cache w)). split; [done|].
    intros c Hin v. apply elem_of_replicate in Hin as [-> _]. by left. }
  destruct (get_booked_dates venue 48 w) as [[booked|x|] w1] eqn:Hget;
    [|by apply Hstop|by apply Hstop].
  simpl in Hq.
  destruct (_cache w1 !! venue) as [e|] eqn:He; [|by apply Hstop].
  destruct Hq as (Hc & Ht & k & Hs).
  destruct (IH (written venue booked w1) Hnd) as (Ht' & Hc' & (obs & Hs' & Hobs) & Hfin).
  set (r := refresh_venues venues (written venue booked w1)) in *.
  assert (Hvenue : _cache r.2 !! venue
                   = Some {| booked_dates := booked; last_updated := Some (clock w1) |}).
  { rewrite (Hc' venue Hnotin). unfold written. cbn. apply lookup_insert_eq. }
  assert (Hother : ∀ v, v ≠ venue → _cache (written venue booked w1) !! v = _cache w !! v).
  { intros v Hv. unfold written. cbn. rewrite lookup_insert_ne by done. by rewrite Hc. }
  split; [by rewrite Ht'|]. split; [|split].
  - intros v Hv. apply not_elem_of_cons in Hv as [Hv1 Hv2].
    rewrite (Hc' v Hv2). by apply Hother.
  - exists (replicate k (_cache w) ++ obs). split.
    + rewrite Hs'. unfold written. cbn. rewrite Hs. by rewrite app_assoc.
    + intros c Hin v. apply elem_of_app in Hin as [Hin|Hin].
      * apply elem_of_replicate in Hin as [-> _]. by left.
      * destruct (Hobs c Hin v) as [Hold|Hnew]; [|by right].
        destruct (decide (v = venue)) as [->|Hne].
        -- right. rewrite Hold, Hvenue. unfold written. cbn. apply lookup_insert_eq.
        -- left. rewrite Hold. by apply Hother.
  - intros Hret v Hv. apply elem_of_cons in Hv as [->|Hv].
    + exists booked, (clock w1), w, w1. done.
    + destruct (Hfin Hret v Hv) as (b & t & wa & wb & H1 & H2 & H3 & H4).
      exists b, t, wa, wb. split; [done|]. split; [|done].
      rewrite H2. unfold written. cbn. done.
Qed.

Lemma VENUES_NoDup : NoDup VENUES.
Proof. apply (bool_decide_unpack _). vm_compute. exact I. Qed.

(** The loop over [pre ++ post] is the loop over [pre], then, when that
    one completes, the loop over [post]. *)
Lemma refresh_venues_app (pre post : list string) :
  ∀ w : world,
    refresh_venues (pre ++ post) w =
      match refresh_venues pre w with
      | (Returned _, w1) => refresh_venues post w1
      | (Raised x, w1) => (Raised x, w1)
      | (Pending, w1) => (Pending, w1)
      end.
Proof.
  induction pre as [|venue pre IH]; intros w; [done|].
  rewrite <- app_comm_cons, !refresh_venues_cons.
  destruct (get_booked_dates venue 48 w) as [[booked|x|] w1]; [|done|done].
  destruct (_cache w1 !! venue); [|done]. apply IH.
Qed.

(** The turn of the venue [v] in the loop over [pre ++ v :: post]: it
    starts in the world that the loop over [pre] leaves.  Either the loop
    does not complete and the entry of [v] is as it was in that world, or
    the entry is the set that [get_booked_dates] returned in this turn
    with the clock read right after. *)
Lemma refresh_venues_turn (pre post : list string) (v : string) (w : world) :
  NoDup (pre ++ v :: post) →
  let r := refresh_venues (pre ++ v :: post) w in
  let wa := (refresh_venues pre w).2 in
  _cache wa !! v = _cache w !! v ∧
  ((r.1 ≠ Returned tt ∧ _cache r.2 !! v = _cache wa !! v) ∨
   (∃ b wb, get_booked_dates v 48 wa = (Returned b, wb) ∧
            _cache r.2 !! v
              = Some {| booked_dates := b; last_updated := Some (clock wb) |})).
Proof.
  intros Hnd. cbv zeta.
  apply NoDup_app in Hnd as (Hpre & Hdisj & Hrest).
  apply NoDup_cons in Hrest as [Hnotin Hpost].
  assert (Hv : v ∉ pre) by (intros Hin; apply (Hdisj v Hin); left).
  destruct (refresh_venues_atomic pre w Hpre) as (_ & Hsame & _).
  split; [by apply Hsame|].
  rewrite refresh_venues_app.
  destruct (refresh_venues pre w) as [[[]|x|] wa]; cbn [fst snd];
    [|by left|by left].
  rewrite refresh_venues_cons.
  pose proof (get_booked_dates_quiet fromisoformat_date v 48 wa) as (Hc & _).
  destruct (get_booked_dates v 48 wa) as [[b|x|] wb]; cbn [fst snd] in *;
    [|left; split; [done|by rewrite Hc]|left; split; [done|by rewrite Hc]].
  destruct (_cache wb !! v) as [e|] eqn:He;
    [|left; split; [done|cbn [snd]; by rewrite Hc]].
  right. exists b, wb. split; [done|].
  destruct (refresh_venues_atomic post (written v b wb) Hpost) as (_ & Hkeep & _).
  rewrite (Hkeep v Hnotin). unfold written. cbn. apply lookup_insert_eq.
Qed.

(** C9. Readers run only while the refresh is suspended.  During one
    [refresh_cache], whatever a reader sees of a venue is either the entry
    as it was when the refresh began or the entry as the refresh leaves
    it, never a mix of the two.  The entry that the refresh leaves is the
    one it found, or a set and a timestamp of this very refresh: the set
    that [get_booked_dates] returned when the loop reached the venue, and
    the clock read right after.  When the refresh completes, every venue
    has such an entry. *)
Theorem readers_see_whole_entries (w : world) :
  let r := refresh_cache w in
  (∃ obs, seen_by_readers r.2 = seen_by_readers w ++ obs ∧
     ∀ c, c ∈ obs → ∀ v, c !! v = _cache w !! v ∨ c !! v = _cache r.2 !! v) ∧
  (∀ pre v post, VENUES = pre ++ v :: post →
     let wa := (refresh_venues pre w).2 in
     _cache r.2 !! v = _cache w !! v ∨
     ∃ b wb, get_booked_dates v 48 wa = (Returned b, wb) ∧
             _cache r.2 !! v
               = Some {| booked_dates := b; last_updated := Some (clock wb) |}) ∧
  (r.1 = Returned tt →
   ∀ pre v post, VENUES = pre ++ v :: post →
     let wa := (refresh_venues pre w).2 in
     ∃ b wb, get_booked_dates v 48 wa = (Returned b, wb) ∧
             _cache r.2 !! v
               = Some {| booked_dates := b; last_updated := Some (clock wb) |}).
Proof.
  cbv zeta. unfold Main.refresh_cache.
  destruct (refresh_venues_atomic VENUES w VENUES_NoDup) as (_ & _ & Hobs & _).
  split; [exact Hobs|].
  assert (Hturn : ∀ pre v post, VENUES = pre ++ v :: post →
            _cache (refresh_venues pre w).2 !! v = _cache w !! v ∧
            (((refresh_venues VENUES w).1 ≠ Returned tt ∧
              _cache (refresh_venues VENUES w).2 !! v
                = _cache (refresh_venues pre w).2 !! v) ∨
             (∃ b wb,
                get_booked_dates v 48 (refresh_venues pre w).2 = (Returned b, wb) ∧
                _cache (refresh_venues VENUES w).2 !! v
                  = Some {| booked_dates := b; last_updated := Some (clock wb) |}))).
  { intros pre v post Heq. pose proof VENUES_NoDup as Hnd. rewrite Heq in Hnd |- *.
    apply (refresh_venues_turn pre post v w Hnd). }
  split.
  - intros pre v post Heq.
    destruct (Hturn pre v post Heq) as (Hold & [[_ Hsame]|Hnew]); [left|by right].
    by rewrite Hsame.
  - intros Hret pre v post Heq.
    destruct (Hturn pre v post Heq) as (_ & [[Hno _]|Hnew]); [done|exact Hnew].
Qed.

(** C8, amended.  The refresh of a venue fetches over
    [today, today + 1440 days], 48 times 30 days: this is the window
    handed to the fetch, no date outside it is returned, and after a
    completed refresh every cached booked date of a venue lies in it. *)
Theorem refresh_window_is_1440_days (w : world) :
  (∀ venue,
     venue ∈ VENUES → truthy (getenv "MS_REFRESH_TOKEN" w) = true →
     valid (today w) → today w + 1440 ≤ _MAXORDINAL →
     get_booked_dates venue 48 w =
       fetch_calendar_events_graph fromisoformat_date
         (default "" (calendar_ids (_get_config w) !! venue))
         (today w) (today w + 1440) w) ∧
  (∀ venue B d,
     (get_booked_dates venue 48 w).1 = Returned B → d ∈ B →
     today w ≤ d ≤ today w + 1440) ∧
  ((refresh_cache w).1 = Returned tt →
   ∀ v e d, v ∈ VENUES → _cache (refresh_cache w).2 !! v = Some e →
            d ∈ booked_dates e → today w ≤ d ≤ today w + 1440).
Proof.
  split; [|split].
  - intros venue Hin Hrt Hv Hmax.
    rewrite (get_booked_dates_eq fromisoformat_date venue 48 w) by (done || lia).
    done.
  - intros venue B d HB Hd.
    pose proof (get_booked_dates_within fromisoformat_date venue 48 w B d HB Hd). lia.
  - intros Hret v e d Hv He Hd. unfold Main.refresh_cache in *.
    destruct (refresh_venues_atomic VENUES w VENUES_NoDup) as (_ & _ & _ & Hfin).
    destruct (Hfin Hret v Hv) as (b & t & wa & wb & H1 & H2 & H3 & H4).
    rewrite H1 in He. injection He as <-. simpl in Hd.
    pose proof (get_booked_dates_within fromisoformat_date v 48 wa b d
                  ltac:(by rewrite H3) Hd). lia.
Qed.

End Refresh.

End RefreshFacts.

(** ** The sample data *)
Module SampleFacts.
Import Date DateFacts Calendar Main Notions TokenFacts.

Lemma fromisoformat_valid (s : string) (d : Z) :
  Sample.fromisoformat_date s = Ok d → valid d.
Proof.
  unfold Sample.fromisoformat_date.
  destruct (_ <? _)%nat; [done|].
  destruct (Sample.find_separator _ _) as [separator_location|]; [|done].
  destruct (Sample.parse_isoformat_date _ _) as [[[year month] day]|]; [|done].
  destruct (_ <? _)%nat; [|apply date_valid].
  destruct (_ <? _)%nat; [done|].
  destruct (Sample.parse_isoformat_time _ _) as [[[[hour minute] second] tz]|]; [|done].
  destruct (negb _); [done|]. destruct (negb _); [done|].
  apply date_valid.
Qed.

Lemma two_pages_token :
  get_access_token Sample.two_pages
  = (Returned (Some "tok"), (get_access_token Sample.two_pages).2).
Proof. vm_compute. reflexivity. Qed.

Lemma second_of_three_fails_token :
  get_access_token Sample.second_of_three_fails
  = (Returned (Some "tok"), (get_access_token Sample.second_of_three_fails).2).
Proof. vm_compute. reflexivity. Qed.

End SampleFacts.

(** ** The theorems at work on the sample data *)
Module Witnesses.
Import Date DateFacts Calendar Main Notions TokenFacts CalendarFacts FetchFacts RefreshFacts SampleFacts.

Lemma skipped_events_contribute_nothing_witness :
  default false (isAllDay Sample.meeting) = false ∧
  process_event Sample.fromisoformat_date Sample.meeting 1 _MAXORDINAL ∅ = (∅, Ok tt) ∧
  lacks_timestamp (end_ Sample2.no_end) ∧
  process_events Sample.fromisoformat_date
    [Sample2.no_end;
     Sample.all_day "2026-07-03T00:00:00.0000000" "2026-07-04T00:00:00.0000000"]
    1 _MAXORDINAL ∅
  = ({[ _ymd2ord 2026 7 3 ]}, Ok tt).
Proof.
  assert (Hlack : lacks_timestamp (end_ Sample2.no_end))
    by (right; eexists; split; [reflexivity | right; reflexivity]).
  split; [reflexivity|]. split.
  - exact (proj1 (skipped_events_contribute_nothing Sample.fromisoformat_date
                    Sample.meeting 1 _MAXORDINAL (or_introl eq_refl)) ∅).
  - split; [exact Hlack|].
    assert (Hs : start Sample2.no_end ≠ Null) by discriminate.
    assert (He : end_ Sample2.no_end ≠ Null) by discriminate.
    change [Sample2.no_end;
            Sample.all_day "2026-07-03T00:00:00.0000000" "2026-07-04T00:00:00.0000000"]
      with ([] ++ Sample2.no_end ::
            [Sample.all_day "2026-07-03T00:00:00.0000000" "2026-07-04T00:00:00.0000000"]).
    rewrite (proj1 (proj2 (skipped_events_contribute_nothing Sample.fromisoformat_date
                             Sample2.no_end 1 _MAXORDINAL
                             (or_intror (conj Hs (conj He (or_intror Hlack))))))
               []
               [Sample.all_day "2026-07-03T00:00:00.0000000" "2026-07-04T00:00:00.0000000"]
               ∅).
    vm_compute. reflexivity.
Defined.

(** C10 as stated fails: an all-day event whose start is [null] has no
    start timestamp, and it is not skipped.  [process_event] raises
    [AttributeError] on it, which ends the fetch: the one-day booking that
    follows it in the page is not read, and the fetch returns the empty
    set. *)
Lemma null_start_is_not_skipped :
  isAllDay Sample2.null_start = Some true ∧
  start Sample2.null_start = Null ∧
  process_event Sample.fromisoformat_date Sample2.null_start 1 _MAXORDINAL ∅
    ≠ (∅, Ok tt) ∧
  process_events Sample.fromisoformat_date
    [Sample2.null_start;
     Sample.all_day "2026-07-03T00:00:00.0000000" "2026-07-04T00:00:00.0000000"]
    1 _MAXORDINAL ∅
  ≠ process_events Sample.fromisoformat_date
      [Sample.all_day "2026-07-03T00:00:00.0000000" "2026-07-04T00:00:00.0000000"]
      1 _MAXORDINAL ∅ ∧
  (fetch_calendar_events_graph Sample.fromisoformat_date ""
     (_ymd2ord 2026 1 1) (_ymd2ord 2029 12 11) Sample2.null_start_first).1
  = Returned ∅.
Proof.
  split; [reflexivity|]. split; [reflexivity|]. split; [|split].
  - vm_compute. discriminate.
  - vm_compute. discriminate.
  - vm_compute. reflexivity.
Qed.

Lemma booked_dates_are_event_days_witness :
  truthy "tok" = true ∧
  ∃ B w',
    fetch_calendar_events_graph Sample.fromisoformat_date ""
      (_ymd2ord 2026 1 1) (_ymd2ord 2029 12 11) Sample.two_pages
      = (Returned B, w') ∧
    _ymd2ord 2026 6 12 ∈ B ∧ _ymd2ord 2026 6 13 ∈ B ∧ (_ymd2ord 2026 6 14 ∉ B) ∧
    _ymd2ord 2026 7 3 ∈ B ∧ (_ymd2ord 2026 7 4 ∉ B).
Proof.
  split; [reflexivity|].
  destruct (booked_dates_are_event_days Sample.fromisoformat_date fromisoformat_valid
              "" (_ymd2ord 2026 1 1) (_ymd2ord 2029 12 11) Sample.two_pages
              (get_access_token Sample.two_pages).2 "tok"
              [Sample.first_page] Sample.last_page.1 Sample.last_page.2 []
              two_pages_token eq_refl)
    as (B & w' & Hf & Hmem & _).
  - vm_compute. reflexivity.
  - apply Forall_cons. split; [reflexivity | apply Forall_nil_2].
  - reflexivity.
  - apply Forall_cons. split; [intros e; vm_compute; discriminate|].
    apply Forall_cons. split; [intros e; vm_compute; discriminate|].
    apply Forall_nil_2.
  - assert (Hjune : all_day_from_to Sample.fromisoformat_date
                      (Sample.all_day "2026-06-12T00:00:00.0000000"
                         "2026-06-14T00:00:00.0000000")
                      (_ymd2ord 2026 6 12) (_ymd2ord 2026 6 14)).
    { split; [reflexivity|]. eexists _, _.
      split; [reflexivity|]. split; [reflexivity|].
      split; [discriminate|]. split; [discriminate|].
      split; vm_compute; reflexivity. }
    assert (Hjuly : all_day_from_to Sample.fromisoformat_date
                      (Sample.all_day "2026-07-03T00:00:00.0000000"
                         "2026-07-04T00:00:00.0000000")
                      (_ymd2ord 2026 7 3) (_ymd2ord 2026 7 4)).
    { split; [reflexivity|]. eexists _, _.
      split; [reflexivity|]. split; [reflexivity|].
      split; [discriminate|]. split; [discriminate|].
      split; vm_compute; reflexivity. }
    assert (Hout : ∀ d, d ∈ B →
              _ymd2ord 2026 6 12 ≤ d < _ymd2ord 2026 6 14 ∨
              _ymd2ord 2026 7 3 ≤ d < _ymd2ord 2026 7 4).
    { intros d Hd. apply Hmem in Hd as (ev & s & e & Hev & Hall & Hd & _).
      destruct Hall as (_ & start_str & end_str & Hs & He & _ & _ & Hps & Hpe).
      apply elem_of_cons in Hev as [-> | Hev].
      - injection Hs as <-. injection He as <-.
        vm_compute in Hps, Hpe. injection Hps as <-. injection Hpe as <-.
        left. exact Hd.
      - apply elem_of_cons in Hev as [-> | Hev]; [|by apply elem_of_nil in Hev].
        injection Hs as <-. injection He as <-.
        vm_compute in Hps, Hpe. injection Hps as <-. injection Hpe as <-.
        right. exact Hd. }
    exists B, w'. split; [exact Hf|].
    split; [|split; [|split; [|split]]].
    + apply Hmem. eexists _, _, _. split; [left|]. split; [exact Hjune|].
      vm_compute. repeat split; discriminate.
    + apply Hmem. eexists _, _, _. split; [left|]. split; [exact Hjune|].
      vm_compute. repeat split; discriminate.
    + intros Hd. apply Hout in Hd. vm_compute in Hd.
      destruct Hd as [[H1 H2]|[H1 H2]];
        first [discriminate H2 | exfalso; apply H1; reflexivity].
    + apply Hmem. eexists _, _, _. split; [right; left|]. split; [exact Hjuly|].
      vm_compute. repeat split; discriminate.
    + intros Hd. apply Hout in Hd. vm_compute in Hd.
      destruct Hd as [[H1 H2]|[H1 H2]];
        first [discriminate H2 | exfalso; apply H1; reflexivity].
Defined.

(** C1 as stated fails: the page of this fetch holds an all-day event
    from 2026-07-03 to 2026-07-04, inside the window, and 2026-07-03 is
    not in the set the fetch returns: the event comes after one whose
    timestamp does not parse, where the fetch ends. *)
Lemma all_day_event_after_unreadable_one_is_dropped :
  ∃ ev B w',
    ev ∈ events_of [Sample2.garbled_page] ∧
    all_day_from_to Sample.fromisoformat_date ev (_ymd2ord 2026 7 3) (_ymd2ord 2026 7 4) ∧
    fetch_calendar_events_graph Sample.fromisoformat_date ""
      (_ymd2ord 2026 1 1) (_ymd2ord 2029 12 11) Sample2.garbled_second_event
      = (Returned B, w') ∧
    _ymd2ord 2026 1 1 ≤ _ymd2ord 2026 7 3 ≤ _ymd2ord 2029 12 11 ∧
    _ymd2ord 2026 7 3 ∉ B.
Proof.
  exists (Sample.all_day "2026-07-03T00:00:00.0000000" "2026-07-04T00:00:00.0000000"),
    Sample.june_12_13,
    (fetch_calendar_events_graph Sample.fromisoformat_date ""
       (_ymd2ord 2026 1 1) (_ymd2ord 2029 12 11) Sample2.garbled_second_event).2.
  split; [right; right; left|]. split.
  { split; [reflexivity|]. eexists _, _.
    split; [reflexivity|]. split; [reflexivity|].
    split; [discriminate|]. split; [discriminate|].
    split; vm_compute; reflexivity. }
  split; [vm_compute; reflexivity|].
  split; [vm_compute; split; discriminate|].
  apply (bool_decide_unpack _). vm_compute. exact I.
Qed.

Lemma page_error_keeps_accumulated_dates_witness :
  failed Sample.server_error ∧
  ∃ B w',
    fetch_calendar_events_graph Sample.fromisoformat_date ""
      (_ymd2ord 2026 1 1) (_ymd2ord 2029 12 11)
      Sample.second_of_three_fails = (Returned B, w') ∧
    network w' = [page Sample.last_page.1 Sample.last_page.2] ∧
    ∀ d, d ∈ B ↔
      booked_by Sample.fromisoformat_date (events_of [Sample.first_page])
        (_ymd2ord 2026 1 1) (_ymd2ord 2029 12 11) d.
Proof.
  assert (Hfail : failed Sample.server_error) by (left; discriminate).
  split; [exact Hfail|].
  apply (page_error_keeps_accumulated_dates Sample.fromisoformat_date fromisoformat_valid
           "" (_ymd2ord 2026 1 1) (_ymd2ord 2029 12 11) Sample.second_of_three_fails
           (get_access_token Sample.second_of_three_fails).2 "tok"
           [Sample.first_page] Sample.server_error
           [page Sample.last_page.1 Sample.last_page.2]
           second_of_three_fails_token eq_refl).
  - vm_compute. reflexivity.
  - apply Forall_cons. split; [reflexivity | apply Forall_nil_2].
  - apply Forall_cons. split; [intros e; vm_compute; discriminate | apply Forall_nil_2].
  - exact Hfail.
Defined.

Lemma refresh_window_is_1440_days_witness :
  valid (today Sample.two_pages) ∧
  get_booked_dates Sample.fromisoformat_date "garden" 48 Sample.two_pages =
    fetch_calendar_events_graph Sample.fromisoformat_date ""
      (_ymd2ord 2026 1 1) (_ymd2ord 2029 12 11) Sample.two_pages.
Proof.
  assert (Hv : valid (today Sample.two_pages)) by (vm_compute; split; discriminate).
  split; [exact Hv|].
  refine (proj1 (refresh_window_is_1440_days Sample.fromisoformat_date Sample.two_pages)
            "garden" _ eq_refl Hv _).
  - apply (bool_decide_unpack _). vm_compute. exact I.
  - vm_compute. discriminate.
Defined.

Lemma readers_see_whole_entries_witness :
  (refresh_cache Sample.fromisoformat_date Sample.one_refresh).1 = Returned tt ∧
  VENUES = ["garden"] ++ "ballroom" :: [] ∧
  ∃ wb,
    get_booked_dates Sample.fromisoformat_date "ballroom" 48
      (refresh_venues Sample.fromisoformat_date ["garden"] Sample.one_refresh).2
      = (Returned Sample.june_12_13, wb) ∧
    clock wb = Sample.noon2 + US_PER_SECOND ∧
    _cache (refresh_cache Sample.fromisoformat_date Sample.one_refresh).2 !! "ballroom"
      = Some {| booked_dates := Sample.june_12_13;
                last_updated := Some (Sample.noon2 + US_PER_SECOND) |}.
Proof.
  assert (Hret : (refresh_cache Sample.fromisoformat_date Sample.one_refresh).1 = Returned tt)
    by (vm_compute; reflexivity).
  split; [exact Hret|]. split; [reflexivity|].
  destruct (proj2 (proj2 (readers_see_whole_entries Sample.fromisoformat_date
                            Sample.one_refresh))
              Hret ["garden"] "ballroom" [] eq_refl) as (b & wb & Hget & Hcache).
  assert (Hb : (get_booked_dates Sample.fromisoformat_date "ballroom" 48
                  (refresh_venues Sample.fromisoformat_date ["garden"]
                     Sample.one_refresh).2).1 = Returned Sample.june_12_13)
    by (vm_compute; reflexivity).
  assert (Hc : clock (get_booked_dates Sample.fromisoformat_date "ballroom" 48
                        (refresh_venues Sample.fromisoformat_date ["garden"]
                           Sample.one_refresh).2).2 = Sample.noon2 + US_PER_SECOND)
    by (vm_compute; reflexivity).
  rewrite Hget in Hb, Hc. cbn [fst snd] in Hb, Hc. injection Hb as ->.
  exists wb. split; [exact Hget|]. split; [exact Hc|].
  rewrite Hcache, Hc. reflexivity.
Defined.

(** C7 as stated fails: the garden has no calendar handle, and the fetch
    still returns booked dates, those of the default calendar. *)
Lemma absent_handle_result_not_empty :
  getenv "CALENDAR_ID_GARDEN" Sample.two_pages = "" ∧
  ∃ B, (get_booked_dates Sample.fromisoformat_date "garden" 48 Sample.two_pages).1
       = Returned B ∧
       _ymd2ord 2026 6 12 ∈ B ∧ B ≠ ∅.
Proof.
  split; [vm_compute; reflexivity|].
  eexists. split; [vm_compute; reflexivity|].
  assert (Hin : _ymd2ord 2026 6 12 ∈
                ({[_ymd2ord 2026 6 12; _ymd2ord 2026 6 13; _ymd2ord 2026 7 3]} : gset Z))
    by (apply (bool_decide_unpack _); vm_compute; exact I).
  split.
  - revert Hin. vm_compute. exact (λ H, H).
  - intros Hempty. revert Hin. vm_compute in Hempty. discriminate Hempty.
Qed.

(** C8 as stated fails: on 2026-01-01 the date 48 months after today is
    2030-01-01 while the window of the refresh ends on 2029-12-11; the day
    2029-12-20 is booked upstream, so the fetch over
    [today, 48 months after today] would return it, and the refresh of the
    venue returns the empty set. *)
Lemma booking_within_48_months_not_fetched :
  months_after 48 (today Sample.late_booking_upstream) = _ymd2ord 2030 1 1 ∧
  add_days (today Sample.late_booking_upstream) (48 * 30) = Ok (_ymd2ord 2029 12 11) ∧
  ¬ ∃ B,
      (get_booked_dates Sample.fromisoformat_date "garden" 48
         Sample.late_booking_upstream).1 = Returned B ∧
      ∀ d, d ∈ B ↔
        booked_by Sample.fromisoformat_date [Sample.late_booking]
          (today Sample.late_booking_upstream)
          (months_after 48 (today Sample.late_booking_upstream)) d.
Proof.
  split; [vm_compute; reflexivity|].
  split; [vm_compute; reflexivity|].
  intros (B & HB & Hmem).
  assert (Hempty : (get_booked_dates Sample.fromisoformat_date "garden" 48
                      Sample.late_booking_upstream).1 = Returned ∅)
    by (vm_compute; reflexivity).
  rewrite Hempty in HB. injection HB as <-.
  apply (not_elem_of_empty (C := gset Z) (_ymd2ord 2029 12 20)), Hmem.
  exists Sample.late_booking, (_ymd2ord 2029 12 20), (_ymd2ord 2029 12 21).
  split; [apply list_elem_of_singleton; reflexivity|].
  split; [vm_compute; reflexivity|].
  vm_compute. repeat split; discriminate.
Qed.

End Witnesses.

(** ** The code at work on the sample data *)
Module Examples.
Import Date Calendar Main Notions.

Example june_13_2026 :
  Date.date 2026 6 13 = Ok 739780 ∧ _ord2ymd 739780 = (2026, 6, 13) ∧
  weekday 739780 = 5 ∧ isoformat 739780 = "2026-06-13".
Proof. repeat split; vm_compute; reflexivity. Qed.

Example no_february_29_in_2026 :
  Date.date 2026 2 29 = Raise ValueError ∧ Date.date 2000 2 29 = Ok 730179 ∧
  isoformat 730179 = "2000-02-29".
Proof. repeat split; vm_compute; reflexivity. Qed.

Example no_day_after_date_max :
  Date.date 9999 12 31 = Ok _MAXORDINAL ∧ add_days _MAXORDINAL 1 = Raise OverflowError.
Proof. repeat split; vm_compute; reflexivity. Qed.

Example projection_of_9999_overflows :
  get_weekend_days_for_year "garden" 9999 (Sample.with_booked "garden" ∅)
  = Raise OverflowError.
Proof. vm_compute. reflexivity. Qed.

Example projection_of_unknown_venue :
  get_weekend_days_for_year "attic" 2026 (Sample.with_booked "garden" ∅) = Raise KeyError.
Proof. vm_compute. reflexivity. Qed.

Example graph_timestamp :
  Sample.fromisoformat_date (replace_Z "2026-01-20T00:00:00.0000000Z") = Date.date 2026 1 20.
Proof. vm_compute. reflexivity. Qed.

Example two_pages_booked :
  (fetch_calendar_events_graph Sample.fromisoformat_date ""
     (_ymd2ord 2026 1 1) (_ymd2ord 2029 12 11) Sample.two_pages).1
  = Returned {[ _ymd2ord 2026 6 12; _ymd2ord 2026 6 13; _ymd2ord 2026 7 3 ]}.
Proof. vm_compute. reflexivity. Qed.

Example second_of_three_fails_booked :
  (fetch_calendar_events_graph Sample.fromisoformat_date ""
     (_ymd2ord 2026 1 1) (_ymd2ord 2029 12 11) Sample.second_of_three_fails).1
  = Returned {[ _ymd2ord 2026 6 12; _ymd2ord 2026 6 13 ]}.
Proof. vm_compute. reflexivity. Qed.

(** The window clamps: only 2026-06-13 of the booking 06-12..06-13 lies in
    [2026-06-13, 2026-06-30]. *)
Example window_clamps :
  (fetch_calendar_events_graph Sample.fromisoformat_date ""
     (_ymd2ord 2026 6 13) (_ymd2ord 2026 6 30) Sample.two_pages).1
  = Returned {[ _ymd2ord 2026 6 13 ]}.
Proof. vm_compute. reflexivity. Qed.

(** One refresh of both venues: three requests, and what a reader sees at
    each of them.  During the ballroom's fetch the garden's entry is the
    new one, set and timestamp together. *)
Example one_refresh_run :
  let r := refresh_cache Sample.fromisoformat_date Sample.one_refresh in
  r.1 = Returned tt ∧
  List.length (sent r.2) = 3%nat ∧
  seen_by_readers r.2 =
    [initial_cache; initial_cache;
     <["garden" := {| booked_dates := {[ _ymd2ord 2026 7 3 ]};
                      last_updated := Some Sample.noon2 |}]>
       initial_cache] ∧
  _cache r.2 =
    <["ballroom" := {| booked_dates := {[ _ymd2ord 2026 6 12; _ymd2ord 2026 6 13 ]};
                       last_updated := Some (Sample.noon2 + US_PER_SECOND) |}]>
      (<["garden" := {| booked_dates := {[ _ymd2ord 2026 7 3 ]};
                        last_updated := Some Sample.noon2 |}]>
         initial_cache).
Proof. repeat split; vm_compute; reflexivity. Qed.

(** A token with a lifetime that puts its expiry in the first five
    minutes of year 1 is used for the garden; the ballroom's turn then
    raises at line 47, and the refresh with it. *)
Example backdated_token_breaks_the_refresh :
  let r := refresh_cache Sample.fromisoformat_date Sample2.backdated_refresh in
  r.1 = Raised OverflowError ∧
  booked_dates <$> (_cache r.2 !! "garden") = Some {[ _ymd2ord 2026 7 3 ]} ∧
  booked_dates <$> (_cache r.2 !! "ballroom") = Some ∅.
Proof. repeat split; vm_compute; reflexivity. Qed.

(** Within five minutes of the expiry the token is exchanged again. *)
Example stale_token_is_exchanged :
  let w := set_cache initial_cache
             (received {| arrival := Sample.noon1 + 3400 * US_PER_SECOND;
                          answer := TransportFailure |}
                [Sample.token_answer] Sample.with_token) in
  clock w + timedelta_minutes 5 > Sample.noon1 + 3600 * US_PER_SECOND ∧
  sent (get_access_token w).2 = [token_request (_get_config w)].
Proof. split; vm_compute; reflexivity. Qed.

End Examples.

(** ** More on the weekend projection *)
Module ProjectionFacts.
Import Date DateFacts Calendar Main Notions MainFacts.

Lemma year_range (n : Z) : valid n → MINYEAR ≤ year n ≤ MAXYEAR.
Proof.
  unfold valid, _MAXORDINAL, MINYEAR, MAXYEAR. intros Hn.
  unfold year, _ord2ymd, _DI400Y, _DI100Y, _DI4Y. cbv zeta.
  destruct (_ || _) eqn:Hlast.
  - cbn [fst snd].
    apply orb_true_iff in Hlast as [H|H]; apply Z.eqb_eq in H;
      Z.div_mod_to_equations; lia.
  - apply orb_false_iff in Hlast as [H1 H2].
    apply Z.eqb_neq in H1, H2.
    match goal with
    | |- context [(if ?c then (?y, ?a, ?b) else (?y, ?a', ?b')).1.1] =>
        replace ((if c then (y, a, b) else (y, a', b')).1.1) with y
          by (by destruct c)
    end.
    Z.div_mod_to_equations. lia.
Qed.

(** Whatever the fuel and the bounds, the loop appends records of Fridays,
    Saturdays and Sundays of [current..end_date], each day once, in
    ascending order. *)
Lemma weekend_loop_elems (booked : gset Z) (end_date : Z) (fuel : nat) :
  ∀ (current : Z) (days days' : list weekend_day),
    weekend_loop fuel current end_date booked days = Ok days' →
    ∃ ds, days' = days ++ (day_record booked <$> ds) ∧
          Forall (λ c, current ≤ c ≤ end_date ∧ is_weekend c = true) ds ∧
          StronglySorted Z.lt ds.
Proof.
  induction fuel as [|fuel IH]; intros current days days'; simpl.
  - destruct (current <=? end_date); intros [= <-];
      exists []; (split; [by rewrite app_nil_r|]); split; constructor.
  - destruct (current <=? end_date) eqn:Hle.
    2:{ intros [= <-]. exists []. split; [by rewrite app_nil_r|]. split; constructor. }
    apply Z.leb_le in Hle. unfold add_days.
    destruct ((0 <? current + 1) && (current + 1 <=? _MAXORDINAL)); [|done].
    cbn [rbind]. intros Hloop. apply IH in Hloop as (ds & -> & Hds & Hsort).
    assert (Hds' : Forall (λ c, current ≤ c ≤ end_date ∧ is_weekend c = true) ds).
    { eapply Forall_impl; [exact Hds|]. simpl. intros c [? ?]. split; [lia|done]. }
    destruct (is_weekend current) eqn:Hw.
    + exists (current :: ds). split; [by rewrite <- app_assoc|]. split.
      * constructor; [split; [lia|done]|done].
      * constructor; [done|].
        eapply Forall_impl; [exact Hds|]. simpl. intros c [? ?]. lia.
    + exists ds. done.
Qed.

(** What the projection returns, whenever it returns: records of the
    cached booked set of the venue. *)
Lemma projection_elems (venue : string) (year : Z) (w : world) (days : list weekend_day) :
  get_weekend_days_for_year venue year w = Ok days →
  ∃ entry ds,
    _cache w !! venue = Some entry ∧
    days = day_record (booked_dates entry) <$> ds ∧
    Forall (λ c, is_weekend c = true) ds ∧ StronglySorted Z.lt ds.
Proof.
  unfold get_weekend_days_for_year.
  destruct (Date.date year 1 1) as [jan1|]; [|done].
  destruct (Date.date year 12 31) as [dec31|]; [|done]. cbn [rbind].
  destruct (_cache w !! venue) as [entry|]; [|done].
  intros H. exists entry.
  assert (Hloop : ∀ fuel a b,
            weekend_loop fuel a b (booked_dates entry) [] = Ok days →
            ∃ ds, days = day_record (booked_dates entry) <$> ds ∧
                  Forall (λ c, is_weekend c = true) ds ∧ StronglySorted Z.lt ds).
  { intros fuel a b Hl. apply weekend_loop_elems in Hl as (ds & -> & Hds & Hs).
    exists ds. split; [done|]. split; [|done].
    eapply Forall_impl; [exact Hds|]. by intros c [_ ?]. }
  assert (Hres : ∃ ds, days = day_record (booked_dates entry) <$> ds ∧
                       Forall (λ c, is_weekend c = true) ds ∧ StronglySorted Z.lt ds).
  { destruct (VENUE_LEASE_END !! venue) as [l|].
    - destruct (l <? (if year =? _ then _ else _)); [|by eapply Hloop].
      injection H as <-. exists []. split; [done|]. split; constructor.
    - by eapply Hloop. }
  destruct Hres as (ds & Hres). by exists ds.
Qed.

Lemma day_record_name (booked : gset Z) (c : Z) :
  is_weekend c = true →
  (weekday c = 4 ∧ day (day_record booked c) = "friday") ∨
  (weekday c = 5 ∧ day (day_record booked c) = "saturday") ∨
  (weekday c = 6 ∧ day (day_record booked c) = "sunday").
Proof.
  unfold is_weekend, day_record. cbn [day]. intros H.
  apply bool_decide_eq_true_1 in H.
  repeat (apply elem_of_cons in H as [->|H]; [by auto|]).
  by apply elem_of_nil in H.
Qed.

(** X1. Whenever the projection returns, its records are those of
    distinct days in ascending order, every one a Friday, a Saturday or a
    Sunday, named accordingly. *)
Theorem projection_lists_weekend_days_in_order (venue : string) (year : Z) (w : world)
    (days : list weekend_day) :
  get_weekend_days_for_year venue year w = Ok days →
  ∃ entry ds,
    _cache w !! venue = Some entry ∧
    days = day_record (booked_dates entry) <$> ds ∧
    StronglySorted Z.lt ds ∧
    Forall (λ c, (weekday c = 4 ∧ day (day_record (booked_dates entry) c) = "friday") ∨
                 (weekday c = 5 ∧ day (day_record (booked_dates entry) c) = "saturday") ∨
                 (weekday c = 6 ∧ day (day_record (booked_dates entry) c) = "sunday")) ds.
Proof.
  intros H. apply projection_elems in H as (entry & ds & Hc & -> & Hw & Hs).
  exists entry, ds. split; [done|]. split; [done|]. split; [done|].
  eapply Forall_impl; [exact Hw|]. intros c. apply day_record_name.
Qed.

(** X2. A year that does not fit a C [int] makes the projection raise
    [OverflowError], and one that fits but lies outside 1..9999 makes it
    raise [ValueError], whatever the venue; with a year in range, a venue
    that has no entry in the cache makes it raise [KeyError], lease or no
    lease. *)
Theorem projection_errors (venue : string) (year : Z) (w : world) :
  (fits_C_int year = false →
   get_weekend_days_for_year venue year w = Raise OverflowError) ∧
  (fits_C_int year = true → ¬ (MINYEAR ≤ year ≤ MAXYEAR) →
   get_weekend_days_for_year venue year w = Raise ValueError) ∧
  (MINYEAR ≤ year ≤ MAXYEAR → _cache w !! venue = None →
   get_weekend_days_for_year venue year w = Raise KeyError).
Proof.
  split; [|split].
  - intros Hfit. unfold get_weekend_days_for_year, Date.date. by rewrite Hfit.
  - intros Hfit Hy. unfold get_weekend_days_for_year, Date.date. rewrite Hfit.
    change (fits_C_int 1) with true. cbn [andb negb].
    destruct (MINYEAR <=? year) eqn:H1; destruct (year <=? MAXYEAR) eqn:H2; simpl;
      try reflexivity.
    apply Z.leb_le in H1, H2. lia.
  - intros Hy Hc. unfold get_weekend_days_for_year.
    rewrite date_jan1, date_dec31 by done. cbn [rbind]. by rewrite Hc.
Qed.

(** X3. For a venue without a lease end, the projection of the year 9999
    raises [OverflowError]: the loop steps past [date.max]. *)
Theorem projection_of_last_year_overflows (venue : string) (w : world)
    (entry : cache_entry) :
  VENUE_LEASE_END !! venue = None →
  valid (today w) →
  _cache w !! venue = Some entry →
  get_weekend_days_for_year venue MAXYEAR w = Raise OverflowError.
Proof.
  intros Hl Hv Hc. unfold get_weekend_days_for_year.
  rewrite date_jan1, date_dec31 by done. cbn [rbind]. rewrite Hl, Hc.
  change (_ymd2ord MAXYEAR 12 31) with _MAXORDINAL.
  apply weekend_loop_overflow; [|lia].
  destruct (MAXYEAR =? Date.year (today w)); [unfold valid in Hv; lia|].
  vm_compute. split; discriminate.
Qed.

End ProjectionFacts.

(** ** The availability endpoint *)
Module ApiFacts.
Import Date DateFacts Calendar Main Notions MainFacts ProjectionFacts Requests.

Lemma max_year_le (venue : string) (today : Z) :
  Api.max_year venue today ≤ Date.year today + 4.
Proof. unfold Api.max_year. destruct (VENUE_LEASE_END !! venue); lia. Qed.

(** The endpoint once the venue is known and the year is in range. *)
Lemma get_availability_served (venue : string) (yopt : option Z) (w : world)
    (entry : cache_entry) :
  venue ∈ VENUES →
  valid (today w) →
  _cache w !! venue = Some entry →
  let y := default (Date.year (today w)) yopt in
  Date.year (today w) ≤ y ≤ Api.max_year venue (today w) →
  window_end venue y < _MAXORDINAL →
  Api.get_availability venue yopt w =
    Api.Answer
      {| Api.venue := venue; Api.year := y;
         Api.minYear := Date.year (today w);
         Api.maxYear := Api.max_year venue (today w);
         Api.leaseEnd := isoformat <$> VENUE_LEASE_END !! venue;
         Api.lastUpdated := Api.datetime_isoformat <$> last_updated entry;
         Api.days := weekend_records (booked_dates entry)
                       (window_start y (today w)) (window_end venue y) |}.
Proof.
  intros Hin Hv Hc y Hy He. unfold Api.get_availability.
  rewrite bool_decide_eq_true_2 by done. cbn [negb].
  assert (Hyy : match yopt with Some y0 => y0 | None => Date.year (today w) end = y)
    by (by destruct yopt).
  rewrite Hyy.
  replace (y <? Date.year (today w)) with false by (symmetry; apply Z.ltb_ge; lia).
  replace (Api.max_year venue (today w) <? y) with false
    by (symmetry; apply Z.ltb_ge; lia).
  cbn [orb].
  pose proof (year_range (today w) Hv) as Hr.
  pose proof (max_year_le venue (today w)) as Hm.
  assert (Hrange : MINYEAR ≤ y ≤ MAXYEAR).
  { split; [lia|].
    destruct (Z.le_gt_cases y MAXYEAR) as [?|Hgt]; [done|]. exfalso.
    unfold window_end in He. rewrite ymd_dec31 in He.
    assert (_MAXORDINAL ≤ _days_before_year (y + 1)).
    { unfold MAXYEAR, _MAXORDINAL, _days_before_year in *.
      Z.div_mod_to_equations. lia. }
    unfold Api.max_year in Hy.
    destruct (VENUE_LEASE_END !! venue) as [l|] eqn:Hl; [|lia].
    assert (l = _ymd2ord 2030 3 31) as ->.
    { unfold VENUE_LEASE_END in Hl. apply lookup_singleton_Some in Hl as [_ <-]. done. }
    change (Date.year (_ymd2ord 2030 3 31)) with 2030 in Hy.
    unfold MAXYEAR in Hgt. lia. }
  rewrite (get_weekend_days_spec venue y w entry) by done.
  by rewrite Hc.
Qed.

(** X4. With a sane date and every venue in the cache, the endpoint has
    three outcomes and no other: 404 for a venue that is not known, 400
    for a year before the current one or after the last year on offer,
    and otherwise the dict with the projection of that year (the current
    year when none is asked for).  No exception is left unhandled. *)
Theorem endpoint_outcomes (venue : string) (yopt : option Z) (w : world) :
  valid (today w) →
  Date.year (today w) + 4 < MAXYEAR →
  venues_cached w →
  let y := default (Date.year (today w)) yopt in
  (venue ∉ VENUES →
   Api.get_availability venue yopt w =
     Api.HTTPException 404 "Venue not found. Valid venues: garden, ballroom") ∧
  (venue ∈ VENUES →
   y < Date.year (today w) ∨ Api.max_year venue (today w) < y →
   Api.get_availability venue yopt w =
     Api.HTTPException 400
       ("Year must be between " +:+ pretty (Date.year (today w)) +:+ " and "
          +:+ pretty (Api.max_year venue (today w)))) ∧
  (venue ∈ VENUES →
   Date.year (today w) ≤ y ≤ Api.max_year venue (today w) →
   ∃ entry,
     _cache w !! venue = Some entry ∧
     Api.get_availability venue yopt w =
       Api.Answer
         {| Api.venue := venue; Api.year := y;
            Api.minYear := Date.year (today w);
            Api.maxYear := Api.max_year venue (today w);
            Api.leaseEnd := isoformat <$> VENUE_LEASE_END !! venue;
            Api.lastUpdated := Api.datetime_isoformat <$> last_updated entry;
            Api.days := weekend_records (booked_dates entry)
                          (window_start y (today w)) (window_end venue y) |}).
Proof.
  intros Hv Hmax Hcached y.
  assert (Hyy : match yopt with Some y0 => y0 | None => Date.year (today w) end = y)
    by (by destruct yopt).
  split; [|split].
  - intros Hnot. unfold Api.get_availability.
    by rewrite bool_decide_eq_false_2 by done.
  - intros Hin Hout. unfold Api.get_availability.
    rewrite bool_decide_eq_true_2 by done. cbn [negb]. rewrite Hyy.
    replace ((y <? Date.year (today w)) || (Api.max_year venue (today w) <? y)) with true;
      [done|].
    symmetry. apply orb_true_iff.
    destruct Hout; [left; by apply Z.ltb_lt | right; by apply Z.ltb_lt].
  - intros Hin Hy. destruct (Hcached venue Hin) as [entry Hc].
    exists entry. split; [done|].
    apply get_availability_served; try done.
    apply window_end_below_max.
    pose proof (year_range (today w) Hv). pose proof (max_year_le venue (today w)).
    fold y. lia.
Qed.

(** X5. Once the year of the lease end is over, the endpoint turns every
    request for that venue down with a 400, also the one that names no
    year. *)
Theorem lease_passed_rejects_every_year (venue : string) (lease_end : Z)
    (yopt : option Z) (w : world) :
  venue ∈ VENUES →
  VENUE_LEASE_END !! venue = Some lease_end →
  Date.year lease_end < Date.year (today w) →
  ∃ detail, Api.get_availability venue yopt w = Api.HTTPException 400 detail.
Proof.
  intros Hin Hl Hlt. unfold Api.get_availability.
  rewrite bool_decide_eq_true_2 by done. cbn [negb].
  set (y := match yopt with Some y0 => y0 | None => Date.year (today w) end).
  assert (Hm : Api.max_year venue (today w) ≤ Date.year lease_end)
    by (unfold Api.max_year; rewrite Hl; lia).
  replace ((y <? Date.year (today w)) || (Api.max_year venue (today w) <? y)) with true;
    [by eexists|].
  symmetry. apply orb_true_iff.
  destruct (Z.lt_ge_cases y (Date.year (today w)));
    [left; by apply Z.ltb_lt | right; apply Z.ltb_lt; lia].
Qed.

(** X6. In the year of the lease end, after the lease end, the endpoint
    still accepts that year and answers with an empty list of days. *)
Theorem lease_year_after_lease_end_is_empty (venue : string) (lease_end : Z)
    (w : world) (entry : cache_entry) :
  venue ∈ VENUES →
  VENUE_LEASE_END !! venue = Some lease_end →
  valid (today w) →
  Date.year (today w) = Date.year lease_end →
  lease_end < today w →
  _cache w !! venue = Some entry →
  ∃ a, Api.get_availability venue None w = Api.Answer a ∧
       Api.year a = Date.year (today w) ∧ Api.days a = [].
Proof.
  intros Hin Hl Hv Hy Hlt Hc.
  assert (Hm : Api.max_year venue (today w) = Date.year (today w))
    by (unfold Api.max_year; rewrite Hl; lia).
  assert (He : window_end venue (Date.year (today w)) ≤ lease_end)
    by (unfold window_end; rewrite Hl; lia).
  eexists. split.
  - apply (get_availability_served venue None w entry); try done.
    + cbn [default]. lia.
    + cbn [default]. unfold valid in Hv. lia.
  - cbn [Api.year Api.days default]. split; [done|].
    apply weekend_records_nil.
    unfold window_start. rewrite Z.eqb_refl. lia.
Qed.

End ApiFacts.

(** ** More on the token cache *)
Module CredentialFacts.
Import Date DateFacts Calendar Main Notions TokenFacts Requests.

(** [get_access_token] when the exchange is attempted. *)
Lemma get_access_token_exchange (w : world) :
  truthy (getenv "MS_REFRESH_TOKEN" w) = true →
  cached_token_if_fresh w = (Returned None, w) →
  get_access_token w =
    match refresh_the_token (_get_config w) w with
    | (Raised _, w') => (Returned None, w')
    | r => r
    end.
Proof. intros Hrt Hfresh. rewrite get_access_token_eq, Hrt, Hfresh. done. Qed.

Lemma lifetime_fits (arrival lifetime : Z) :
  0 ≤ arrival ≤ DATETIME_MAX →
  0 ≤ arrival + lifetime * US_PER_SECOND ≤ DATETIME_MAX →
  timedelta_seconds lifetime = Ok (lifetime * US_PER_SECOND) ∧
  datetime_add arrival (lifetime * US_PER_SECOND)
    = Ok (arrival + lifetime * US_PER_SECOND).
Proof.
  unfold timedelta_seconds, datetime_add, DATETIME_MAX, US_PER_DAY, US_PER_SECOND,
    _MAXORDINAL.
  intros Ha Hfit. split.
  - replace (Z.abs (lifetime / 86400) <=? 999999999) with true; [done|].
    symmetry. apply Z.leb_le. Z.div_mod_to_equations. lia.
  - replace (0 <=? arrival + lifetime * 1000000) with true
      by (symmetry; apply Z.leb_le; lia).
    replace (arrival + lifetime * 1000000 <=? 3652059 * (86400 * 1000000) - 1)
      with true by (symmetry; apply Z.leb_le; lia).
    done.
Qed.

Lemma lifetime_overflows (arrival lifetime : Z) :
  DATETIME_MAX < arrival + lifetime * US_PER_SECOND →
  timedelta_seconds lifetime = Raise OverflowError ∨
  (timedelta_seconds lifetime = Ok (lifetime * US_PER_SECOND) ∧
   datetime_add arrival (lifetime * US_PER_SECOND) = Raise OverflowError).
Proof.
  unfold timedelta_seconds, datetime_add. intros Hover.
  destruct (Z.abs (lifetime / 86400) <=? 999999999); [right|by left].
  split; [done|].
  replace (arrival + lifetime * US_PER_SECOND <=? DATETIME_MAX) with false
    by (symmetry; apply Z.leb_gt; lia).
  by rewrite andb_false_r.
Qed.

(** X7. A successful exchange stores the token together with the expiry
    [arrival + expires_in], 3600 seconds when the answer names none,
    whenever that is a [datetime], and returns the token.  From then on, as
    long as the expiry is more than five minutes ahead, a call returns this
    token and sends nothing. *)
Theorem exchange_stores_token_and_expiry (w : world) (x : exchange)
    (rest : list exchange) (data : json) (tok : string) :
  reachable w →
  truthy (getenv "MS_REFRESH_TOKEN" w) = true →
  cached_token_if_fresh w = (Returned None, w) →
  network w = x :: rest →
  answer x = Response 200 (Some data) →
  access_token data = Some tok →
  let exp := arrival x + default 3600 (expires_in data) * US_PER_SECOND in
  0 ≤ exp ≤ DATETIME_MAX →
  let w' := set_token_expires_at (Some exp) (set_cached_token (Some tok) (exchanged x rest w)) in
  get_access_token w = (Returned (Some tok), w') ∧
  (truthy tok = true →
   ∀ w2, same_globals w' w2 → env_ok w2 →
         clock w2 + timedelta_minutes 5 < exp →
         get_access_token w2 = (Returned (Some tok), w2)).
Proof.
  intros Hr Hrt Hfresh Hn Hx Htok exp Hfit w'.
  pose proof (reachable_inv w Hr) as (Henv & _ & _).
  assert (Hax : clock_ok (arrival x)).
  { destruct Henv as [_ Hf]. rewrite Hn in Hf. by apply Forall_cons in Hf as [? _]. }
  destruct (lifetime_fits (arrival x) (default 3600 (expires_in data))) as [Hd Ha];
    [unfold clock_ok, UNIX_EPOCH, US_PER_DAY, US_PER_SECOND in Hax; lia | done |].
  assert (Hget : get_access_token w = (Returned (Some tok), w')).
  { rewrite get_access_token_exchange by done.
    rewrite refresh_the_token_eq, Hn. cbv zeta. rewrite Hx. cbn [negb Z.eqb Pos.eqb].
    rewrite Htok, Hd, Ha. done. }
  split; [exact Hget|].
  intros Htr w2 Hsame Henv2 Hlt.
  assert (Hr' : reachable w').
  { replace w' with (get_access_token w).2 by (by rewrite Hget).
    by apply reachable_call. }
  pose proof (reachable_inv w2 (reachable_env w' w2 Hr' Hsame Henv2)) as Hinv.
  destruct Hsame as (_ & Ht2 & He2).
  apply (get_access_token_hit w2 tok exp); [done| |done| |done].
  - by rewrite Ht2.
  - by rewrite He2.
Qed.

(** X8. A failed exchange (no connection, status other than 200, body
    that is not JSON or has no token) returns [None] and leaves the token
    cache as it was: one request was sent and one answer consumed. *)
Theorem failed_exchange_keeps_credential (w : world) (x : exchange)
    (rest : list exchange) :
  truthy (getenv "MS_REFRESH_TOKEN" w) = true →
  cached_token_if_fresh w = (Returned None, w) →
  network w = x :: rest →
  exchange_failed x →
  get_access_token w = (Returned None, exchanged x rest w) ∧
  _cached_token (exchanged x rest w) = _cached_token w ∧
  _token_expires_at (exchanged x rest w) = _token_expires_at w ∧
  sent (exchanged x rest w) = sent w ++ [token_request (_get_config w)] ∧
  network (exchanged x rest w) = rest.
Proof.
  intros Hrt Hfresh Hn Hfail. split; [|done].
  rewrite get_access_token_exchange by done.
  rewrite refresh_the_token_eq, Hn. cbv zeta. fold (exchanged x rest w).
  unfold exchange_failed in Hfail.
  destruct (answer x) as [|status body]; [done|].
  destruct (negb (status =? 200)) eqn:Hs; [done|].
  apply negb_false_iff, Z.eqb_eq in Hs.
  destruct Hfail as [?|Hfail]; [done|].
  destruct body as [data|]; [|done]. by rewrite Hfail.
Qed.

(** X9. An answer with a token whose lifetime leads past [datetime.max]
    is a failure that writes half: [None] is returned, the new token is in
    [_cached_token], and [_token_expires_at] is still the old value. *)
Theorem overflowing_lifetime_writes_token_only (w : world) (x : exchange)
    (rest : list exchange) (data : json) (tok : string) :
  truthy (getenv "MS_REFRESH_TOKEN" w) = true →
  cached_token_if_fresh w = (Returned None, w) →
  network w = x :: rest →
  answer x = Response 200 (Some data) →
  access_token data = Some tok →
  DATETIME_MAX < arrival x + default 3600 (expires_in data) * US_PER_SECOND →
  let w' := set_cached_token (Some tok) (exchanged x rest w) in
  get_access_token w = (Returned None, w') ∧
  _cached_token w' = Some tok ∧
  _token_expires_at w' = _token_expires_at w.
Proof.
  intros Hrt Hfresh Hn Hx Htok Hover w'. split; [|done].
  rewrite get_access_token_exchange by done.
  rewrite refresh_the_token_eq, Hn. cbv zeta. rewrite Hx. cbn [negb Z.eqb Pos.eqb].
  rewrite Htok.
  destruct (lifetime_overflows _ _ Hover) as [-> | [-> ->]]; done.
Qed.

(** X10. One call sends at most one request, the token request built from
    the configuration, and consumes at most the first answer. *)
Theorem one_token_request_at_most (w : world) :
  let w' := (get_access_token w).2 in
  (sent w' = sent w ∧ network w' = network w) ∨
  (sent w' = sent w ++ [token_request (_get_config w)] ∧
   network w' = tail (network w)).
Proof.
  cbv zeta. rewrite get_access_token_eq.
  destruct (negb _); [by left|].
  rewrite cached_token_if_fresh_eq.
  assert (Hr : let r := match refresh_the_token (_get_config w) w with
                        | (Raised _, w'') => (Returned None, w'')
                        | r => r
                        end in
               sent r.2 = sent w ++ [token_request (_get_config w)] ∧
               network r.2 = tail (network w)).
  { cbv zeta. rewrite refresh_the_token_eq.
    destruct (network w) as [|x rest] eqn:Hn; [split; [done|cbn; by rewrite Hn]|].
    cbv zeta.
    destruct (answer x) as [|status body]; [done|].
    destruct (negb (status =? 200)); [done|].
    destruct body as [data|]; [|done].
    destruct (access_token data) as [tok|]; [|done].
    destruct (timedelta_seconds _) as [delta|]; [|done].
    destruct (datetime_add (arrival x) delta) as [exp|]; done. }
  destruct (_cached_token w) as [tok|]; [|by right].
  destruct (_token_expires_at w) as [exp|]; [|by right].
  destruct (truthy tok); [|by right].
  destruct (datetime_sub exp (timedelta_minutes 5)) as [limit|]; [|by left].
  destruct (clock w <? limit); [by left|by right].
Qed.

(** X11. An empty token is cached and returned like any other, but it is
    never good: the next call asks for a new one whatever the expiry, and
    the fetch that gets it returns the empty set without asking for a
    page. *)
Theorem empty_token_is_never_reused (fromisoformat_date : string → result Z) (w : world) :
  (_cached_token w = Some "" →
   truthy (getenv "MS_REFRESH_TOKEN" w) = true →
   sent (get_access_token w).2 = sent w ++ [token_request (_get_config w)]) ∧
  (∀ calendar_id start_date end_date w1,
     get_access_token w = (Returned (Some ""), w1) →
     fetch_calendar_events_graph fromisoformat_date calendar_id start_date end_date w
       = (Returned ∅, w1)).
Proof.
  split.
  - intros Ht Hrt.
    assert (Hfresh : cached_token_if_fresh w = (Returned None, w)).
    { rewrite cached_token_if_fresh_eq, Ht. by destruct (_token_expires_at w). }
    rewrite get_access_token_exchange by done.
    rewrite refresh_the_token_eq.
    destruct (network w) as [|x rest]; [done|]. cbv zeta.
    destruct (answer x) as [|status body]; [done|].
    destruct (negb (status =? 200)); [done|].
    destruct body as [data|]; [|done].
    destruct (access_token data) as [tok|]; [|done].
    destruct (timedelta_seconds _) as [delta|]; [|done].
    destruct (datetime_add (arrival x) delta) as [exp|]; done.
  - intros calendar_id start_date end_date w1 Hget.
    unfold fetch_calendar_events_graph, bind. by rewrite Hget.
Qed.

Lemma datetime_sub_raises (t delta : Z) (x : exn) :
  datetime_sub t delta = Raise x ↔
  x = OverflowError ∧ ¬ (0 ≤ t - delta ≤ DATETIME_MAX).
Proof.
  unfold datetime_sub, datetime_add.
  replace (t + - delta) with (t - delta) by lia.
  destruct ((0 <=? t - delta) && (t - delta <=? DATETIME_MAX)) eqn:H.
  - apply andb_true_iff in H as [H1 H2]. apply Z.leb_le in H1, H2.
    split; [done|]. intros [_ Hn]. by destruct Hn.
  - split; [|by intros [-> _]]. intros [= <-]. split; [done|]. intros [H1 H2].
    apply andb_false_iff in H as [H|H]; apply Z.leb_gt in H; lia.
Qed.

(** X25. [get_access_token] raises in one situation only: a refresh token
    is configured, a non-empty token is cached, and five minutes before
    its stored expiry is no [datetime].  It then raises [OverflowError]
    and leaves the world as it is, so that the next call raises again. *)
Theorem token_call_raises_only_on_early_expiry (w : world) (x : exn) :
  ((get_access_token w).1 = Raised x ↔
   x = OverflowError ∧
   truthy (getenv "MS_REFRESH_TOKEN" w) = true ∧
   ∃ tok exp, _cached_token w = Some tok ∧ truthy tok = true ∧
              _token_expires_at w = Some exp ∧
              ¬ (0 ≤ exp - timedelta_minutes 5 ≤ DATETIME_MAX)) ∧
  ((get_access_token w).1 = Raised x → get_access_token w = (Raised x, w)).
Proof.
  split.
  - rewrite get_access_token_raises. split.
    + intros (Hrt & tok & exp & Ht & Htr & He & Hsub).
      apply datetime_sub_raises in Hsub as [-> Hno].
      split; [done|]. split; [done|]. by exists tok, exp.
    + intros (-> & Hrt & tok & exp & Ht & Htr & He & Hno).
      split; [done|]. exists tok, exp. split; [done|]. split; [done|].
      split; [done|]. by apply datetime_sub_raises.
  - rewrite get_access_token_eq.
    destruct (negb _); [done|].
    pose proof (cached_token_if_fresh_world w) as Hw.
    destruct (cached_token_if_fresh w) as [[[tok|]|e|] w']; simpl in Hw; subst w';
      [done| |by intros [= ->]|done].
    by destruct (refresh_the_token (_get_config w) w) as [[?|?|] ?].
Qed.

End CredentialFacts.

(** ** More on the fetch *)
Module PaginationFacts.
Import Date DateFacts Calendar Main Notions TokenFacts CalendarFacts FetchFacts Requests.

Lemma pagination_later (tok : string) (rs : list request) :
  pagination tok None rs → Forall (is_page_request tok None) rs.
Proof. destruct rs as [|r rs]; [constructor|]. intros [? ?]. by constructor. Qed.

Section Pages.

Variable fromisoformat_date : string → result Z.
Hypothesis fromisoformat_valid :
  ∀ s d, fromisoformat_date s = Ok d → valid d.

Local Abbreviation process_event := (process_event fromisoformat_date).
Local Abbreviation process_events := (process_events fromisoformat_date).
Local Abbreviation fetch_pages := (fetch_pages fromisoformat_date).
Local Abbreviation fetch_calendar_events_graph :=
  (fetch_calendar_events_graph fromisoformat_date).
Local Abbreviation get_booked_dates := (get_booked_dates fromisoformat_date).
Local Abbreviation readable := (readable fromisoformat_date).
Local Abbreviation read_event := (read_event fromisoformat_date).
Local Abbreviation booked_by := (booked_by fromisoformat_date).

(** The log of any pagination. *)
Lemma fetch_pages_log (tok : string) (start_date end_date : Z) (fuel : nat) :
  ∀ (url : option string) (params : option (list (string * string)))
    (booked : gset Z) (w : world),
    ∃ rs,
      sent (fetch_pages fuel url params tok start_date end_date booked w).2
        = sent w ++ rs ∧
      pagination tok params rs.
Proof.
  induction fuel as [|fuel IH]; intros url params booked w.
  { exists []. simpl. by rewrite app_nil_r. }
  destruct (truthy_opt url) eqn:Hu.
  2:{ rewrite fetch_pages_stop by done. exists []. simpl. by rewrite app_nil_r. }
  destruct url as [u|]; [|done]. simpl in Hu.
  rewrite fetch_pages_step by done. cbv zeta.
  assert (Hone : pagination tok params [GET u params ("Bearer " +:+ tok)])
    by (split; [by exists u|constructor]).
  destruct (network w) as [|x rest]; [by eexists|].
  destruct (answer x) as [|status body]; [by eexists|].
  destruct (negb (status =? 200)); [by eexists|].
  destruct body as [data|]; [|by eexists].
  destruct (process_events _ _ _ _) as [B1 [[]|?]]; [|by eexists].
  destruct (IH (odata_nextLink data) None B1
              (received x rest (suspended (sending (GET u params ("Bearer " +:+ tok)) w))))
    as (rs & -> & Hrs).
  exists (GET u params ("Bearer " +:+ tok) :: rs). split.
  - cbn [sent received suspended sending]. by rewrite <- app_assoc.
  - split; [by exists u|]. by apply pagination_later.
Qed.

(** Pages that are read and announce a next page: the loop goes on with
    the link of the last one, and the requests so far, with the one about
    to be sent, follow the links. *)
Lemma pages_then (tok : string) (start_date end_date : Z) (ps : list (Z * json)) :
  ∀ (fuel : nat) (u : string) (params : option (list (string * string)))
    (booked : gset Z) (w : world) (rest : list exchange),
    truthy u = true →
    network w = answers ps ++ rest →
    Forall has_next ps →
    Forall readable (events_of ps) →
    ∃ B w1 u1 params1,
      fetch_pages (List.length ps + fuel) (Some u) params tok
        start_date end_date booked w
      = fetch_pages fuel (Some u1) params1 tok start_date end_date B w1 ∧
      truthy u1 = true ∧ network w1 = rest ∧
      sent w1 ++ [GET u1 params1 ("Bearer " +:+ tok)]
        = sent w ++ GET u params ("Bearer " +:+ tok) :: (next_request tok <$> ps) ∧
      (∀ d, d ∈ B ↔ d ∈ booked ∨ booked_by (events_of ps) start_date end_date d).
Proof.
  induction ps as [|p ps IH]; intros fuel u params booked w rest Hu Hn Hnext Hread.
  - exists booked, w, u, params. split; [done|]. split; [done|].
    split; [done|]. split; [done|]. intros d. split; [auto|].
    intros [?|H]; [done|]. by apply booked_by_nil in H.
  - apply Forall_cons in Hnext as [Hp Hnext].
    rewrite events_of_cons in Hread. apply Forall_app in Hread as [Hrp Hread].
    cbn [List.length Nat.add]. rewrite fetch_pages_step by done. cbv zeta.
    rewrite Hn. cbn [answers fmap list_fmap app page answer].
    change (negb (200 =? 200)) with false. cbn [negb].
    destruct (process_events_spec fromisoformat_date fromisoformat_valid
                (page_events p) start_date end_date booked Hrp) as (B1 & HB1 & Hmem1).
    unfold page_events in HB1. rewrite HB1.
    unfold has_next in Hp.
    destruct (odata_nextLink p.2) as [u'|] eqn:Hlink; [|done]. simpl in Hp.
    destruct (IH fuel u' None B1
                (received {| arrival := p.1; answer := Response 200 (Some p.2) |}
                   (answers ps ++ rest)
                   (suspended (sending (GET u params ("Bearer " +:+ tok)) w)))
                rest Hp eq_refl Hnext Hread)
      as (B & w1 & u1 & params1 & Heq & Hu1 & Hnet & Hlog & Hmem).
    exists B, w1, u1, params1. split; [done|]. split; [done|]. split; [done|].
    split.
    + rewrite Hlog. cbn [sent received suspended sending fmap list_fmap].
      unfold next_request at 2. rewrite Hlink. cbn [default].
      by rewrite <- app_assoc.
    + intros d. rewrite Hmem, Hmem1, events_of_cons, booked_by_app. tauto.
Qed.

(** The events before an unreadable one are processed, the others not. *)
Lemma process_events_unreadable (evs1 evs2 : list event) (bad : event) (x : exn)
    (start_date end_date : Z) :
  ∀ booked : gset Z,
    Forall readable evs1 →
    read_event bad = Unreadable x →
    ∃ B, process_events (evs1 ++ bad :: evs2) start_date end_date booked = (B, Raise x) ∧
         ∀ d, d ∈ B ↔ d ∈ booked ∨ booked_by evs1 start_date end_date d.
Proof.
  induction evs1 as [|ev evs1 IH]; intros booked Hr Hbad.
  - simpl. rewrite (process_event_unreadable fromisoformat_date bad _ _ _ x Hbad).
    exists booked. split; [done|]. intros d. split; [auto|].
    intros [?|H]; [done|]. by apply booked_by_nil in H.
  - apply Forall_cons in Hr as [Hev Hr].
    destruct (process_events_spec fromisoformat_date fromisoformat_valid [ev]
                start_date end_date booked ltac:(by constructor)) as (B1 & HB1 & Hmem1).
    simpl in HB1. simpl.
    destruct (process_event ev start_date end_date booked) as [B1' [[]|?]]; [|done].
    injection HB1 as ->.
    destruct (IH B1 Hr Hbad) as (B & HB & Hmem). exists B. split; [done|].
    intros d. rewrite Hmem, Hmem1.
    change (ev :: evs1) with ([ev] ++ evs1). rewrite booked_by_app. tauto.
Qed.

(** A fetch that reads all its pages. *)
Lemma complete_fetch (calendar_id : string) (start_date end_date : Z)
    (w w1 : world) (tok : string) (ps : list (Z * json)) (t : Z) (last : json)
    (rest : list exchange) :
  get_access_token w = (Returned (Some tok), w1) →
  truthy tok = true →
  network w1 = answers ps ++ page t last :: rest →
  Forall has_next ps →
  truthy_opt (odata_nextLink last) = false →
  Forall readable (events_of (ps ++ [(t, last)])) →
  ∃ B w',
    fetch_calendar_events_graph calendar_id start_date end_date w = (Returned B, w') ∧
    network w' = rest ∧
    sent w' = sent w1 ++
      GET (events_url calendar_id) (Some events_params) ("Bearer " +:+ tok)
        :: (next_request tok <$> ps) ∧
    (∀ d, d ∈ B ↔ booked_by (events_of (ps ++ [(t, last)])) start_date end_date d).
Proof.
  intros Hget Htok Hn Hnext Hlast Hread.
  rewrite events_of_app in Hread. apply Forall_app in Hread as [Hread Hrl].
  rewrite (fetch_with_token _ _ _ _ w w1 tok) by done.
  rewrite Hn, length_app. cbn [List.length].
  replace (S (List.length (answers ps) + S (List.length rest)))
    with (List.length ps + S (S (List.length rest)))%nat
    by (unfold answers; rewrite length_fmap; lia).
  destruct (pages_then tok start_date end_date
              ps (S (S (List.length rest))) (events_url calendar_id) (Some events_params)
              ∅ w1 (page t last :: rest) (events_url_truthy _) Hn Hnext Hread)
    as (B & w2 & u2 & params2 & Heq & Hurl & Hnet & Hlog & Hmem).
  rewrite Heq. clear Heq.
  rewrite fetch_pages_step by done. cbv zeta. rewrite Hnet.
  cbn [page answer]. change (negb (200 =? 200)) with false. cbn [negb].
  unfold events_of in Hrl. simpl in Hrl. rewrite app_nil_r in Hrl.
  destruct (process_events_spec fromisoformat_date fromisoformat_valid
              (page_events (t, last)) start_date end_date B Hrl) as (B' & HB' & Hmem').
  unfold page_events in HB'. simpl in HB'. rewrite HB'.
  rewrite fetch_pages_stop by done.
  exists B'. eexists. split; [done|]. split; [done|]. split; [exact Hlog|].
  intros d. rewrite Hmem', Hmem, events_of_app, booked_by_app.
  assert (Hl : events_of [(t, last)] = page_events (t, last))
    by (unfold events_of; simpl; by rewrite app_nil_r).
  rewrite Hl. split; [|tauto].
  intros [[Hd|?]|?]; [|tauto|tauto]. by apply not_elem_of_empty in Hd.
Qed.

(** X12. Whatever the answers, the requests of a fetch that has a token
    are page requests with that token: the first one goes to the calendar
    of the handle with the query parameters, the later ones carry no
    parameters. *)
Theorem pagination_resends_token_not_filters (calendar_id : string)
    (start_date end_date : Z) (w w1 : world) (tok : string) :
  get_access_token w = (Returned (Some tok), w1) →
  truthy tok = true →
  ∃ rs,
    sent (fetch_calendar_events_graph calendar_id start_date end_date w).2
      = sent w1 ++
        GET (events_url calendar_id) (Some events_params) ("Bearer " +:+ tok) :: rs ∧
    Forall (is_page_request tok None) rs.
Proof.
  intros Hget Htok. rewrite (fetch_with_token _ _ _ _ w w1 tok) by done.
  pose proof (events_url_truthy calendar_id) as Hu.
  rewrite fetch_pages_step by done. cbv zeta.
  destruct (network w1) as [|x rest]; [by exists []|].
  destruct (answer x) as [|status body]; [by exists []|].
  destruct (negb (status =? 200)); [by exists []|].
  destruct body as [data|]; [|by exists []].
  destruct (process_events _ _ _ _) as [B1 [[]|?]]; [|by exists []].
  destruct (fetch_pages_log tok start_date end_date (S (List.length rest))
              (odata_nextLink data) None B1
              (received x rest (suspended (sending
                 (GET (events_url calendar_id) (Some events_params) ("Bearer " +:+ tok)) w1))))
    as (rs & Hrs & Hp).
  exists rs. split; [|by apply pagination_later].
  cbn [List.length]. rewrite Hrs. cbn [sent received suspended sending].
  by rewrite <- app_assoc.
Qed.

(** X13. A fetch that reads all its pages sends one request per page,
    each to the link that the page before announced, and leaves the
    answers behind the last page where they are. *)
Theorem complete_fetch_follows_the_links (calendar_id : string)
    (start_date end_date : Z) (w w1 : world) (tok : string)
    (ps : list (Z * json)) (t : Z) (last : json) (rest : list exchange) :
  get_access_token w = (Returned (Some tok), w1) →
  truthy tok = true →
  network w1 = answers ps ++ page t last :: rest →
  Forall has_next ps →
  truthy_opt (odata_nextLink last) = false →
  Forall readable (events_of (ps ++ [(t, last)])) →
  let w' := (fetch_calendar_events_graph calendar_id start_date end_date w).2 in
  network w' = rest ∧
  sent w' = sent w1 ++
    GET (events_url calendar_id) (Some events_params) ("Bearer " +:+ tok)
      :: (next_request tok <$> ps).
Proof.
  intros Hget Htok Hn Hnext Hlast Hread. cbv zeta.
  destruct (complete_fetch calendar_id start_date end_date w w1 tok ps t last rest)
    as (B & w' & -> & Hnet & Hlog & _); done.
Qed.

(** X14. An event that cannot be read ends the fetch without an error: the
    result holds the dates of the pages read before and of the events that
    precede it in its page, and nothing of what follows, in the page or in
    later pages. *)
Theorem unreadable_event_ends_the_fetch (calendar_id : string)
    (start_date end_date : Z) (w w1 : world) (tok : string)
    (ps : list (Z * json)) (t : Z) (data : json)
    (evs1 evs2 : list event) (bad : event) (x : exn) (rest : list exchange) :
  get_access_token w = (Returned (Some tok), w1) →
  truthy tok = true →
  network w1 = answers ps ++ page t data :: rest →
  Forall has_next ps →
  Forall readable (events_of ps ++ evs1) →
  value data = Some (evs1 ++ bad :: evs2) →
  read_event bad = Unreadable x →
  ∃ B w',
    fetch_calendar_events_graph calendar_id start_date end_date w = (Returned B, w') ∧
    network w' = rest ∧
    ∀ d, d ∈ B ↔ booked_by (events_of ps ++ evs1) start_date end_date d.
Proof.
  intros Hget Htok Hn Hnext Hread Hval Hbad.
  apply Forall_app in Hread as [Hread Hr1].
  rewrite (fetch_with_token _ _ _ _ w w1 tok) by done.
  rewrite Hn, length_app. cbn [List.length].
  replace (S (List.length (answers ps) + S (List.length rest)))
    with (List.length ps + S (S (List.length rest)))%nat
    by (unfold answers; rewrite length_fmap; lia).
  destruct (pages_then tok start_date end_date
              ps (S (S (List.length rest))) (events_url calendar_id) (Some events_params)
              ∅ w1 (page t data :: rest) (events_url_truthy _) Hn Hnext Hread)
    as (B & w2 & u2 & params2 & Heq & Hurl & Hnet & Hlog & Hmem).
  rewrite Heq. clear Heq.
  rewrite fetch_pages_step by done. cbv zeta. rewrite Hnet.
  cbn [page answer]. change (negb (200 =? 200)) with false. cbn [negb].
  assert (Hdef : default [] (value data) = evs1 ++ bad :: evs2) by (by rewrite Hval).
  rewrite Hdef.
  destruct (process_events_unreadable evs1 evs2 bad x start_date end_date B Hr1 Hbad)
    as (B' & HB' & Hmem').
  rewrite HB'. exists B'. eexists. split; [done|]. split; [done|].
  intros d. rewrite Hmem', Hmem, booked_by_app. split; [|tauto].
  intros [[Hd|?]|?]; [|tauto|tauto]. by apply not_elem_of_empty in Hd.
Qed.

(** X15. Two fetches that read all their pages return the same set when
    the pages hold the same events, in whatever order and however they are
    split into pages. *)
Theorem order_and_paging_do_not_matter (calendar_id calendar_id' : string)
    (start_date end_date : Z) (w w1 w' w1' : world) (tok tok' : string)
    (ps ps' : list (Z * json)) (t t' : Z) (last last' : json)
    (rest rest' : list exchange) :
  get_access_token w = (Returned (Some tok), w1) → truthy tok = true →
  network w1 = answers ps ++ page t last :: rest →
  Forall has_next ps → truthy_opt (odata_nextLink last) = false →
  Forall readable (events_of (ps ++ [(t, last)])) →
  get_access_token w' = (Returned (Some tok'), w1') → truthy tok' = true →
  network w1' = answers ps' ++ page t' last' :: rest' →
  Forall has_next ps' → truthy_opt (odata_nextLink last') = false →
  events_of (ps ++ [(t, last)]) ≡ₚ events_of (ps' ++ [(t', last')]) →
  (fetch_calendar_events_graph calendar_id start_date end_date w).1
  = (fetch_calendar_events_graph calendar_id' start_date end_date w').1.
Proof.
  intros Hget Htok Hn Hnext Hlast Hread Hget' Htok' Hn' Hnext' Hlast' Hperm.
  assert (Hread' : Forall readable (events_of (ps' ++ [(t', last')])))
    by (by rewrite <- Hperm).
  destruct (complete_fetch calendar_id start_date end_date w w1 tok ps t last rest)
    as (B & w2 & -> & _ & _ & Hmem); try done.
  destruct (complete_fetch calendar_id' start_date end_date w' w1' tok' ps' t' last' rest')
    as (B' & w2' & -> & _ & _ & Hmem'); try done.
  cbn [fst]. f_equal. apply set_eq. intros d. rewrite Hmem, Hmem'.
  unfold Notions.booked_by.
  split; intros (ev & s & e & Hin & H); exists ev, s, e; (split; [|done]).
  - by rewrite <- Hperm.
  - by rewrite Hperm.
Qed.

(** X16. An all-day event whose end is not after its start adds no date. *)
Theorem event_without_days_adds_nothing (ev : event) (s e start_date end_date : Z)
    (booked : gset Z) :
  read_event ev = Spans s e → e ≤ s →
  process_event ev start_date end_date booked = (booked, Ok tt).
Proof.
  intros Hread Hle.
  destruct (process_event_spans fromisoformat_date fromisoformat_valid ev
              start_date end_date booked s e Hread) as (B & -> & Hmem).
  f_equal. apply set_eq. intros d. rewrite Hmem. split; [|auto].
  intros [?|[? _]]; [done|lia].
Qed.

(** X17. The fetch raises what its call of [get_access_token] raises and
    nothing else: past that call no answer of the provider makes it
    raise, and with a settled token cache it does not raise at all.  Every
    date it returns lies in [start_date, end_date]: with an empty window
    it returns the empty set. *)
Theorem fetch_raises_only_from_the_token_call (calendar_id : string)
    (start_date end_date : Z) (w : world) :
  let r := fetch_calendar_events_graph calendar_id start_date end_date w in
  (∀ x, r.1 = Raised x ↔ (get_access_token w).1 = Raised x) ∧
  (settled w → ∀ x, r.1 ≠ Raised x) ∧
  (∀ B, r.1 = Returned B →
     (∀ d, d ∈ B → start_date ≤ d ≤ end_date) ∧ (end_date < start_date → B = ∅)).
Proof.
  cbv zeta. split; [intros x; apply fetch_raises|]. split.
  - intros Hs x. by apply fetch_no_raise.
  - intros B HB.
    assert (Hin : ∀ d, d ∈ B → start_date ≤ d ≤ end_date)
      by (intros d; by apply (fetch_within fromisoformat_date calendar_id _ _ w)).
    split; [exact Hin|]. intros Hlt. apply set_eq. intros d. split.
    + intros Hd. apply Hin in Hd. lia.
    + intros Hd. by apply not_elem_of_empty in Hd.
Qed.

Lemma get_booked_dates_window (venue : string) (months_ahead : Z) (w : world) :
  venue ∈ CALENDARS.*1 →
  valid (today w) → valid (today w + months_ahead * 30) →
  get_booked_dates venue months_ahead w =
    if negb (truthy (getenv "MS_REFRESH_TOKEN" w)) then (Returned ∅, w)
    else fetch_calendar_events_graph
           (default "" (calendar_ids (_get_config w) !! venue))
           (today w) (today w + months_ahead * 30) w.
Proof.
  intros Hin Hv Hend. unfold Calendar.get_booked_dates.
  rewrite bool_decide_eq_true_2 by done. cbn [negb].
  unfold bind at 1, date_today, gets. unfold bind at 1, timedelta_days, add_days.
  unfold valid, _MAXORDINAL in *.
  replace (Z.abs (months_ahead * 30) <=? 999999999) with true
    by (symmetry; apply Z.leb_le; lia).
  cbn [lift ret]. unfold bind at 1.
  replace (0 <? today w + months_ahead * 30) with true by (symmetry; apply Z.ltb_lt; lia).
  replace (today w + months_ahead * 30 <=? 3652059) with true
    by (symmetry; apply Z.leb_le; lia).
  cbn [andb lift ret]. unfold bind at 1.
  change (refresh_token (_get_config w)) with (getenv "MS_REFRESH_TOKEN" w).
  by destruct (truthy (getenv "MS_REFRESH_TOKEN" w)).
Qed.

Lemma get_booked_dates_no_window (venue : string) (months_ahead : Z) (w : world) :
  venue ∈ CALENDARS.*1 →
  valid (today w) → ¬ valid (today w + months_ahead * 30) →
  get_booked_dates venue months_ahead w = (Raised OverflowError, w).
Proof.
  intros Hin Hv Hno. unfold Calendar.get_booked_dates.
  rewrite bool_decide_eq_true_2 by done. cbn [negb].
  unfold bind at 1, date_today, gets. unfold bind at 1, timedelta_days.
  destruct (Z.abs (months_ahead * 30) <=? 999999999) eqn:Habs; [|done].
  cbn [lift ret]. unfold bind at 1, add_days.
  destruct ((0 <? today w + months_ahead * 30)
            && (today w + months_ahead * 30 <=? _MAXORDINAL)) eqn:Hrange; [|done].
  apply andb_true_iff in Hrange as [H1 H2].
  apply Z.ltb_lt in H1. apply Z.leb_le in H2. exfalso. apply Hno. unfold valid. lia.
Qed.

(** X26. Without a refresh token nothing is asked of the provider:
    [get_access_token] returns [None], the fetch returns the empty set,
    and so does [get_booked_dates] whenever its window exists; each leaves
    the world as it is. *)
Theorem unconfigured_process_asks_nothing (w : world) :
  truthy (getenv "MS_REFRESH_TOKEN" w) = false →
  get_access_token w = (Returned None, w) ∧
  (∀ calendar_id start_date end_date,
     fetch_calendar_events_graph calendar_id start_date end_date w = (Returned ∅, w)) ∧
  (∀ venue months_ahead,
     valid (today w) → valid (today w + months_ahead * 30) →
     get_booked_dates venue months_ahead w = (Returned ∅, w)).
Proof.
  intros Hrt.
  pose proof (get_access_token_unconfigured w Hrt) as Hget.
  split; [exact Hget|]. split.
  - intros calendar_id start_date end_date.
    by apply (fetch_without_token _ _ _ _ w w None).
  - intros venue months_ahead Hv Hend.
    destruct (decide (venue ∈ CALENDARS.*1)) as [Hin|Hout].
    + rewrite get_booked_dates_window by done. by rewrite Hrt.
    + unfold Calendar.get_booked_dates. by rewrite bool_decide_eq_false_2.
Qed.

(** X18. For a known venue, when the end of the window is not a date
    [get_booked_dates] raises [OverflowError] before it looks at the
    configuration, and nothing is sent.  When it is a date,
    [get_booked_dates] raises what [get_access_token] raises in the same
    world and nothing else; with a settled token cache it does not
    raise. *)
Theorem booked_dates_raise_from_window_or_token (venue : string) (months_ahead : Z)
    (w : world) :
  venue ∈ CALENDARS.*1 →
  valid (today w) →
  (¬ valid (today w + months_ahead * 30) →
   get_booked_dates venue months_ahead w = (Raised OverflowError, w)) ∧
  (valid (today w + months_ahead * 30) →
   (∀ x, (get_booked_dates venue months_ahead w).1 = Raised x ↔
         (get_access_token w).1 = Raised x) ∧
   (settled w → ∀ x, (get_booked_dates venue months_ahead w).1 ≠ Raised x)).
Proof.
  intros Hin Hv. split.
  - by apply get_booked_dates_no_window.
  - intros Hyes. rewrite get_booked_dates_window by done.
    destruct (truthy (getenv "MS_REFRESH_TOKEN" w)) eqn:Hrt; cbn [negb].
    + split; [intros x; apply fetch_raises|]. intros Hs x. by apply fetch_no_raise.
    + rewrite (get_access_token_unconfigured w Hrt). split; [|done].
      intros x. simpl. split; done.
Qed.

End Pages.

End PaginationFacts.

(** ** A venue without a calendar handle *)
Module HandleFacts.
Import Date DateFacts Calendar Main Notions TokenFacts CalendarFacts FetchFacts Requests
  PaginationFacts.

Section Handle.

Variable fromisoformat_date : string → result Z.
Hypothesis fromisoformat_valid :
  ∀ s d, fromisoformat_date s = Ok d → valid d.

Local Abbreviation fetch_calendar_events_graph :=
  (fetch_calendar_events_graph fromisoformat_date).
Local Abbreviation get_booked_dates := (get_booked_dates fromisoformat_date).
Local Abbreviation readable := (readable fromisoformat_date).
Local Abbreviation booked_by := (booked_by fromisoformat_date).

(** C7, amended.  When the calendar handle of a venue is absent or empty,
    [get_booked_dates] still needs a refresh token: without one it returns
    the empty set and sends nothing.  With one it is the fetch with the
    empty handle: once a token is obtained, its first request is the
    listing of the account's default calendar, [/me/calendar/events], and
    when the pages are read the booked dates are those of the events
    found there.  No exception comes from the missing handle: the call
    raises what [get_access_token] raises in the same world and nothing
    else, so not at all when the token cache is settled. *)
Theorem absent_handle_reads_default_calendar (venue : string) (months_ahead : Z)
    (w : world) :
  venue ∈ CALENDARS.*1 →
  default "" (calendar_ids (_get_config w) !! venue) = "" →
  valid (today w) → valid (today w + months_ahead * 30) →
  let r := get_booked_dates venue months_ahead w in
  (truthy (getenv "MS_REFRESH_TOKEN" w) = false → r = (Returned ∅, w)) ∧
  (truthy (getenv "MS_REFRESH_TOKEN" w) = true →
   r = fetch_calendar_events_graph "" (today w) (today w + months_ahead * 30) w) ∧
  (∀ tok w1,
     get_access_token w = (Returned (Some tok), w1) → truthy tok = true →
     (∃ more,
        sent r.2 = sent w1 ++
          GET (GRAPH_API_BASE +:+ "/me/calendar/events") (Some events_params)
            ("Bearer " +:+ tok) :: more) ∧
     (∀ ps t last rest,
        network w1 = answers ps ++ page t last :: rest →
        Forall has_next ps →
        truthy_opt (odata_nextLink last) = false →
        Forall readable (events_of (ps ++ [(t, last)])) →
        ∃ B, r.1 = Returned B ∧
             ∀ d, d ∈ B ↔
               booked_by (events_of (ps ++ [(t, last)]))
                 (today w) (today w + months_ahead * 30) d)) ∧
  (∀ x, r.1 = Raised x ↔ (get_access_token w).1 = Raised x) ∧
  (settled w → ∀ x, r.1 ≠ Raised x).
Proof.
  intros Hin Hid Hv Hend. cbv zeta.
  rewrite (get_booked_dates_window fromisoformat_date) by done. rewrite Hid.
  destruct (truthy (getenv "MS_REFRESH_TOKEN" w)) eqn:Hrt; cbn [negb].
  - split; [done|]. split; [done|]. split; [|split].
    + intros tok w1 Hget Htok. split.
      * rewrite (fetch_with_token _ _ _ _ w w1 tok) by done.
        apply (fetch_pages_first_request fromisoformat_date). done.
      * intros ps t last rest Hn Hnext Hlast Hread.
        destruct (complete_fetch fromisoformat_date fromisoformat_valid ""
                    (today w) (today w + months_ahead * 30) w w1 tok ps t last rest)
          as (B & w' & HB & _ & _ & Hmem); try done.
        exists B. split; [by rewrite HB | exact Hmem].
    + intros x. apply fetch_raises.
    + intros Hs x. by apply fetch_no_raise.
  - rewrite (get_access_token_unconfigured w Hrt).
    split; [done|]. split; [done|]. split; [by intros tok w1 [=]|].
    split; [|done]. intros x. simpl. split; done.
Qed.

End Handle.

Lemma absent_handle_reads_default_calendar_witness :
  default "" (calendar_ids (_get_config Sample.two_pages) !! "garden") = "" ∧
  truthy (getenv "MS_REFRESH_TOKEN" Sample2.unconfigured) = false ∧
  Calendar.get_booked_dates Sample.fromisoformat_date "garden" 48 Sample2.unconfigured
    = (Returned ∅, Sample2.unconfigured) ∧
  ∃ more,
    sent (Calendar.get_booked_dates Sample.fromisoformat_date "garden" 48
            Sample.two_pages).2 =
      sent (get_access_token Sample.two_pages).2 ++
      GET "https://graph.microsoft.com/v1.0/me/calendar/events" (Some events_params)
        "Bearer tok" :: more.
Proof.
  assert (Hid : default "" (calendar_ids (_get_config Sample.two_pages) !! "garden") = "")
    by (vm_compute; reflexivity).
  assert (Hin : "garden" ∈ CALENDARS.*1)
    by (apply (bool_decide_unpack _); vm_compute; exact I).
  assert (Hv : valid (today Sample.two_pages)) by (vm_compute; split; discriminate).
  assert (Hend : valid (today Sample.two_pages + 48 * 30))
    by (vm_compute; split; discriminate).
  split; [exact Hid|]. split; [reflexivity|]. split.
  - refine (proj1 (absent_handle_reads_default_calendar Sample.fromisoformat_date
                     SampleFacts.fromisoformat_valid "garden" 48 Sample2.unconfigured
                     Hin _ Hv Hend) eq_refl).
    vm_compute. reflexivity.
  - destruct (proj1 (proj2 (proj2
                (absent_handle_reads_default_calendar Sample.fromisoformat_date
                   SampleFacts.fromisoformat_valid "garden" 48 Sample.two_pages
                   Hin Hid Hv Hend)))
                "tok" (get_access_token Sample.two_pages).2
                SampleFacts.two_pages_token eq_refl) as ((more & Hmore) & _).
    exists more. exact Hmore.
Defined.

End HandleFacts.

(** ** More on the refresh *)
Module CycleFacts.
Import Date DateFacts Calendar Main Notions TokenFacts CalendarFacts FetchFacts
  RefreshFacts ProjectionFacts Requests PaginationFacts.

Lemma settled_request (r : request) (w : world) :
  settled w → settled (suspended (sending r w)).
Proof. intros H. exact H. Qed.

Lemma settled_received (x : exchange) (rest : list exchange) (r : request) (w : world) :
  settled w → network w = x :: rest →
  settled (received x rest (suspended (sending r w))).
Proof.
  intros ((Hc & Hn) & Hl & Hexp) Hnet. rewrite Hnet in Hn, Hl.
  apply Forall_cons in Hn as [Hx Hrest]. apply Forall_cons in Hl as [_ Hl].
  split; [by split|]. by split.
Qed.

Lemma settled_written (venue : string) (booked : gset Z) (w : world) :
  settled w → settled (written venue booked w).
Proof. intros H. exact H. Qed.

Section Cycle.

Variable fromisoformat_date : string → result Z.
Hypothesis fromisoformat_valid :
  ∀ s d, fromisoformat_date s = Ok d → valid d.

Local Abbreviation fetch_pages := (fetch_pages fromisoformat_date).
Local Abbreviation fetch_calendar_events_graph :=
  (fetch_calendar_events_graph fromisoformat_date).
Local Abbreviation get_booked_dates := (get_booked_dates fromisoformat_date).
Local Abbreviation refresh_venues := (refresh_venues fromisoformat_date).
Local Abbreviation refresh_cache := (refresh_cache fromisoformat_date).

Lemma fetch_pages_settled (tok : string) (start_date end_date : Z) (fuel : nat) :
  ∀ (url : option string) (params : option (list (string * string)))
    (booked : gset Z) (w : world),
    settled w →
    settled (fetch_pages fuel url params tok start_date end_date booked w).2.
Proof.
  induction fuel as [|fuel IH]; intros url params booked w Hinv; [done|].
  destruct (truthy_opt url) eqn:Hu.
  2:{ by rewrite fetch_pages_stop. }
  destruct url as [u|]; [|done]. simpl in Hu.
  rewrite fetch_pages_step by done. cbv zeta.
  destruct (network w) as [|x rest] eqn:Hn; [by apply settled_request|].
  pose proof (settled_received x rest (GET u params ("Bearer " +:+ tok)) w Hinv Hn) as H1.
  destruct (answer x) as [|status body]; [done|].
  destruct (negb (status =? 200)); [done|].
  destruct body as [data|]; [|done].
  destruct (Calendar.process_events _ _ _ _ _) as [B1 [[]|?]]; [|done].
  by apply IH.
Qed.

Lemma fetch_settled (calendar_id : string) (start_date end_date : Z) (w : world) :
  settled w →
  settled (fetch_calendar_events_graph calendar_id start_date end_date w).2.
Proof.
  intros Hinv. unfold Calendar.fetch_calendar_events_graph, bind.
  pose proof (get_access_token_settled w Hinv) as H1.
  destruct (get_access_token w) as [[r| |] w1]; [|done|done].
  destruct (negb (truthy_opt r)); [done|].
  cbn [gets]. by apply fetch_pages_settled.
Qed.

Lemma get_booked_dates_settled (venue : string) (months_ahead : Z) (w : world) :
  settled w → settled (get_booked_dates venue months_ahead w).2.
Proof.
  intros Hinv. unfold Calendar.get_booked_dates.
  destruct (negb (bool_decide _)); [done|].
  unfold bind at 1, date_today, gets. unfold bind at 1.
  destruct (timedelta_days _) as [delta|]; [|done]. cbn [lift ret].
  unfold bind at 1.
  destruct (add_days _ _) as [end_date|]; [|done]. cbn [lift ret].
  unfold bind at 1.
  destruct (negb _); [done|]. by apply fetch_settled.
Qed.

(** The loop over the venues keeps the keys of [_cache]. *)
Lemma refresh_venues_dom (venues : list string) :
  ∀ w : world, dom (_cache (refresh_venues venues w).2) = dom (_cache w).
Proof.
  induction venues as [|venue venues IH]; intros w; [done|].
  rewrite refresh_venues_cons.
  pose proof (get_booked_dates_quiet fromisoformat_date venue 48 w) as (Hc & _).
  destruct (get_booked_dates venue 48 w) as [[booked|x|] w1];
    [|by rewrite <- Hc|by rewrite <- Hc].
  simpl in Hc.
  destruct (_cache w1 !! venue) as [e|] eqn:He; [|by rewrite <- Hc].
  rewrite IH. unfold written. cbn [_cache set_cache]. rewrite <- Hc.
  by apply dom_insert_lookup_L.
Qed.

Lemma refresh_venues_no_raise (venues : list string) :
  ∀ w : world,
    settled w → window_exists 48 w →
    (∀ v, v ∈ venues → v ∈ VENUES ∧ is_Some (_cache w !! v)) →
    ∀ x, (refresh_venues venues w).1 ≠ Raised x.
Proof.
  induction venues as [|venue venues IH]; intros w Hinv [Hv Hend] Hvs x; [done|].
  rewrite refresh_venues_cons.
  destruct (Hvs venue ltac:(left)) as [Hin [e He]].
  pose proof (get_booked_dates_quiet fromisoformat_date venue 48 w) as (Hc & Ht & _).
  pose proof (get_booked_dates_settled venue 48 w Hinv) as Hinv1.
  assert (Hnr : (get_booked_dates venue 48 w).1 ≠ Raised x).
  { rewrite get_booked_dates_window by done.
    destruct (negb _); [done|]. by apply fetch_no_raise. }
  destruct (get_booked_dates venue 48 w) as [[booked|x'|] w1]; [| |done].
  2:{ simpl in *. congruence. }
  simpl in Hc, Ht, Hinv1. rewrite Hc, He.
  apply IH.
  - by apply settled_written.
  - unfold window_exists, written. cbn [today set_cache]. by rewrite Ht.
  - intros v Hvin. destruct (Hvs v ltac:(by right)) as [Hv1 Hv2]. split; [done|].
    unfold written. cbn [_cache set_cache]. rewrite Hc.
    apply lookup_insert_is_Some. destruct (decide (venue = v)); auto.
Qed.

(** Without a refresh token every venue is stamped with the empty set. *)
Lemma refresh_venues_unconfigured (venues : list string) :
  ∀ w : world,
    truthy (getenv "MS_REFRESH_TOKEN" w) = false → window_exists 48 w →
    (∀ v, v ∈ venues → v ∈ VENUES ∧ is_Some (_cache w !! v)) →
    ∃ w', refresh_venues venues w = (Returned tt, w') ∧
          environ w' = environ w ∧ clock w' = clock w ∧ today w' = today w ∧
          sent w' = sent w ∧ network w' = network w ∧
          (∀ v, v ∈ venues →
             _cache w' !! v = Some {| booked_dates := ∅; last_updated := Some (clock w) |}) ∧
          (∀ v, v ∉ venues → _cache w' !! v = _cache w !! v).
Proof.
  induction venues as [|venue venues IH]; intros w Hrt [Hv Hend] Hvs.
  { exists w. repeat (split; [done|]). split; [|done].
    intros v Hin. by apply elem_of_nil in Hin. }
  rewrite refresh_venues_cons.
  destruct (Hvs venue ltac:(left)) as [Hin [e He]].
  rewrite get_booked_dates_window by done. rewrite Hrt. cbn [negb]. rewrite He.
  destruct (IH (written venue ∅ w)) as (w' & -> & Henv & Hclock & Htoday & Hsent & Hnet & Hin' & Hout).
  - done.
  - done.
  - intros v Hvin. destruct (Hvs v ltac:(by right)) as [Hv1 Hv2]. split; [done|].
    unfold written. cbn [_cache set_cache].
    apply lookup_insert_is_Some. destruct (decide (venue = v)); auto.
  - exists w'. repeat (split; [done|]). split.
    + intros v Hvin. destruct (decide (v ∈ venues)) as [Hvs'|Hvs'].
      * by rewrite (Hin' v Hvs').
      * apply elem_of_cons in Hvin as [->|?]; [|done].
        rewrite (Hout venue Hvs'). unfold written. cbn [_cache set_cache].
        apply lookup_insert_eq.
    + intros v Hvout. apply not_elem_of_cons in Hvout as [Hne Hvout].
      rewrite (Hout v Hvout). unfold written. cbn [_cache set_cache].
      by apply lookup_insert_ne.
Qed.

(** X19. A refresh, however it ends, leaves [_cache] with the keys it
    had, and with the entries of the keys that are no venue as they
    were. *)
Theorem refresh_keeps_the_keys (w : world) :
  let w' := (refresh_cache w).2 in
  dom (_cache w') = dom (_cache w) ∧
  ∀ v, v ∉ VENUES → _cache w' !! v = _cache w !! v.
Proof.
  cbv zeta. unfold Main.refresh_cache. split; [apply refresh_venues_dom|].
  by destruct (refresh_venues_atomic fromisoformat_date VENUES w VENUES_NoDup)
    as (_ & H & _).
Qed.

(** X20. When the token cache is settled (the clock, now and at every
    answer to come, is not before 1970, so is the stored expiry if there is
    one, and no answer to come carries a negative lifetime), the cache
    holds every venue and the day has a day 1440 days later, a refresh
    does not raise, whatever else the provider answers. *)
Theorem settled_refresh_does_not_raise (w : world) :
  settled w → window_exists 48 w → venues_cached w →
  ∀ x, (refresh_cache w).1 ≠ Raised x.
Proof.
  intros Hs Hwin Hc x. unfold Main.refresh_cache.
  apply refresh_venues_no_raise; [done|done|].
  intros v Hv. split; [done|]. by apply Hc.
Qed.

(** X21. A refresh in a process without a refresh token completes without
    a request and stamps every venue with the empty set and the time of
    the refresh: what was booked before is gone. *)
Theorem unconfigured_refresh_clears_the_cache (w : world) :
  truthy (getenv "MS_REFRESH_TOKEN" w) = false →
  window_exists 48 w → venues_cached w →
  let r := refresh_cache w in
  r.1 = Returned tt ∧ sent r.2 = sent w ∧ network r.2 = network w ∧
  ∀ v, v ∈ VENUES →
    _cache r.2 !! v = Some {| booked_dates := ∅; last_updated := Some (clock w) |}.
Proof.
  intros Hrt Hwin Hc. cbv zeta. unfold Main.refresh_cache.
  destruct (refresh_venues_unconfigured VENUES w Hrt Hwin) as (w' & -> & H).
  { intros v Hv. split; [done|]. by apply Hc. }
  by destruct H as (_ & _ & _ & ? & ? & ? & _).
Qed.

(** X22. After a completed refresh, the projection of a venue marks every
    day later than 1440 days after the day of the refresh as available,
    whatever the calendar holds for it. *)
Theorem days_beyond_the_window_show_available (w : world) (venue : string) (year : Z)
    (days : list weekend_day) :
  (refresh_cache w).1 = Returned tt →
  venue ∈ VENUES →
  get_weekend_days_for_year venue year (refresh_cache w).2 = Ok days →
  ∃ entry ds,
    _cache (refresh_cache w).2 !! venue = Some entry ∧
    days = day_record (booked_dates entry) <$> ds ∧
    ∀ c, today w + 1440 < c → available (day_record (booked_dates entry) c) = true.
Proof.
  intros Hret Hin Hproj.
  apply projection_elems in Hproj as (entry & ds & Hentry & -> & _).
  exists entry, ds. split; [done|]. split; [done|].
  intros c Hc. unfold day_record. cbn [available].
  rewrite bool_decide_eq_false_2; [done|]. intros Hd.
  unfold Main.refresh_cache in *.
  destruct (refresh_venues_atomic fromisoformat_date VENUES w VENUES_NoDup)
    as (_ & _ & _ & Hfin).
  destruct (Hfin Hret venue Hin) as (b & t & wa & wb & H1 & H2 & H3 & H4).
  rewrite H1 in Hentry. injection Hentry as <-. simpl in Hd.
  pose proof (get_booked_dates_within fromisoformat_date venue 48 wa b c
                ltac:(by rewrite H3) Hd). lia.
Qed.

End Cycle.

End CycleFacts.

(** ** The endpoint and the refresh *)
Module ServiceFacts.
Import Date DateFacts Calendar Main Notions FetchFacts RefreshFacts ProjectionFacts
  Requests.

Lemma initial_cache_lookup (venue : string) (entry : cache_entry) :
  initial_cache !! venue = Some entry →
  entry = {| booked_dates := ∅; last_updated := None |}.
Proof.
  unfold initial_cache. intros H. apply elem_of_list_to_map_2 in H.
  apply list_elem_of_fmap in H as (v & [= _ ->] & _). done.
Qed.

(** What the endpoint puts in its dict. *)
Lemma get_availability_answer (venue : string) (yopt : option Z) (w : world)
    (a : Api.availability) :
  Api.get_availability venue yopt w = Api.Answer a →
  ∃ entry ds,
    _cache w !! venue = Some entry ∧
    Api.lastUpdated a = Api.datetime_isoformat <$> last_updated entry ∧
    Api.days a = day_record (booked_dates entry) <$> ds.
Proof.
  unfold Api.get_availability.
  destruct (negb (bool_decide _)); [done|].
  destruct (_ || _); [done|].
  destruct (get_weekend_days_for_year _ _ _) as [days|] eqn:Hproj; [|done].
  apply projection_elems in Hproj as (entry & ds & Hentry & -> & _).
  rewrite Hentry. intros [= <-]. by exists entry, ds.
Qed.

(** X23. Until the first refresh has written an entry, the endpoint
    answers with no time of update and with every day available. *)
Theorem before_the_first_refresh_all_is_available (venue : string) (yopt : option Z)
    (w : world) (a : Api.availability) :
  _cache w = initial_cache →
  Api.get_availability venue yopt w = Api.Answer a →
  Api.lastUpdated a = None ∧ Forall (λ r, available r = true) (Api.days a).
Proof.
  intros Hc H. apply get_availability_answer in H as (entry & ds & He & -> & ->).
  rewrite Hc in He. apply initial_cache_lookup in He as ->. split; [done|].
  apply Forall_fmap, Forall_forall. intros c _. unfold day_record. cbn.
  rewrite bool_decide_eq_false_2; [done|]. apply not_elem_of_empty.
Qed.

(** X24. After a completed refresh the endpoint serves what this refresh
    fetched: for the venue reached after the venues [pre], it names the
    time read right after the [get_booked_dates] call that the refresh
    made in the world the loop over [pre] left, and the days it reports as
    taken are dates that this call returned. *)
Theorem endpoint_serves_the_last_fetch (fromisoformat_date : string → result Z)
    (venue : string) (yopt : option Z) (w : world) (a : Api.availability)
    (pre post : list string) :
  (refresh_cache fromisoformat_date w).1 = Returned tt →
  Api.get_availability venue yopt (refresh_cache fromisoformat_date w).2 = Api.Answer a →
  VENUES = pre ++ venue :: post →
  ∃ b wb ds,
    get_booked_dates fromisoformat_date venue 48
      (refresh_venues fromisoformat_date pre w).2 = (Returned b, wb) ∧
    Api.lastUpdated a = Some (Api.datetime_isoformat (clock wb)) ∧
    Api.days a = day_record b <$> ds.
Proof.
  intros Hret H Heq.
  apply get_availability_answer in H as (entry & ds & He & Hl & Hds).
  unfold Main.refresh_cache in *.
  pose proof VENUES_NoDup as Hnd. rewrite Heq in Hnd, Hret, He.
  destruct (refresh_venues_turn fromisoformat_date pre post venue w Hnd)
    as (_ & [[Hno _]|(b & wb & Hget & Hcache)]); [done|].
  rewrite Hcache in He. injection He as <-. simpl in Hl, Hds.
  by exists b, wb, ds.
Qed.

End ServiceFacts.

(** ** The properties above on the sample data *)
Module MoreSampleFacts.
Import Date DateFacts Calendar Main Notions TokenFacts Requests.

Lemma initial_cache_cached (w : world) : _cache w = initial_cache → venues_cached w.
Proof.
  intros Hc v Hv. rewrite Hc.
  repeat (apply elem_of_cons in Hv as [->|Hv]; [by eexists|]).
  by apply elem_of_nil in Hv.
Qed.

Lemma started_window (env : gmap string string) (answers : list exchange) :
  window_exists 48 (Sample.started env answers).
Proof. split; vm_compute; split; discriminate. Qed.

Lemma started_settled (env : gmap string string) (answers : list exchange) :
  Forall (λ x, clock_ok (arrival x)) answers → Forall lifetime_ok answers →
  settled (Sample.started env answers).
Proof.
  intros Hc Hl. split; [|by split].
  split; [|done]. vm_compute. split; discriminate.
Qed.

Ltac lifetimes_ok :=
  repeat (apply Forall_cons; split; [vm_compute; try exact I; discriminate|]);
  apply Forall_nil_2.

Lemma one_refresh_settled : settled Sample.one_refresh.
Proof. apply started_settled; [clocks_ok | lifetimes_ok]. Qed.

Lemma two_pages_settled : settled Sample.two_pages.
Proof. apply started_settled; [clocks_ok | lifetimes_ok]. Qed.

Lemma one_refresh_reachable : reachable Sample.one_refresh.
Proof. apply started_reachable. clocks_ok. Qed.

Lemma two_pages_is_reachable : reachable Sample.two_pages.
Proof. apply started_reachable. clocks_ok. Qed.

Lemma other_order_token :
  get_access_token Sample2.other_order
  = (Returned (Some "tok"), (get_access_token Sample2.other_order).2).
Proof. vm_compute. reflexivity. Qed.

Lemma garbled_second_event_token :
  get_access_token Sample2.garbled_second_event
  = (Returned (Some "tok"), (get_access_token Sample2.garbled_second_event).2).
Proof. vm_compute. reflexivity. Qed.

End MoreSampleFacts.

Module MoreWitnesses.
Import Date DateFacts Calendar Main Notions TokenFacts CalendarFacts FetchFacts
  RefreshFacts SampleFacts ProjectionFacts ApiFacts CredentialFacts PaginationFacts
  CycleFacts ServiceFacts Requests MoreSampleFacts.

Lemma projection_lists_weekend_days_in_order_witness :
  get_weekend_days_for_year "garden" 2026 (Sample.with_booked "garden" Sample.june_12_13)
    = Ok (weekend_records Sample.june_12_13 Sample.new_year (_ymd2ord 2026 12 31)) ∧
  ∃ ds, weekend_records Sample.june_12_13 Sample.new_year (_ymd2ord 2026 12 31)
          = day_record Sample.june_12_13 <$> ds ∧
        StronglySorted Z.lt ds.
Proof.
  assert (H : get_weekend_days_for_year "garden" 2026
                (Sample.with_booked "garden" Sample.june_12_13)
              = Ok (weekend_records Sample.june_12_13 Sample.new_year (_ymd2ord 2026 12 31)))
    by (vm_compute; reflexivity).
  split; [exact H|].
  destruct (projection_lists_weekend_days_in_order "garden" 2026
              (Sample.with_booked "garden" Sample.june_12_13) _ H)
    as (entry & ds & Hc & Hd & Hs & _).
  exists ds. split; [|exact Hs].
  assert (Hc' : _cache (Sample.with_booked "garden" Sample.june_12_13) !! "garden"
                = Some {| booked_dates := Sample.june_12_13;
                          last_updated := Some Sample.noon |})
    by (vm_compute; reflexivity).
  rewrite Hc' in Hc. injection Hc as <-. exact Hd.
Defined.

Lemma projection_errors_witness :
  fits_C_int 2147483648 = false ∧
  get_weekend_days_for_year "garden" 2147483648 (Sample.started ∅ []) = Raise OverflowError ∧
  ¬ (MINYEAR ≤ 0 ≤ MAXYEAR) ∧
  get_weekend_days_for_year "garden" 0 (Sample.started ∅ []) = Raise ValueError ∧
  _cache (Sample.started ∅ []) !! "cellar" = None ∧
  get_weekend_days_for_year "cellar" 2026 (Sample.started ∅ []) = Raise KeyError.
Proof.
  assert (H0 : ¬ (MINYEAR ≤ 0 ≤ MAXYEAR)) by (unfold MINYEAR; lia).
  assert (Hc : _cache (Sample.started ∅ []) !! "cellar" = None) by (vm_compute; reflexivity).
  split; [reflexivity|]. split.
  { exact (proj1 (projection_errors "garden" 2147483648 (Sample.started ∅ [])) eq_refl). }
  split; [exact H0|]. split.
  - exact (proj1 (proj2 (projection_errors "garden" 0 (Sample.started ∅ []))) eq_refl H0).
  - split; [exact Hc|].
    apply (proj2 (proj2 (projection_errors "cellar" 2026 (Sample.started ∅ [])))); [|exact Hc].
    unfold MINYEAR, MAXYEAR. lia.
Defined.

Lemma projection_of_last_year_overflows_witness :
  VENUE_LEASE_END !! "garden" = None ∧
  valid (today (Sample.started ∅ [])) ∧
  get_weekend_days_for_year "garden" MAXYEAR (Sample.started ∅ []) = Raise OverflowError.
Proof.
  assert (Hl : VENUE_LEASE_END !! "garden" = None) by (vm_compute; reflexivity).
  assert (Hv : valid (today (Sample.started ∅ []))) by (vm_compute; split; discriminate).
  split; [exact Hl|]. split; [exact Hv|].
  apply (projection_of_last_year_overflows "garden" (Sample.started ∅ [])
           {| booked_dates := ∅; last_updated := None |} Hl Hv).
  vm_compute. reflexivity.
Defined.

Lemma endpoint_outcomes_witness :
  valid (today (Sample.started ∅ [])) ∧
  Date.year (today (Sample.started ∅ [])) + 4 < MAXYEAR ∧
  Api.get_availability "cellar" None (Sample.started ∅ [])
    = Api.HTTPException 404 "Venue not found. Valid venues: garden, ballroom" ∧
  Api.get_availability "ballroom" (Some 2031) (Sample.started ∅ [])
    = Api.HTTPException 400 "Year must be between 2026 and 2030".
Proof.
  assert (Hv : valid (today (Sample.started ∅ []))) by (vm_compute; split; discriminate).
  assert (Hy : Date.year (today (Sample.started ∅ [])) + 4 < MAXYEAR)
    by (vm_compute; reflexivity).
  split; [exact Hv|]. split; [exact Hy|].
  split.
  - apply (proj1 (endpoint_outcomes "cellar" None (Sample.started ∅ []) Hv Hy
                    (initial_cache_cached (Sample.started ∅ []) eq_refl))).
    apply (bool_decide_unpack _). vm_compute. exact I.
  - apply (proj1 (proj2 (endpoint_outcomes "ballroom" (Some 2031) (Sample.started ∅ []) Hv Hy
                           (initial_cache_cached (Sample.started ∅ []) eq_refl)))).
    + apply (bool_decide_unpack _). vm_compute. exact I.
    + right. vm_compute. reflexivity.
Defined.

Lemma lease_passed_rejects_every_year_witness :
  Date.year (_ymd2ord 2030 3 31) < Date.year (today Sample2.after_lease) ∧
  ∃ detail,
    Api.get_availability "ballroom" None Sample2.after_lease = Api.HTTPException 400 detail.
Proof.
  assert (H : Date.year (_ymd2ord 2030 3 31) < Date.year (today Sample2.after_lease))
    by (vm_compute; reflexivity).
  split; [exact H|].
  apply (lease_passed_rejects_every_year "ballroom" (_ymd2ord 2030 3 31) None
           Sample2.after_lease); [|reflexivity|exact H].
  apply (bool_decide_unpack _). vm_compute. exact I.
Defined.

Lemma lease_year_after_lease_end_is_empty_witness :
  valid (today Sample2.lease_over) ∧
  Date.year (today Sample2.lease_over) = Date.year (_ymd2ord 2030 3 31) ∧
  _ymd2ord 2030 3 31 < today Sample2.lease_over ∧
  ∃ a, Api.get_availability "ballroom" None Sample2.lease_over = Api.Answer a ∧
       Api.year a = Date.year (today Sample2.lease_over) ∧ Api.days a = [].
Proof.
  assert (Hv : valid (today Sample2.lease_over)) by (vm_compute; split; discriminate).
  assert (Hy : Date.year (today Sample2.lease_over) = Date.year (_ymd2ord 2030 3 31))
    by (vm_compute; reflexivity).
  assert (Hlt : _ymd2ord 2030 3 31 < today Sample2.lease_over) by (vm_compute; reflexivity).
  split; [exact Hv|]. split; [exact Hy|]. split; [exact Hlt|].
  apply (lease_year_after_lease_end_is_empty "ballroom" (_ymd2ord 2030 3 31)
           Sample2.lease_over {| booked_dates := ∅; last_updated := None |});
    [|reflexivity|exact Hv|exact Hy|exact Hlt|vm_compute; reflexivity].
  apply (bool_decide_unpack _). vm_compute. exact I.
Defined.

Lemma exchange_stores_token_and_expiry_witness :
  reachable Sample.two_pages ∧
  0 ≤ Sample.noon1 + 3600 * US_PER_SECOND ≤ DATETIME_MAX ∧
  get_access_token Sample.two_pages =
    (Returned (Some "tok"),
     set_token_expires_at (Some (Sample.noon1 + 3600 * US_PER_SECOND))
       (set_cached_token (Some "tok")
          (exchanged Sample.token_answer
             [page Sample.first_page.1 Sample.first_page.2;
              page Sample.last_page.1 Sample.last_page.2] Sample.two_pages))).
Proof.
  assert (Hfit : 0 ≤ Sample.noon1 + 3600 * US_PER_SECOND ≤ DATETIME_MAX)
    by (vm_compute; split; discriminate).
  split; [exact two_pages_is_reachable|]. split; [exact Hfit|].
  exact (proj1 (exchange_stores_token_and_expiry Sample.two_pages Sample.token_answer
                  [page Sample.first_page.1 Sample.first_page.2;
                   page Sample.last_page.1 Sample.last_page.2]
                  (Sample.token_json "tok") "tok"
                  two_pages_is_reachable eq_refl eq_refl eq_refl eq_refl eq_refl Hfit)).
Defined.

Lemma failed_exchange_keeps_credential_witness :
  exchange_failed Sample.server_error ∧
  get_access_token Sample.exchange_refused
    = (Returned None, exchanged Sample.server_error [] Sample.exchange_refused) ∧
  network (exchanged Sample.server_error [] Sample.exchange_refused) = [].
Proof.
  assert (Hf : exchange_failed Sample.server_error) by (left; discriminate).
  split; [exact Hf|].
  destruct (failed_exchange_keeps_credential Sample.exchange_refused Sample.server_error []
              eq_refl eq_refl eq_refl Hf) as (H1 & _ & _ & _ & H5).
  split; [exact H1 | exact H5].
Defined.

Lemma overflowing_lifetime_writes_token_only_witness :
  DATETIME_MAX < Sample.noon1 + 400000000000 * US_PER_SECOND ∧
  (get_access_token Sample2.endless_token).1 = Returned None ∧
  _cached_token (get_access_token Sample2.endless_token).2 = Some "tok" ∧
  _token_expires_at (get_access_token Sample2.endless_token).2 = None.
Proof.
  assert (Hover : DATETIME_MAX < Sample.noon1 + 400000000000 * US_PER_SECOND)
    by (vm_compute; reflexivity).
  split; [exact Hover|].
  destruct (overflowing_lifetime_writes_token_only Sample2.endless_token
              {| arrival := Sample.noon1;
                 answer := Response 200
                   (Some {| access_token := Some "tok"; expires_in := Some 400000000000;
                            value := None; odata_nextLink := None |}) |}
              []
              {| access_token := Some "tok"; expires_in := Some 400000000000;
                 value := None; odata_nextLink := None |}
              "tok" eq_refl eq_refl eq_refl eq_refl eq_refl Hover) as (H1 & H2 & H3).
  rewrite H1. split; [reflexivity|]. split; [exact H2 | exact H3].
Defined.

Lemma empty_token_is_never_reused_witness :
  get_access_token Sample2.empty_token
    = (Returned (Some ""), (get_access_token Sample2.empty_token).2) ∧
  fetch_calendar_events_graph Sample.fromisoformat_date ""
    (_ymd2ord 2026 1 1) (_ymd2ord 2029 12 11) Sample2.empty_token
  = (Returned ∅, (get_access_token Sample2.empty_token).2).
Proof.
  assert (H : get_access_token Sample2.empty_token
              = (Returned (Some ""), (get_access_token Sample2.empty_token).2))
    by (vm_compute; reflexivity).
  split; [exact H|].
  exact (proj2 (empty_token_is_never_reused Sample.fromisoformat_date Sample2.empty_token)
           "" (_ymd2ord 2026 1 1) (_ymd2ord 2029 12 11) _ H).
Defined.

Lemma pagination_resends_token_not_filters_witness :
  truthy "tok" = true ∧
  ∃ rs,
    sent (fetch_calendar_events_graph Sample.fromisoformat_date ""
            (_ymd2ord 2026 1 1) (_ymd2ord 2029 12 11) Sample.two_pages).2
      = sent (get_access_token Sample.two_pages).2 ++
        GET (events_url "") (Some events_params) ("Bearer " +:+ "tok") :: rs ∧
    Forall (is_page_request "tok" None) rs.
Proof.
  split; [reflexivity|].
  exact (pagination_resends_token_not_filters Sample.fromisoformat_date ""
           (_ymd2ord 2026 1 1) (_ymd2ord 2029 12 11) Sample.two_pages _ "tok"
           two_pages_token eq_refl).
Defined.

Lemma complete_fetch_follows_the_links_witness :
  Forall has_next [Sample.first_page] ∧
  truthy_opt (odata_nextLink Sample.last_page.2) = false ∧
  sent (fetch_calendar_events_graph Sample.fromisoformat_date ""
          (_ymd2ord 2026 1 1) (_ymd2ord 2029 12 11) Sample.two_pages).2
    = sent (get_access_token Sample.two_pages).2 ++
      GET (events_url "") (Some events_params) ("Bearer " +:+ "tok")
        :: (next_request "tok" <$> [Sample.first_page]).
Proof.
  assert (Hnext : Forall has_next [Sample.first_page])
    by (apply Forall_cons; split; [reflexivity | apply Forall_nil_2]).
  split; [exact Hnext|]. split; [reflexivity|].
  refine (proj2 (complete_fetch_follows_the_links Sample.fromisoformat_date fromisoformat_valid
                   "" (_ymd2ord 2026 1 1) (_ymd2ord 2029 12 11) Sample.two_pages _ "tok"
                   [Sample.first_page] Sample.last_page.1 Sample.last_page.2 []
                   two_pages_token eq_refl _ Hnext eq_refl _)).
  - vm_compute. reflexivity.
  - apply Forall_cons. split; [intros e; vm_compute; discriminate|].
    apply Forall_cons. split; [intros e; vm_compute; discriminate|].
    apply Forall_nil_2.
Defined.

Lemma unreadable_event_ends_the_fetch_witness :
  read_event Sample.fromisoformat_date Sample2.garbled = Unreadable ValueError ∧
  ∃ B w',
    fetch_calendar_events_graph Sample.fromisoformat_date ""
      (_ymd2ord 2026 1 1) (_ymd2ord 2029 12 11) Sample2.garbled_second_event
      = (Returned B, w') ∧
    network w' = [page Sample.last_page.1 Sample.last_page.2] ∧
    ∀ d, d ∈ B ↔
      booked_by Sample.fromisoformat_date
        (events_of [] ++
         [Sample.all_day "2026-06-12T00:00:00.0000000" "2026-06-14T00:00:00.0000000"])
        (_ymd2ord 2026 1 1) (_ymd2ord 2029 12 11) d.
Proof.
  assert (Hbad : read_event Sample.fromisoformat_date Sample2.garbled = Unreadable ValueError)
    by (vm_compute; reflexivity).
  split; [exact Hbad|].
  apply (unreadable_event_ends_the_fetch Sample.fromisoformat_date fromisoformat_valid
           "" (_ymd2ord 2026 1 1) (_ymd2ord 2029 12 11) Sample2.garbled_second_event
           (get_access_token Sample2.garbled_second_event).2 "tok"
           [] Sample2.garbled_page.1 Sample2.garbled_page.2
           [Sample.all_day "2026-06-12T00:00:00.0000000" "2026-06-14T00:00:00.0000000"]
           [Sample.all_day "2026-07-03T00:00:00.0000000" "2026-07-04T00:00:00.0000000"]
           Sample2.garbled ValueError
           [page Sample.last_page.1 Sample.last_page.2]
           garbled_second_event_token eq_refl).
  - vm_compute. reflexivity.
  - apply Forall_nil_2.
  - apply Forall_cons. split; [intros e; vm_compute; discriminate | apply Forall_nil_2].
  - reflexivity.
  - exact Hbad.
Defined.

Lemma order_and_paging_do_not_matter_witness :
  events_of ([Sample.first_page] ++ [(Sample.last_page.1, Sample.last_page.2)])
    ≡ₚ events_of
         ([(Sample.noon2,
            Sample.events_json
              [Sample.all_day "2026-07-03T00:00:00.0000000" "2026-07-04T00:00:00.0000000"]
              (Some "https://graph.microsoft.com/v1.0/me/calendar/events?$skip=500"))]
          ++ [(Sample.noon2,
               Sample.events_json
                 [Sample.all_day "2026-06-12T00:00:00.0000000" "2026-06-14T00:00:00.0000000"]
                 None)]) ∧
  (fetch_calendar_events_graph Sample.fromisoformat_date ""
     (_ymd2ord 2026 1 1) (_ymd2ord 2029 12 11) Sample.two_pages).1
  = (fetch_calendar_events_graph Sample.fromisoformat_date ""
       (_ymd2ord 2026 1 1) (_ymd2ord 2029 12 11) Sample2.other_order).1.
Proof.
  assert (Hperm :
    events_of ([Sample.first_page] ++ [(Sample.last_page.1, Sample.last_page.2)])
    ≡ₚ events_of
         ([(Sample.noon2,
            Sample.events_json
              [Sample.all_day "2026-07-03T00:00:00.0000000" "2026-07-04T00:00:00.0000000"]
              (Some "https://graph.microsoft.com/v1.0/me/calendar/events?$skip=500"))]
          ++ [(Sample.noon2,
               Sample.events_json
                 [Sample.all_day "2026-06-12T00:00:00.0000000" "2026-06-14T00:00:00.0000000"]
                 None)])) by apply perm_swap.
  split; [exact Hperm|].
  refine (order_and_paging_do_not_matter Sample.fromisoformat_date fromisoformat_valid
            "" "" (_ymd2ord 2026 1 1) (_ymd2ord 2029 12 11)
            Sample.two_pages _ Sample2.other_order _ "tok" "tok"
            [Sample.first_page]
            [(Sample.noon2,
              Sample.events_json
                [Sample.all_day "2026-07-03T00:00:00.0000000" "2026-07-04T00:00:00.0000000"]
                (Some "https://graph.microsoft.com/v1.0/me/calendar/events?$skip=500"))]
            Sample.last_page.1 Sample.noon2 Sample.last_page.2
            (Sample.events_json
               [Sample.all_day "2026-06-12T00:00:00.0000000" "2026-06-14T00:00:00.0000000"]
               None)
            [] []
            two_pages_token eq_refl _ _ eq_refl _ other_order_token eq_refl _ _ eq_refl Hperm).
  - vm_compute. reflexivity.
  - apply Forall_cons. split; [reflexivity | apply Forall_nil_2].
  - apply Forall_cons. split; [intros e; vm_compute; discriminate|].
    apply Forall_cons. split; [intros e; vm_compute; discriminate|].
    apply Forall_nil_2.
  - vm_compute. reflexivity.
  - apply Forall_cons. split; [reflexivity | apply Forall_nil_2].
Defined.

Lemma event_without_days_adds_nothing_witness :
  read_event Sample.fromisoformat_date Sample2.empty_booking
    = Spans (_ymd2ord 2026 6 12) (_ymd2ord 2026 6 12) ∧
  process_event Sample.fromisoformat_date Sample2.empty_booking 1 _MAXORDINAL ∅ = (∅, Ok tt).
Proof.
  assert (H : read_event Sample.fromisoformat_date Sample2.empty_booking
              = Spans (_ymd2ord 2026 6 12) (_ymd2ord 2026 6 12))
    by (vm_compute; reflexivity).
  split; [exact H|].
  apply (event_without_days_adds_nothing Sample.fromisoformat_date fromisoformat_valid
           Sample2.empty_booking (_ymd2ord 2026 6 12) (_ymd2ord 2026 6 12)
           1 _MAXORDINAL ∅ H).
  lia.
Defined.

Lemma fetch_raises_only_from_the_token_call_witness :
  settled Sample.two_pages ∧
  (∀ x, (fetch_calendar_events_graph Sample.fromisoformat_date ""
           (_ymd2ord 2026 1 1) (_ymd2ord 2029 12 11) Sample.two_pages).1 ≠ Raised x) ∧
  (fetch_calendar_events_graph Sample.fromisoformat_date ""
     (_ymd2ord 2026 1 1) (_ymd2ord 2029 12 11)
     (get_access_token Sample2.backdated_token).2).1 = Raised OverflowError.
Proof.
  split; [exact two_pages_settled|]. split.
  - exact (proj1 (proj2 (fetch_raises_only_from_the_token_call Sample.fromisoformat_date ""
                           (_ymd2ord 2026 1 1) (_ymd2ord 2029 12 11) Sample.two_pages))
             two_pages_settled).
  - apply (proj1 (fetch_raises_only_from_the_token_call Sample.fromisoformat_date ""
                    (_ymd2ord 2026 1 1) (_ymd2ord 2029 12 11)
                    (get_access_token Sample2.backdated_token).2)).
    vm_compute. reflexivity.
Defined.

Lemma booked_dates_raise_from_window_or_token_witness :
  valid (today Sample.two_pages) ∧
  ¬ valid (today Sample.two_pages + 100000 * 30) ∧
  get_booked_dates Sample.fromisoformat_date "garden" 100000 Sample.two_pages
    = (Raised OverflowError, Sample.two_pages) ∧
  settled Sample.two_pages ∧
  ∀ x, (get_booked_dates Sample.fromisoformat_date "garden" 48 Sample.two_pages).1 ≠ Raised x.
Proof.
  assert (Hin : "garden" ∈ CALENDARS.*1) by (apply (bool_decide_unpack _); vm_compute; exact I).
  assert (Hv : valid (today Sample.two_pages)) by (vm_compute; split; discriminate).
  assert (Hno : ¬ valid (today Sample.two_pages + 100000 * 30))
    by (intros [_ H]; vm_compute in H; apply H; reflexivity).
  split; [exact Hv|]. split; [exact Hno|]. split.
  - exact (proj1 (booked_dates_raise_from_window_or_token Sample.fromisoformat_date
                    "garden" 100000 Sample.two_pages Hin Hv) Hno).
  - split; [exact two_pages_settled|].
    apply (proj2 (booked_dates_raise_from_window_or_token Sample.fromisoformat_date
                    "garden" 48 Sample.two_pages Hin Hv)).
    + vm_compute. split; discriminate.
    + exact two_pages_settled.
Defined.

Lemma refresh_keeps_the_keys_witness :
  ("cellar" ∉ VENUES) ∧
  _cache (refresh_cache Sample.fromisoformat_date Sample2.with_cellar).2 !! "cellar"
    = Some {| booked_dates := Sample.june_12_13; last_updated := None |}.
Proof.
  assert (Hout : "cellar" ∉ VENUES) by (apply (bool_decide_unpack _); vm_compute; exact I).
  split; [exact Hout|].
  rewrite (proj2 (refresh_keeps_the_keys Sample.fromisoformat_date Sample2.with_cellar)
             "cellar" Hout).
  reflexivity.
Defined.

Lemma settled_refresh_does_not_raise_witness :
  settled Sample.one_refresh ∧ window_exists 48 Sample.one_refresh ∧
  venues_cached Sample.one_refresh ∧
  ∀ x, (refresh_cache Sample.fromisoformat_date Sample.one_refresh).1 ≠ Raised x.
Proof.
  split; [exact one_refresh_settled|]. split; [apply started_window|].
  split; [exact (initial_cache_cached Sample.one_refresh eq_refl)|].
  exact (settled_refresh_does_not_raise Sample.fromisoformat_date Sample.one_refresh
           one_refresh_settled (started_window _ _)
           (initial_cache_cached Sample.one_refresh eq_refl)).
Defined.

Lemma unconfigured_refresh_clears_the_cache_witness :
  truthy (getenv "MS_REFRESH_TOKEN" (Sample.with_booked "garden" Sample.june_12_13)) = false ∧
  (refresh_cache Sample.fromisoformat_date
     (Sample.with_booked "garden" Sample.june_12_13)).1 = Returned tt ∧
  _cache (refresh_cache Sample.fromisoformat_date
            (Sample.with_booked "garden" Sample.june_12_13)).2 !! "garden"
    = Some {| booked_dates := ∅; last_updated := Some Sample.noon |}.
Proof.
  split; [reflexivity|].
  destruct (unconfigured_refresh_clears_the_cache Sample.fromisoformat_date
              (Sample.with_booked "garden" Sample.june_12_13) eq_refl)
    as (H1 & _ & _ & H4).
  - split; vm_compute; split; discriminate.
  - intros v Hv.
    repeat (apply elem_of_cons in Hv as [->|Hv]; [by eexists|]).
    by apply elem_of_nil in Hv.
  - split; [exact H1|]. apply H4.
    apply (bool_decide_unpack _). vm_compute. exact I.
Defined.

Lemma days_beyond_the_window_show_available_witness :
  (refresh_cache Sample.fromisoformat_date Sample2.late_refresh).1 = Returned tt ∧
  ∃ entry,
    _cache (refresh_cache Sample.fromisoformat_date Sample2.late_refresh).2 !! "garden"
      = Some entry ∧
    available (day_record (booked_dates entry) (_ymd2ord 2029 12 20)) = true.
Proof.
  assert (Hret : (refresh_cache Sample.fromisoformat_date Sample2.late_refresh).1
                 = Returned tt) by (vm_compute; reflexivity).
  split; [exact Hret|].
  destruct (days_beyond_the_window_show_available Sample.fromisoformat_date
              Sample2.late_refresh "garden" 2029
              (weekend_records ∅ (_ymd2ord 2029 1 1) (_ymd2ord 2029 12 31)) Hret)
    as (entry & ds & He & _ & Hfar).
  - apply (bool_decide_unpack _). vm_compute. exact I.
  - vm_compute. reflexivity.
  - exists entry. split; [exact He|]. apply Hfar. vm_compute. reflexivity.
Defined.

Lemma before_the_first_refresh_all_is_available_witness :
  _cache (Sample.started ∅ []) = initial_cache ∧
  ∃ a, Api.get_availability "garden" None (Sample.started ∅ []) = Api.Answer a ∧
       Api.lastUpdated a = None ∧ Forall (λ r, available r = true) (Api.days a).
Proof.
  split; [reflexivity|]. eexists. split; [vm_compute; reflexivity|].
  apply (before_the_first_refresh_all_is_available "garden" None (Sample.started ∅ []));
    [reflexivity | vm_compute; reflexivity].
Defined.

Lemma endpoint_serves_the_last_fetch_witness :
  (refresh_cache Sample.fromisoformat_date Sample.one_refresh).1 = Returned tt ∧
  VENUES = ["garden"] ++ "ballroom" :: [] ∧
  ∃ a,
    Api.get_availability "ballroom" None
      (refresh_cache Sample.fromisoformat_date Sample.one_refresh).2 = Api.Answer a ∧
    Api.lastUpdated a = Some "2026-01-01T12:00:03+00:00" ∧
    ∃ b wb ds,
      get_booked_dates Sample.fromisoformat_date "ballroom" 48
        (refresh_venues Sample.fromisoformat_date ["garden"] Sample.one_refresh).2
        = (Returned b, wb) ∧
      Api.lastUpdated a = Some (Api.datetime_isoformat (clock wb)) ∧
      Api.days a = day_record b <$> ds.
Proof.
  assert (Hret : (refresh_cache Sample.fromisoformat_date Sample.one_refresh).1 = Returned tt)
    by (vm_compute; reflexivity).
  split; [exact Hret|]. split; [reflexivity|].
  eexists. split; [vm_compute; reflexivity|]. split; [reflexivity|].
  apply (endpoint_serves_the_last_fetch Sample.fromisoformat_date "ballroom" None
           Sample.one_refresh _ ["garden"] [] Hret); [|reflexivity].
  vm_compute. reflexivity.
Defined.

Lemma token_call_raises_only_on_early_expiry_witness :
  ¬ (0 ≤ timedelta_minutes 4 - timedelta_minutes 5 ≤ DATETIME_MAX) ∧
  (get_access_token (get_access_token Sample2.backdated_token).2).1
    = Raised OverflowError.
Proof.
  assert (Hno : ¬ (0 ≤ timedelta_minutes 4 - timedelta_minutes 5 ≤ DATETIME_MAX))
    by (vm_compute; intros [H _]; by apply H).
  split; [exact Hno|].
  apply (proj1 (token_call_raises_only_on_early_expiry
                  (get_access_token Sample2.backdated_token).2 OverflowError)).
  split; [reflexivity|]. split; [vm_compute; reflexivity|].
  exists "tok", (timedelta_minutes 4).
  split; [vm_compute; reflexivity|]. split; [reflexivity|].
  split; [vm_compute; reflexivity | exact Hno].
Defined.

Lemma unconfigured_process_asks_nothing_witness :
  truthy (getenv "MS_REFRESH_TOKEN" Sample2.unconfigured) = false ∧
  get_access_token Sample2.unconfigured = (Returned None, Sample2.unconfigured) ∧
  get_booked_dates Sample.fromisoformat_date "garden" 48 Sample2.unconfigured
    = (Returned ∅, Sample2.unconfigured).
Proof.
  split; [reflexivity|].
  destruct (unconfigured_process_asks_nothing Sample.fromisoformat_date
              Sample2.unconfigured eq_refl) as (H1 & _ & H3).
  split; [exact H1|].
  apply H3; vm_compute; split; discriminate.
Defined.

End MoreWitnesses.
